(** * upm installer: a shallow embedding of [install.py] and of the
    [install] command of [upython/upm/main.py], with the properties of the
    specification stated over it.

    Conventions.  Python strings are [string]; a Python dict that is
    iterated ([deps.items()], [manifest.script.items()]) is an association
    list in iteration order; the filesystem is a directory tree whose
    entries are kept in listing order; a method that prints, touches the
    filesystem or may raise is a computation in the monad [M] below. *)

From Stdlib Require Import String Ascii List Bool Arith ZArith Lia DecimalString.
Import ListNotations.
Open Scope string_scope.
Open Scope list_scope.

Set Implicit Arguments.
Set Warnings "-register-all".
Set Warnings "-notation-overridden".
Set Warnings "-notation-incompatible-prefix".

(* ================================================================== *)
(** * Python strings                                                   *)
(* ================================================================== *)

(** String concatenation ([+] on Python strings). *)
Infix "+++" := String.append (at level 60, right associativity).

Definition chars (s : string) : list ascii := list_ascii_of_string s.
Definition str (l : list ascii) : string := string_of_list_ascii l.

(** The double quote character, used by the message templates. *)
Definition dq : string := String "034"%char EmptyString.
Definition nl : string := String "010"%char EmptyString.
Definition sep : ascii := "/"%char.

(** [bool(s)] for a string: the empty string is falsy. *)
Definition truthy (s : string) : bool :=
  match s with EmptyString => false | String _ _ => true end.

Fixpoint startswith_l (p s : list ascii) : bool :=
  match p, s with
  | [], _ => true
  | a :: p', b :: s' => Ascii.eqb a b && startswith_l p' s'
  | _ :: _, [] => false
  end.

Definition startswith (s p : string) : bool := startswith_l (chars p) (chars s).
Definition endswith (s p : string) : bool :=
  startswith_l (rev (chars p)) (rev (chars s)).

(** [s.split('/')]: the (possibly empty) pieces between separators. *)
Fixpoint split_l (c : ascii) (s : list ascii) : list (list ascii) :=
  match s with
  | [] => [[]]
  | a :: s' =>
      if Ascii.eqb a c then [] :: split_l c s'
      else match split_l c s' with
           | [] => [[a]]
           | w :: ws => (a :: w) :: ws
           end
  end.

Definition split (c : ascii) (s : string) : list string :=
  map str (split_l c (chars s)).

(** ['/'.join(parts)]. *)
Fixpoint join_with (d : string) (parts : list string) : string :=
  match parts with
  | [] => EmptyString
  | [p] => p
  | p :: ps => p +++ d +++ join_with d ps
  end.

(** [s.rstrip('/')]. *)
Definition rstrip_sep (s : string) : string :=
  let fix drop (l : list ascii) : list ascii :=
    match l with
    | [] => []
    | a :: l' => if Ascii.eqb a sep then drop l' else l
    end in
  str (rev (drop (rev (chars s)))).

Definition all_sep (s : string) : bool :=
  forallb (fun a => Ascii.eqb a sep) (chars s).

(* ================================================================== *)
(** * [fnmatch.fnmatch] (POSIX, where [normcase] is the identity)       *)
(* ================================================================== *)

(** The shell pattern after [fnmatch.translate]: [*] is [.*], [?] is [.],
    [[seq]] is a character set, everything else a literal. *)
Inductive glob : Type :=
| GStar
| GAny
| GLit (c : ascii)
| GSet (negated : bool) (ranges : list (ascii * ascii)).

(** The items of a character set: [a-b] is a range, any other character
    stands for itself (a trailing or leading [-] is literal). *)
Fixpoint set_ranges (stuff : list ascii) : list (ascii * ascii) :=
  match stuff with
  | a :: rest =>
      match rest with
      | m :: b :: rest' =>
          if Ascii.eqb m "-"%char then (a, b) :: set_ranges rest'
          else (a, a) :: set_ranges rest
      | _ => (a, a) :: set_ranges rest
      end
  | [] => []
  end.

Definition glob_set (stuff : list ascii) : glob :=
  match stuff with
  | a :: body =>
      if Ascii.eqb a "!"%char then GSet true (set_ranges body)
      else GSet false (set_ranges stuff)
  | [] => GSet false []
  end.

(** [break_at c s]: the text before the first [c] and the text after it. *)
Fixpoint break_at (c : ascii) (s : list ascii) : option (list ascii * list ascii) :=
  match s with
  | [] => None
  | a :: s' =>
      if Ascii.eqb a c then Some ([], s')
      else match break_at c s' with
           | Some (pre, post) => Some (a :: pre, post)
           | None => None
           end
  end.

(** The scan for the closing bracket of [translate]: a leading [!] and a
    [\]] right after it belong to the set; without a closing bracket the
    opening one is a literal. *)
Definition scan_set (p : list ascii) : option (list ascii * list ascii) :=
  let '(pre1, p1) :=
    match p with
    | a :: t => if Ascii.eqb a "!"%char then ([a], t) else ([], p)
    | [] => ([], p)
    end in
  let '(pre2, p2) :=
    match p1 with
    | a :: t => if Ascii.eqb a "]"%char then (pre1 ++ [a], t) else (pre1, p1)
    | [] => (pre1, p1)
    end in
  match break_at "]"%char p2 with
  | Some (mid, rest) => Some (pre2 ++ mid, rest)
  | None => None
  end.

(** [fnmatch.translate].  The recursion follows the index [i] of the
    source loop; [fuel] bounds it by the length of the pattern. *)
Fixpoint translate_l (fuel : nat) (pat : list ascii) : list glob :=
  match fuel with
  | O => []
  | S fuel' =>
      match pat with
      | [] => []
      | c :: t =>
          if Ascii.eqb c "*"%char then GStar :: translate_l fuel' t
          else if Ascii.eqb c "?"%char then GAny :: translate_l fuel' t
          else if Ascii.eqb c "["%char then
            match scan_set t with
            | None => GLit c :: translate_l fuel' t
            | Some (stuff, rest) => glob_set stuff :: translate_l fuel' rest
            end
          else GLit c :: translate_l fuel' t
      end
  end.

Definition translate (pat : string) : list glob :=
  translate_l (String.length pat) (chars pat).

Definition in_range (c : ascii) (r : ascii * ascii) : bool :=
  Nat.leb (nat_of_ascii (fst r)) (nat_of_ascii c) &&
  Nat.leb (nat_of_ascii c) (nat_of_ascii (snd r)).

(** The compiled pattern is anchored at both ends ([re.match] and [\Z]),
    and [.] matches every character ([(?s:...)]), the separator too. *)
Fixpoint glob_match (g : list glob) (s : list ascii) {struct g} : bool :=
  match g with
  | [] => match s with [] => true | _ :: _ => false end
  | GStar :: g' =>
      (fix star (s : list ascii) : bool :=
         glob_match g' s ||
         match s with [] => false | _ :: s' => star s' end) s
  | GAny :: g' =>
      match s with [] => false | _ :: s' => glob_match g' s' end
  | GLit c :: g' =>
      match s with [] => false | a :: s' => Ascii.eqb a c && glob_match g' s' end
  | GSet neg rs :: g' =>
      match s with
      | [] => false
      | a :: s' => xorb neg (existsb (in_range a) rs) && glob_match g' s'
      end
  end.

Definition fnmatch (filename pat : string) : bool :=
  glob_match (translate pat) (chars filename).

(* ================================================================== *)
(** * File selection ([install.py], lines 46-65)                        *)
(* ================================================================== *)

Definition PPYM_INSTALLED_FILES : string := ".ppym-installed-files".

Definition default_exclude_patterns : list string :=
  [".DS_Store"; ".svn/*"; ".git"; ".git/*"; "ppy_modules/*";
   "*.pyc"; "*.pyo"; "dist/*"].

Definition _match_any_pattern (filename : string) (patterns : list string) : bool :=
  existsb (fun x => fnmatch filename x) patterns.

Definition _check_include_file (filename : string)
    (include_patterns exclude_patterns : list string) : bool :=
  if _match_any_pattern filename exclude_patterns then false
  else match include_patterns with
       | [] => true
       | _ :: _ => _match_any_pattern filename include_patterns
       end.

(* ================================================================== *)
(** * [os.path] (posixpath)                                            *)
(* ================================================================== *)

(** [os.path.join(a, b)]. *)
Definition path_join (a b : string) : string :=
  if startswith b "/" then b
  else if negb (truthy a) || endswith a "/" then a +++ b
  else a +++ "/" +++ b.

Definition path_join3 (a b c : string) : string := path_join (path_join a b) c.

Definition isabs (p : string) : bool := startswith p "/".

(** [os.path.basename] and [os.path.dirname]: split at the last separator. *)
Definition basename (p : string) : string :=
  last (split sep p) EmptyString.

Definition dirname (p : string) : string :=
  let head := str (firstn (String.length p - String.length (basename p)) (chars p)) in
  if truthy head && negb (all_sep head) then rstrip_sep head else head.

(** One step of the component loop of [normpath]; the stack is kept with
    its last component first. *)
Definition normpath_step (initial_slashes : nat) (stack : list string) (comp : string)
  : list string :=
  if String.eqb comp EmptyString || String.eqb comp "." then stack
  else if negb (String.eqb comp "..")
          || (Nat.eqb initial_slashes 0 && match stack with [] => true | _ => false end)
          || match stack with top :: _ => String.eqb top ".." | [] => false end
       then comp :: stack
       else match stack with _ :: rest => rest | [] => stack end.

Definition normpath (path : string) : string :=
  if negb (truthy path) then "."
  else
    let initial_slashes :=
      if startswith path "/" then
        if startswith path "//" && negb (startswith path "///") then 2 else 1
      else 0 in
    let comps := fold_left (normpath_step initial_slashes) (split sep path) [] in
    let res := str (repeat sep initial_slashes) +++ join_with "/" (rev comps) in
    if truthy res then res else ".".

Definition abspath (cwd path : string) : string :=
  normpath (if isabs path then path else path_join cwd path).

(** The non-empty components of the absolute form of a path. *)
Definition components (cwd path : string) : list string :=
  filter truthy (split sep (abspath cwd path)).

Fixpoint common_prefix_len (a b : list string) : nat :=
  match a, b with
  | x :: a', y :: b' => if String.eqb x y then S (common_prefix_len a' b') else 0
  | _, _ => 0
  end.

(** [os.path.relpath(path, start)], for a non-empty [path]. *)
Definition relpath (cwd path start : string) : string :=
  let start_list := components cwd start in
  let path_list := components cwd path in
  let i := common_prefix_len start_list path_list in
  let rel_list := repeat ".." (List.length start_list - i) ++ skipn i path_list in
  match rel_list with
  | [] => "."
  | c :: cs => fold_left path_join cs c
  end.

(* ================================================================== *)
(** * The filesystem                                                   *)
(* ================================================================== *)

(** A directory keeps its entries in listing order (the order in which
    [scandir] reports them).  There are no symbolic links. *)
Inductive node : Type :=
| File (data : string)
| Dir (entries : list (string * node)).

Definition FS : Type := node.

Fixpoint entry (name : string) (es : list (string * node)) : option node :=
  match es with
  | [] => None
  | (k, n) :: es' => if String.eqb k name then Some n else entry name es'
  end.

(** Replace the entry in place, or add it at the end of the listing. *)
Fixpoint set_entry (name : string) (new : node) (es : list (string * node))
  : list (string * node) :=
  match es with
  | [] => [(name, new)]
  | (k, n) :: es' =>
      if String.eqb k name then (k, new) :: es' else (k, n) :: set_entry name new es'
  end.

Fixpoint del_entry (name : string) (es : list (string * node)) : list (string * node) :=
  match es with
  | [] => []
  | (k, n) :: es' =>
      if String.eqb k name then es' else (k, n) :: del_entry name es'
  end.

Fixpoint lookup_node (p : list string) (n : node) : option node :=
  match p with
  | [] => Some n
  | c :: p' =>
      match n with
      | File _ => None
      | Dir es =>
          match entry c es with
          | Some n' => lookup_node p' n'
          | None => None
          end
      end
  end.

(** Put [new] at [p]; the parent directory has to exist. *)
Fixpoint put_node (p : list string) (new : node) (n : node) : option node :=
  match p with
  | [] => Some new
  | c :: p' =>
      match n with
      | File _ => None
      | Dir es =>
          match p' with
          | [] => Some (Dir (set_entry c new es))
          | _ :: _ =>
              match entry c es with
              | Some n' =>
                  match put_node p' new n' with
                  | Some n'' => Some (Dir (set_entry c n'' es))
                  | None => None
                  end
              | None => None
              end
          end
      end
  end.

(** Create the directory at [p] and every missing ancestor; fails when a
    file is in the way. *)
Fixpoint mkdirs_node (p : list string) (n : node) : option node :=
  match n with
  | File _ => None
  | Dir es =>
      match p with
      | [] => Some n
      | c :: p' =>
          match mkdirs_node p' (match entry c es with Some n' => n' | None => Dir [] end) with
          | Some n'' => Some (Dir (set_entry c n'' es))
          | None => None
          end
      end
  end.

Fixpoint del_node (p : list string) (n : node) : option node :=
  match p with
  | [] => None
  | c :: p' =>
      match n with
      | File _ => None
      | Dir es =>
          match p' with
          | [] => match entry c es with
                  | Some _ => Some (Dir (del_entry c es))
                  | None => None
                  end
          | _ :: _ =>
              match entry c es with
              | Some n' =>
                  match del_node p' n' with
                  | Some n'' => Some (Dir (set_entry c n'' es))
                  | None => None
                  end
              | None => None
              end
          end
      end
  end.

Section Filesystem.

(** The process's working directory ([os.getcwd()]). *)
Variable cwd : string.

(** The node a path names; the empty path names nothing. *)
Definition stat (fs : FS) (path : string) : option node :=
  if truthy path then lookup_node (components cwd path) fs else None.

Definition isdir (fs : FS) (path : string) : bool :=
  match stat fs path with Some (Dir _) => true | _ => false end.

Definition isfile (fs : FS) (path : string) : bool :=
  match stat fs path with Some (File _) => true | _ => false end.

Definition exists_ (fs : FS) (path : string) : bool :=
  match stat fs path with Some _ => true | None => false end.

Definition is_dir_node (e : string * node) : bool :=
  match snd e with Dir _ => true | File _ => false end.

(** [os.scandir] as [os.walk] uses it: the names of the sub-directories
    and of the other entries, each in listing order. *)
Definition scandir (fs : FS) (path : string) : option (list string * list string) :=
  match stat fs path with
  | Some (Dir es) =>
      Some (map fst (filter is_dir_node es),
            map fst (filter (fun e => negb (is_dir_node e)) es))
  | _ => None
  end.

End Filesystem.

(* ================================================================== *)
(** * Exceptions, effects and the monad of the methods                  *)
(* ================================================================== *)

(** The exception classes the installer meets. *)
Inductive exn : Type :=
| NameError (name : string)
| PackageNotFound (package : string)
| InvalidPackageManifest (reason : string)
| ResolveError (request : string)
| FileNotFoundError (path : string)
| FileExistsError (path : string)
| IsADirectoryError (path : string)
| NotADirectoryError (path : string)
| SameFileError (path : string)
| AssertionError (detail : string)
| OtherError (class detail : string).

(** [isinstance(e, OSError)]. *)
Definition is_OSError (e : exn) : bool :=
  match e with
  | FileNotFoundError _ | FileExistsError _ | IsADirectoryError _
  | NotADirectoryError _ | SameFileError _ => true
  | OtherError class _ => String.eqb class "OSError"
  | _ => false
  end.

(** [str(e)]. *)
Definition exn_str (e : exn) : string :=
  match e with
  | NameError n => "name '" +++ n +++ "' is not defined"
  | PackageNotFound p => p
  | InvalidPackageManifest r => r
  | ResolveError r => r
  | FileNotFoundError p => "[Errno 2] No such file or directory: '" +++ p +++ "'"
  | FileExistsError p => "[Errno 17] File exists: '" +++ p +++ "'"
  | IsADirectoryError p => "[Errno 21] Is a directory: '" +++ p +++ "'"
  | NotADirectoryError p => "[Errno 20] Not a directory: '" +++ p +++ "'"
  | SameFileError p => p
  | AssertionError d => d
  | OtherError _ d => d
  end.

(** The result of a call: a value, an exception that leaves the call, or
    the model's own bound on recursion depth reached. *)
Inductive Res (A : Type) : Type :=
| Ret (a : A)
| Raise (e : exn)
| OutOfFuel.

Arguments Ret {A} a.
Arguments Raise {A} e.
Arguments OutOfFuel {A}.

(** The result of a collaborator outside the model: it returns or raises. *)
Inductive Outcome (A : Type) : Type :=
| Returns (a : A)
| Raises (e : exn).

Arguments Returns {A} a.
Arguments Raises {A} e.

Definition res_of {A} (o : Outcome A) : Res A :=
  match o with
  | Returns a => Ret a
  | Raises e => Raise e
  end.

(** What a run does to the outside, in order. *)
Inductive event : Type :=
| Print (line : string)
| Traceback (e : exn)
| Makedirs (path : string)
| CopyFile (src dst : string)
| WriteFile (path data : string)
| Remove (path : string)
| Rmtree (path : string)
| RegistryFind (name selector : string)
| RegistryDownload (name version : string)
| ScriptCreated (script_name : string) (paths : list string)
| External (what : string) (args : list string).

Record World : Type := mkWorld {
  fs : FS;
  trace : list event
}.

Definition M (A : Type) : Type := World -> Res A * World.

Definition ret {A} (a : A) : M A := fun w => (Ret a, w).

Definition bind {A B} (c : M A) (k : A -> M B) : M B :=
  fun w =>
    match c w with
    | (Ret a, w') => k a w'
    | (Raise e, w') => (Raise e, w')
    | (OutOfFuel, w') => (OutOfFuel, w')
    end.

Definition raise {A} (e : exn) : M A := fun w => (Raise e, w).

Definition out_of_fuel {A} : M A := fun w => (OutOfFuel, w).

Declare Scope monad_scope.
Delimit Scope monad_scope with monad.
Notation "x <- c ;; k" := (bind c (fun x => k))
  (at level 61, c at next level, right associativity) : monad_scope.
Notation "c ;; k" := (bind c (fun _ => k))
  (at level 61, right associativity) : monad_scope.
Open Scope monad_scope.

(** [try: c  except ...: h]: the handler of an exception no clause matches
    is [None], and the exception goes on. *)
Definition try_except {A} (c : M A) (h : exn -> option (M A)) : M A :=
  fun w =>
    match c w with
    | (Raise e, w') =>
        match h e with
        | Some handler => handler w'
        | None => (Raise e, w')
        end
    | r => r
    end.

(** [try: c  finally: f]. *)
Definition try_finally {A} (c : M A) (f : M unit) : M A :=
  fun w =>
    match c w with
    | (OutOfFuel, w') => (OutOfFuel, w')
    | (r, w') =>
        match f w' with
        | (Ret _, w'') => (r, w'')
        | (Raise e, w'') => (Raise e, w'')
        | (OutOfFuel, w'') => (OutOfFuel, w'')
        end
    end.

Definition emit (e : event) : M unit :=
  fun w => (Ret tt, mkWorld (fs w) (trace w ++ [e])).

(** [print(line)]. *)
Definition print (line : string) : M unit := emit (Print line).

Definition get_fs : M FS := fun w => (Ret (fs w), w).

Definition put_fs (new : FS) : M unit := fun w => (Ret tt, mkWorld new (trace w)).

(** A collaborator that works on the filesystem: it returns or raises,
    and leaves a filesystem behind either way. *)
Definition Ext (A : Type) : Type := FS -> Outcome A * FS.

Definition call_ext {A} (what : string) (args : list string) (f : Ext A) : M A :=
  fun w =>
    let '(r, fs') := f (fs w) in
    (res_of r, mkWorld fs' (trace w ++ [External what args])).

Definition lift_out {A} (r : Outcome A) : M A := fun w => (res_of r, w).

Definition same_components (a b : list string) : bool :=
  if list_eq_dec string_dec a b then true else false.

Section FileOperations.

Variable cwd : string.

(** [os.makedirs(path)]. *)
Definition os_makedirs (path : string) : M unit :=
  cur <- get_fs ;;
  if negb (truthy path) then raise (FileNotFoundError path)
  else if exists_ cwd cur path then raise (FileExistsError path)
  else match mkdirs_node (components cwd path) cur with
       | Some new => put_fs new ;; emit (Makedirs path)
       | None => raise (NotADirectoryError path)
       end.

(** [_makedirs] (lines 51-53). *)
Definition _makedirs (path : string) : M unit :=
  cur <- get_fs ;;
  if negb (isdir cwd cur path) then os_makedirs path else ret tt.

(** Reading a whole file opened with [open(path, 'r')]. *)
Definition read_file (path : string) : M string :=
  cur <- get_fs ;;
  match stat cwd cur path with
  | Some (File data) => ret data
  | Some (Dir _) => raise (IsADirectoryError path)
  | None => raise (FileNotFoundError path)
  end.

(** [open(path, 'w')], the writes and the close. *)
Definition write_file (path data : string) : M unit :=
  cur <- get_fs ;;
  if negb (truthy path) then raise (FileNotFoundError path)
  else if isdir cwd cur path then raise (IsADirectoryError path)
  else match put_node (components cwd path) (File data) cur with
       | Some new => put_fs new ;; emit (WriteFile path data)
       | None => raise (FileNotFoundError path)
       end.

(** [shutil.copyfile(src, dst)]. *)
Definition shutil_copyfile (src dst : string) : M unit :=
  cur <- get_fs ;;
  if truthy src && truthy dst
     && same_components (components cwd src) (components cwd dst)
     && exists_ cwd cur src
  then raise (SameFileError src)
  else
    match stat cwd cur src with
    | Some (File data) =>
        if negb (truthy dst) then raise (FileNotFoundError dst)
        else if isdir cwd cur dst then raise (IsADirectoryError dst)
        else match put_node (components cwd dst) (File data) cur with
             | Some new => put_fs new ;; emit (CopyFile src dst)
             | None => raise (FileNotFoundError dst)
             end
    | Some (Dir _) => raise (IsADirectoryError src)
    | None => raise (FileNotFoundError src)
    end.

(** [os.remove(path)]. *)
Definition os_remove (path : string) : M unit :=
  cur <- get_fs ;;
  match stat cwd cur path with
  | Some (File _) =>
      match del_node (components cwd path) cur with
      | Some new => put_fs new ;; emit (Remove path)
      | None => raise (FileNotFoundError path)
      end
  | Some (Dir _) => raise (IsADirectoryError path)
  | None => raise (FileNotFoundError path)
  end.

(** [shutil.rmtree(path)]. *)
Definition shutil_rmtree (path : string) : M unit :=
  cur <- get_fs ;;
  match stat cwd cur path with
  | Some (Dir _) =>
      match del_node (components cwd path) cur with
      | Some new => put_fs new ;; emit (Rmtree path)
      | None => raise (OtherError "OSError" path)
      end
  | Some (File _) => raise (NotADirectoryError path)
  | None => raise (FileNotFoundError path)
  end.

End FileOperations.

(* ================================================================== *)
(** * The data model                                                   *)
(* ================================================================== *)

(** A semantic version, by its canonical text. *)
Definition Version : Type := string.

(** A version selector: callable on a version, and printable. *)
Record Selector : Type := mkSelector {
  sel_text : string;
  sel_matches : Version -> bool
}.

Record PackageManifest : Type := mkManifest {
  m_name : string;
  m_version : Version;
  m_dependencies : list (string * Selector);
  m_python_dependencies : list (string * string);
  m_dist : list (string * list string);
  m_script : list (string * string);
  m_bin : list (string * string);
  m_postinstall : option string;
  m_directory : string
}.

(** Modelled from the spec: the manifest class is not part of the sources
    at hand; its [identifier] is the derived display string combining name
    and version, [name@version]. *)
Definition identifier (m : PackageManifest) : string :=
  m_name m +++ "@" +++ m_version m.

(** Modelled from the spec: [refstring.join(name, version=selector)]
    renders [name@selector]. *)
Definition refstring_join (n : string) (v : Selector) : string :=
  n +++ "@" +++ sel_text v.

(** [d.get(key, default)] on a dict kept as an association list. *)
Fixpoint dict_get {V} (d : list (string * V)) (key : string) (default : V) : V :=
  match d with
  | [] => default
  | (k, v) :: d' => if String.eqb k key then v else dict_get d' key default
  end.

Record PackageInfo : Type := mkInfo {
  info_name : string;
  info_version : Version
}.

(** The body of a download response. *)
Definition Response : Type := string.

(** The registry client, as far as the installer uses it. *)
Record RegistryClient : Type := mkRegistry {
  reg_find_package : string -> Selector -> Outcome PackageInfo;
  reg_download : string -> Version -> Outcome Response
}.

Record Dirs : Type := mkDirs {
  d_packages : string;
  d_bin : string;
  d_python_modules : string;
  d_reference_dir : option string
}.

(** The fields of an [Installer] object. *)
Record Installer : Type := mkInstaller {
  reg : RegistryClient;
  upgrade : bool;
  global_ : bool;
  strict : bool;
  dirs : Dirs
}.

(** The collaborators of the installer that live outside the two source
    files: configuration, the module resolution session, the script
    generators, the runtime's script runner, pip, tar and temporary files,
    the download helpers, the reference-string and selector parsers. *)
Record Runtime : Type := mkRuntime {
  rt_cwd : string;
  config_registry : string;
  config_prefix : string;
  RegistryClient_new : string -> RegistryClient;
  session_resolve : FS -> string -> Outcome string;
  session_get_manifest : FS -> string -> Outcome PackageManifest;
  make_command_script : string -> string -> list string -> Ext (list string);
  make_ppy_runner : string -> string -> string -> option string -> Ext (list string);
  shlex_split : string -> Outcome (list string);
  pip_install : list string -> Ext Z;
  upython_main_run : string -> Ext unit;
  tarfile_extractall : string -> string -> Ext unit;
  tempfile_mkdtemp : string -> Ext string;
  tempfile_NamedTemporaryFile : string -> Ext string;
  get_response_filename : Response -> Outcome string;
  download_to_fileobj : Response -> string -> Ext unit;
  refstring_parse : string -> Outcome (string * option Selector);
  semver_Selector : string -> Outcome Selector
}.

(* ================================================================== *)
(** * The module namespace of [install.py]                              *)
(* ================================================================== *)

(** The names bound at module level (lines 21-88 and 387), each with the
    text its value prints as, and [require], which the module loader
    provides. *)
Definition module_namespace : list (string * string) :=
  [("__all__", "['InstallError', 'Installer', 'walk_package_files']");
   ("os", "<module 'os'>"); ("pip", "<module 'pip'>");
   ("shlex", "<module 'shlex'>"); ("shutil", "<module 'shutil'>");
   ("tarfile", "<module 'tarfile'>"); ("tempfile", "<module 'tempfile'>");
   ("traceback", "<module 'traceback'>"); ("fnmatch", "<function fnmatch>");
   ("_registry", "<module './registry'>"); ("_config", "<module './config'>");
   ("_download", "<module './utils/download'>");
   ("_script", "<module './utils/script'>");
   ("refstring", "<module '@ppym/refstring'>");
   ("parse_manifest", "<function parse>");
   ("PackageManifest", "<class 'PackageManifest'>");
   ("InvalidPackageManifest", "<class 'InvalidPackageManifest'>");
   ("PPYM_INSTALLED_FILES", PPYM_INSTALLED_FILES);
   ("default_exclude_patterns", "[...]");
   ("_makedirs", "<function _makedirs>");
   ("_match_any_pattern", "<function _match_any_pattern>");
   ("_check_include_file", "<function _check_include_file>");
   ("PackageNotFound", "<class 'PackageNotFound'>");
   ("walk_package_files", "<function walk_package_files>");
   ("Installer", "<class 'Installer'>");
   ("InstallError", "<class 'InstallError'>");
   ("require", "<require>")].

(** The built-in names of Python 3. *)
Definition builtins : list string :=
  ["abs"; "all"; "any"; "ascii"; "bin"; "bool"; "bytearray"; "bytes";
   "callable"; "chr"; "classmethod"; "compile"; "complex"; "copyright";
   "credits"; "delattr"; "dict"; "dir"; "divmod"; "enumerate"; "eval";
   "exec"; "exit"; "filter"; "float"; "format"; "frozenset"; "getattr";
   "globals"; "hasattr"; "hash"; "help"; "hex"; "id"; "input"; "int";
   "isinstance"; "issubclass"; "iter"; "len"; "license"; "list"; "locals";
   "map"; "max"; "memoryview"; "min"; "next"; "object"; "oct"; "open";
   "ord"; "pow"; "print"; "property"; "quit"; "range"; "repr"; "reversed";
   "round"; "set"; "setattr"; "slice"; "sorted"; "staticmethod"; "str";
   "sum"; "super"; "tuple"; "type"; "vars"; "zip";
   "None"; "True"; "False"; "Ellipsis"; "NotImplemented";
   "BaseException"; "Exception"; "OSError"; "FileNotFoundError";
   "AssertionError"; "NameError"; "ValueError"; "TypeError"; "KeyError"].

(** Reading a name that is not a local of the running function: the
    module namespace, then the builtins, else [NameError]. *)
Definition load_global (name : string) : M string :=
  match find (fun b => String.eqb (fst b) name) module_namespace with
  | Some b => ret (snd b)
  | None =>
      if existsb (String.eqb name) builtins then ret ("<built-in " +++ name +++ ">")
      else raise (NameError name)
  end.

(* ================================================================== *)
(** * [walk_package_files] (lines 72-85)                                *)
(* ================================================================== *)

(** One step of [os.walk(top)], top-down: the directories still to visit
    are kept first-to-visit first; a directory that cannot be listed is
    skipped ([onerror] is not set); the sub-directories of the directory
    just listed are visited before its siblings.  The listing is taken
    when the generator is resumed, from the filesystem as it is then. *)
Fixpoint os_walk_next (cwd : string) (cur : FS) (pending : list string)
  : option ((string * list string * list string) * list string) :=
  match pending with
  | [] => None
  | top :: rest =>
      match scandir cwd cur top with
      | Some (subdirs, files) =>
          Some ((top, subdirs, files), map (path_join top) subdirs ++ rest)
      | None => os_walk_next cwd cur rest
      end
  end.

Section Walk.

Variable cwd : string.
Variable manifest : PackageManifest.
Variable A : Type.

(** What the consumer of the generator does with each [(abspath,
    relpath)] pair it is given, threading its own result. *)
Variable body : string -> string -> A -> M A.

Definition inpat : list string := dict_get (m_dist manifest) "include_files" [].
Definition expat : list string :=
  dict_get (m_dist manifest) "include_files" [] ++ default_exclude_patterns.

(** The inner loop, lines 81-85. *)
Fixpoint walk_files (root : string) (files : list string) (acc : A) : M A :=
  match files with
  | [] => ret acc
  | filename :: files' =>
      let filename := path_join root filename in
      let rel := relpath cwd filename (m_directory manifest) in
      acc' <- (if String.eqb rel "package.json" || _check_include_file rel inpat expat
               then body filename rel acc
               else ret acc) ;;
      walk_files root files' acc'
  end.

(** The outer loop, line 80; [fuel] bounds the number of directories
    visited. *)
Fixpoint walk_dirs (fuel : nat) (pending : list string) (acc : A) : M A :=
  match fuel with
  | O => out_of_fuel
  | S fuel' =>
      cur <- get_fs ;;
      match os_walk_next cwd cur pending with
      | None => ret acc
      | Some ((root, _, files), pending') =>
          acc' <- walk_files root files acc ;;
          walk_dirs fuel' pending' acc'
      end
  end.

(** [for (filename, rel) in walk_package_files(manifest): body]. *)
Definition walk_package_files (fuel : nat) (acc : A) : M A :=
  walk_dirs fuel [m_directory manifest] acc.

End Walk.

(** [list(walk_package_files(manifest))]. *)
Definition walk_package_files_list (cwd : string) (manifest : PackageManifest)
    (fuel : nat) : M (list (string * string)) :=
  walk_package_files cwd manifest
    (fun filename rel acc => ret (acc ++ [(filename, rel)])) fuel [].

(* ================================================================== *)
(** * The class [Installer] (lines 88-384)                              *)
(* ================================================================== *)

(** [Installer.__init__] (lines 93-111). *)
Definition Installer_init (rt : Runtime) (registry : option RegistryClient)
    (upgrade global_ strict : bool) : Installer :=
  mkInstaller
    (match registry with
     | Some r => r
     | None => RegistryClient_new rt (config_registry rt)
     end)
    upgrade global_ strict
    (if global_ then
       mkDirs (path_join (config_prefix rt) "ppy_modules")
              (path_join (config_prefix rt) "bin")
              (path_join (config_prefix rt) "pymodules")
              None
     else
       mkDirs "ppy_modules" "ppy_modules/.bin" "ppy_modules/.pymodules"
              (Some (rt_cwd rt))).

(** The methods of the class, as a call through [self] reaches them. *)
Record Class : Type := mkClass {
  find_package : Installer -> string -> M PackageManifest;
  uninstall : Installer -> string -> M bool;
  uninstall_directory : Installer -> string -> M bool;
  install_dependencies_for : Installer -> PackageManifest -> M bool;
  install_dependencies : Installer -> list (string * Selector) -> M bool;
  install_python_dependencies : Installer -> list (string * string) -> M bool;
  install_from_directory : Installer -> string -> option (string * Version) -> M bool;
  install_from_archive : Installer -> string -> option (string * Version) -> M bool;
  install_from_registry : Installer -> string -> Selector -> M bool
}.

Definition Z_str (z : Z) : string := DecimalString.NilZero.string_of_int (Z.to_int z).

(** The text of the file the ledger loop writes (lines 319-321). *)
Definition ledger_text (installed_files : list string) : string :=
  String.concat EmptyString (map (fun fn => fn +++ nl) installed_files).

(** The lines of a text file, each without its newline (lines 172-173). *)
Definition file_lines (data : string) : list string :=
  let pieces := split "010"%char data in
  if String.eqb (last pieces EmptyString) EmptyString then removelast pieces else pieces.

Section Methods.

Variable rt : Runtime.

(** The number of directories one package walk may visit. *)
Variable fuel : nat.

(** The class a call through [self] is dispatched to. *)
Variable cls : Class.

Let cwd := rt_cwd rt.

Definition get_manifest (filename : string) : M PackageManifest :=
  cur <- get_fs ;;
  lift_out (session_get_manifest rt cur filename).

(** Lines 113-136. *)
Definition Installer_find_package (self : Installer) (package : string)
  : M PackageManifest :=
  filename <-
    (if strict self then
       ret (Some (path_join3 (d_packages (dirs self)) package "package.json"))
     else
       try_except
         (cur <- get_fs ;;
          module_directory <- lift_out (session_resolve rt cur package) ;;
          ret (Some (path_join module_directory "package.json")))
         (fun e => match e with
                   | ResolveError _ => Some (ret None)
                   | _ => None
                   end)) ;;
  cur <- get_fs ;;
  match filename with
  | Some filename =>
      if truthy filename && isfile cwd cur filename then get_manifest filename
      else raise (PackageNotFound package)
  | None => raise (PackageNotFound package)
  end.

(** Lines 138-149. *)
Definition Installer_uninstall (self : Installer) (package_name : string) : M bool :=
  found <-
    try_except
      (manifest <- find_package cls self package_name ;; ret (Some manifest))
      (fun e => match e with
                | PackageNotFound _ =>
                    Some (print ("Package " +++ dq +++ package_name +++ dq +++ " not installed") ;;
                          ret None)
                | _ => None
                end) ;;
  match found with
  | None => ret false
  | Some manifest => uninstall_directory cls self (m_directory manifest)
  end.

(** The loop of lines 175-179. *)
Fixpoint remove_installed_files (installed_files : list string) : M unit :=
  match installed_files with
  | [] => ret tt
  | fn :: rest =>
      try_except (os_remove cwd fn)
        (fun exc =>
           if is_OSError exc
           then Some (print ("  " +++ dq +++ fn +++ dq +++ ": " +++ exn_str exc))
           else None) ;;
      remove_installed_files rest
  end.

(** Lines 151-181.  The handler of line 160 formats the name [ext]; the
    exception it caught is bound to [exc]. *)
Definition Installer_uninstall_directory (self : Installer) (directory : string)
  : M bool :=
  parsed <-
    try_except
      (manifest <- get_manifest (path_join directory "package.json") ;;
       ret (Some manifest))
      (fun e => match e with
                | InvalidPackageManifest _ =>
                    Some (ext <- load_global "ext" ;;
                          print ("Can not uninstall: directory " +++ dq +++ directory
                                 +++ dq +++ ": Invalid manifest" +++ dq +++ ": " +++ ext) ;;
                          ret None)
                | _ => None
                end) ;;
  match parsed with
  | None => ret false
  | Some manifest =>
      print ("Uninstalling " +++ dq +++ identifier manifest +++ dq +++ " from " +++ dq
             +++ directory +++ dq
             +++ (if upgrade self then " before upgrade" else EmptyString) +++ "...") ;;
      let filelist_fn := path_join directory PPYM_INSTALLED_FILES in
      cur <- get_fs ;;
      installed_files <-
        (if negb (isfile cwd cur filelist_fn) then
           print ("  Warning: No `" +++ PPYM_INSTALLED_FILES
                  +++ "` found in package directory") ;;
           ret []
         else
           data <- read_file cwd filelist_fn ;;
           ret (file_lines data)) ;;
      remove_installed_files installed_files ;;
      shutil_rmtree cwd directory ;;
      ret true
  end.

(** Lines 183-197. *)
Definition Installer_install_dependencies_for (self : Installer)
    (manifest : PackageManifest) : M bool :=
  ok <-
    (match m_dependencies manifest with
     | [] => ret true
     | _ :: _ =>
         print ("Installing dependencies for " +++ dq +++ identifier manifest +++ dq +++ "...") ;;
         install_dependencies cls self (m_dependencies manifest)
     end) ;;
  if negb ok then ret false
  else
    ok <-
      (match m_python_dependencies manifest with
       | [] => ret true
       | _ :: _ =>
           print ("Installing Python dependencies for " +++ dq +++ identifier manifest
                  +++ dq +++ "...") ;;
           install_python_dependencies cls self (m_python_dependencies manifest)
       end) ;;
    if negb ok then ret false else ret true.

(** The scan of lines 204-216: the entries to install, in the order of
    [deps.items()]. *)
Fixpoint scan_dependencies (self : Installer) (deps : list (string * Selector))
    (install_deps : list (string * Selector)) : M (list (string * Selector)) :=
  match deps with
  | [] => ret install_deps
  | (name, version) :: rest =>
      found <-
        try_except
          (dep <- find_package cls self name ;; ret (Some dep))
          (fun e => match e with
                    | PackageNotFound _ => Some (ret None)
                    | _ => None
                    end) ;;
      match found with
      | None => scan_dependencies self rest (install_deps ++ [(name, version)])
      | Some dep =>
          (if negb (sel_matches version (m_version dep)) then
             print ("  Warning: Dependency " +++ dq +++ name +++ "@" +++ sel_text version
                    +++ dq +++ " unsatisfied, have " +++ dq +++ identifier dep +++ dq
                    +++ " installed")
           else
             print ("  Skipping satisfied dependency " +++ dq +++ name +++ "@"
                    +++ sel_text version +++ dq +++ ", have " +++ dq +++ identifier dep
                    +++ " installed")) ;;
          scan_dependencies self rest install_deps
      end
  end.

(** The loop of lines 223-225. *)
Fixpoint install_queued (self : Installer) (install_deps : list (string * Selector))
  : M bool :=
  match install_deps with
  | [] => ret true
  | (name, version) :: rest =>
      ok <- install_from_registry cls self name version ;;
      if negb ok then ret false else install_queued self rest
  end.

(** Lines 199-227. *)
Definition Installer_install_dependencies (self : Installer)
    (deps : list (string * Selector)) : M bool :=
  install_deps <- scan_dependencies self deps [] ;;
  match install_deps with
  | [] => ret true
  | _ :: _ =>
      let depfmt :=
        join_with ", " (map (fun nv => refstring_join (fst nv) (snd nv)) install_deps) in
      print ("  Installing dependencies: " +++ depfmt) ;;
      install_queued self install_deps
  end.

(** Lines 229-253. *)
Definition Installer_install_python_dependencies (self : Installer)
    (deps : list (string * string)) : M bool :=
  let install_modules := map (fun nv => fst nv +++ snd nv) deps in
  match install_modules with
  | [] => ret true
  | _ :: _ =>
      print ("  Installing Python dependencies via Pip: " +++ join_with " " install_modules) ;;
      let cmd := ["--target"; d_python_modules (dirs self)] ++ install_modules in
      res <- call_ext "pip install" cmd (pip_install rt cmd) ;;
      if negb (Z.eqb res 0) then
        print ("Error: `pip install` failed with exit-code " +++ Z_str res) ;;
        ret false
      else ret true
  end.

(** A script generator at work: the files it reports as created are
    what the caller records. *)
Definition make_script (script_name : string) (generator : Ext (list string))
  : M (list string) :=
  fun w =>
    match generator (fs w) with
    | (Returns paths, fs') =>
        (Ret paths, mkWorld fs' (trace w ++ [ScriptCreated script_name paths]))
    | (Raises e, fs') => (Raise e, mkWorld fs' (trace w))
    end.

(** Lines 300-304: the body of the copy loop. *)
Definition copy_one (target_dir src rel : string) (installed_files : list string)
  : M (list string) :=
  let dst := path_join target_dir rel in
  _makedirs cwd (dirname dst) ;;
  print ("  Copying " +++ rel +++ " ...") ;;
  shutil_copyfile cwd src dst ;;
  ret (installed_files ++ [dst]).

(** Lines 295-304: the target directory and the copy of the package
    files; the result is [installed_files]. *)
Definition copy_package_files (manifest : PackageManifest) (target_dir : string)
  : M (list string) :=
  print ("Installing " +++ dq +++ identifier manifest +++ dq +++ " to " +++ dq
         +++ target_dir +++ dq +++ " ...") ;;
  _makedirs cwd target_dir ;;
  walk_package_files cwd manifest (copy_one target_dir) fuel [].

(** Lines 307-310. *)
Fixpoint install_command_scripts (self : Installer) (scripts : list (string * string))
    (installed_files : list string) : M (list string) :=
  match scripts with
  | [] => ret installed_files
  | (script_name, command) :: rest =>
      print ("  Installing script " +++ dq +++ script_name +++ dq +++ "...") ;;
      argv <- lift_out (shlex_split rt command) ;;
      created <- make_script script_name
                   (make_command_script rt script_name (d_bin (dirs self)) argv) ;;
      install_command_scripts self rest (installed_files ++ created)
  end.

(** Lines 311-315. *)
Fixpoint install_bin_scripts (self : Installer) (target_dir : string)
    (bins : list (string * string)) (installed_files : list string)
  : M (list string) :=
  match bins with
  | [] => ret installed_files
  | (script_name, filename) :: rest =>
      print ("  Installing script " +++ dq +++ script_name +++ dq +++ "...") ;;
      let filename := abspath cwd (path_join target_dir filename) in
      created <- make_script script_name
                   (make_ppy_runner rt script_name (d_bin (dirs self)) filename
                      (d_reference_dir (dirs self))) ;;
      install_bin_scripts self target_dir rest (installed_files ++ created)
  end.

(** Lines 317-321. *)
Definition write_installed_files (target_dir : string) (installed_files : list string)
  : M unit :=
  write_file cwd (path_join target_dir PPYM_INSTALLED_FILES) (ledger_text installed_files).

(** Lines 323-333.  Line 327 reads the name [upython]. *)
Definition run_postinstall (manifest : PackageManifest) (target_dir : string) : M bool :=
  match m_postinstall manifest with
  | None => ret true
  | Some postinstall =>
      if negb (truthy postinstall) then ret true
      else
        print ("  Running postinstall script " +++ dq +++ postinstall +++ dq +++ "...") ;;
        let filename := path_join target_dir postinstall in
        try_except
          (load_global "upython" ;;
           call_ext "upython.main.run" [filename] (upython_main_run rt filename) ;;
           ret true)
          (fun exc =>
             Some (print ("  Error in postinstall script " +++ dq +++ filename +++ dq) ;;
                   emit (Traceback exc) ;;
                   ret false))
  end.

(** Lines 295-333: everything after the dependencies are in place. *)
Definition place_package (self : Installer) (manifest : PackageManifest)
    (target_dir : string) : M bool :=
  installed_files <- copy_package_files manifest target_dir ;;
  installed_files <- install_command_scripts self (m_script manifest) installed_files ;;
  installed_files <- install_bin_scripts self target_dir (m_bin manifest) installed_files ;;
  write_installed_files target_dir installed_files ;;
  run_postinstall manifest target_dir.

Definition expect_mismatch (manifest : PackageManifest) (expect : option (string * Version))
  : bool :=
  match expect with
  | None => false
  | Some (n, v) => negb (String.eqb (m_name manifest) n && String.eqb (m_version manifest) v)
  end.

(** Lines 255-333. *)
Definition Installer_install_from_directory (self : Installer) (directory : string)
    (expect : option (string * Version)) : M bool :=
  parsed <-
    try_except
      (manifest <- get_manifest (path_join directory "package.json") ;;
       ret (Some manifest))
      (fun exc =>
         match exc with
         | FileNotFoundError _ =>
             Some (print ("Error: directory " +++ dq +++ directory +++ dq
                          +++ " contains no package manifest") ;;
                   ret None)
         | InvalidPackageManifest _ =>
             Some (print ("Error: directory " +++ dq +++ directory +++ dq +++ ": "
                          +++ exn_str exc) ;;
                   ret None)
         | _ => None
         end) ;;
  match parsed with
  | None => ret false
  | Some manifest =>
      if expect_mismatch manifest expect then
        print ("Error: Expected to install " +++ dq
               +++ match expect with Some (n, v) => n +++ "@" +++ v | None => EmptyString end
               +++ dq +++ " but got " +++ dq +++ identifier manifest +++ dq +++ " in " +++ dq
               +++ directory +++ dq) ;;
        ret false
      else
        print ("Installing " +++ dq +++ identifier manifest +++ dq +++ "...") ;;
        let target_dir := path_join (d_packages (dirs self)) (m_name manifest) in
        cur <- get_fs ;;
        (* [Some b]: the method returns [b] here; [None]: it goes on. *)
        returned <-
          (if exists_ cwd cur target_dir then
             if negb (upgrade self) then
               print ("  Note: install directory " +++ dq +++ target_dir +++ dq
                      +++ " already exists, specify --upgrade") ;;
               ret (Some true)
             else
               ok <- uninstall_directory cls self target_dir ;;
               if negb ok then ret (Some false) else ret None
           else ret None) ;;
        match returned with
        | Some b => ret b
        | None =>
            ok <- install_dependencies_for cls self manifest ;;
            if negb ok then ret false
            else place_package self manifest target_dir
        end
  end.

(** Lines 335-347. *)
Definition Installer_install_from_archive (self : Installer) (archive : string)
    (expect : option (string * Version)) : M bool :=
  let suffix := "_" +++ basename archive +++ "_unpacked" in
  directory <- call_ext "tempfile.mkdtemp" [suffix] (tempfile_mkdtemp rt suffix) ;;
  print ("Unpacking " +++ dq +++ archive +++ dq +++ "...") ;;
  try_finally
    (call_ext "tarfile.extractall" [archive; directory]
       (tarfile_extractall rt archive directory) ;;
     install_from_directory cls self directory expect)
    (shutil_rmtree cwd directory).

Definition registry_find_package (self : Installer) (package_name : string)
    (selector : Selector) : M PackageInfo :=
  emit (RegistryFind package_name (sel_text selector)) ;;
  lift_out (reg_find_package (reg self) package_name selector).

Definition registry_download (self : Installer) (package_name : string)
    (version : Version) : M Response :=
  emit (RegistryDownload package_name version) ;;
  lift_out (reg_download (reg self) package_name version).

(** Lines 368-384: the way through the registry.  The download module
    is imported as [_download] (line 35); lines 374, 379 and 380 read
    the name [download]. *)
Definition fetch_from_registry (self : Installer) (package_name : string)
    (selector : Selector) : M bool :=
  print ("Finding package matching " +++ dq +++ package_name +++ "@"
         +++ sel_text selector +++ dq +++ "...") ;;
  info <- registry_find_package self package_name selector ;;
  (if String.eqb (info_name info) package_name then ret tt
   else raise (AssertionError (info_name info +++ "@" +++ info_version info))) ;;
  print ("Downloading " +++ dq +++ info_name info +++ "@" +++ info_version info
         +++ dq +++ "...") ;;
  response <- registry_download self (info_name info) (info_version info) ;;
  load_global "download" ;;
  filename <- lift_out (get_response_filename rt response) ;;
  let suffix := "_" +++ filename in
  tmp <- call_ext "tempfile.NamedTemporaryFile" [suffix]
           (tempfile_NamedTemporaryFile rt suffix) ;;
  try_finally
    (load_global "download" ;;
     load_global "download" ;;
     call_ext "download_to_fileobj" [tmp] (download_to_fileobj rt response tmp) ;;
     install_from_archive cls self tmp (Some (package_name, info_version info)))
    (cur <- get_fs ;;
     if truthy tmp && isfile cwd cur tmp then os_remove cwd tmp else ret tt).

(** Lines 349-384. *)
Definition Installer_install_from_registry (self : Installer) (package_name : string)
    (selector : Selector) : M bool :=
  found <-
    try_except
      (package <- find_package cls self package_name ;; ret (Some package))
      (fun e => match e with
                | PackageNotFound _ => Some (ret None)
                | _ => None
                end) ;;
  (* [true]: the method has returned [True] at line 366. *)
  returned <-
    (match found with
     | None => ret false
     | Some package =>
         (if negb (sel_matches selector (m_version package)) then
            print ("  Warning: Dependency " +++ dq +++ package_name +++ "@"
                   +++ sel_text selector +++ dq +++ " unsatisfied, have " +++ dq
                   +++ identifier package +++ dq +++ " installed")
          else ret tt) ;;
         if negb (upgrade self) then
           print ("package " +++ dq +++ m_name package +++ "@" +++ m_version package
                  +++ dq +++ " already installed, specify --upgrade") ;;
           ret true
         else ret false
     end) ;;
  if returned then ret true
  else fetch_from_registry self package_name selector.

End Methods.

(** The class as defined: a call through [self] reaches the methods
    above; [fuel] bounds the depth of such calls. *)
Fixpoint Installer_class (rt : Runtime) (fuel : nat) : Class :=
  match fuel with
  | O =>
      mkClass (fun _ _ => out_of_fuel) (fun _ _ => out_of_fuel) (fun _ _ => out_of_fuel)
              (fun _ _ => out_of_fuel) (fun _ _ => out_of_fuel) (fun _ _ => out_of_fuel)
              (fun _ _ _ => out_of_fuel) (fun _ _ _ => out_of_fuel)
              (fun _ _ _ => out_of_fuel)
  | S fuel' =>
      let cls := Installer_class rt fuel' in
      mkClass (Installer_find_package rt)
              (Installer_uninstall cls)
              (Installer_uninstall_directory rt)
              (Installer_install_dependencies_for cls)
              (Installer_install_dependencies cls)
              (Installer_install_python_dependencies rt)
              (Installer_install_from_directory rt fuel cls)
              (Installer_install_from_archive rt cls)
              (Installer_install_from_registry rt cls)
  end.

(* ================================================================== *)
(** * The [install] command ([upython/upm/main.py], lines 41-58)        *)
(* ================================================================== *)

(** [cls] is the class [Installer] the module imports. *)
Definition install (rt : Runtime) (cls : Class) (package : string)
    (upgrade global_ : bool) : M Z :=
  let installer := Installer_init rt None upgrade global_ false in
  cur <- get_fs ;;
  success <-
    (if isdir (rt_cwd rt) cur package then
       install_from_directory cls installer package None
     else if isfile (rt_cwd rt) cur package then
       install_from_archive cls installer package None
     else
       ref <- lift_out (refstring_parse rt package) ;;
       selector <- (match snd ref with
                    | Some version => ret version
                    | None => lift_out (semver_Selector rt "*")
                    end) ;;
       install_from_registry cls installer (fst ref) selector) ;;
  if negb success then
    print "Installation failed" ;;
    ret 1%Z
  else ret 0%Z.

(** A click command run from the command line ([cli()], standalone mode):
    click calls the callback and drops the value it returns; when the
    callback returns, the process exits with status 0.  An exception that
    leaves the callback leaves the runner too.  (A callback sets another
    status by calling [exit], as [upload] does at lines 106 and 123.)
    The group callback of lines 34-38 only logs a warning and is left
    out. *)
Definition click_main {A} (callback : M A) : M Z :=
  fun w =>
    match callback w with
    | (Ret _, w') => (Ret 0%Z, w')
    | (Raise e, w') => (Raise e, w')
    | (OutOfFuel, w') => (OutOfFuel, w')
    end.

(** [upm install PACKAGE [-U] [-g]]: the exit status of the process. *)
Definition upm_install (rt : Runtime) (cls : Class) (package : string)
    (upgrade global_ : bool) : M Z :=
  click_main (install rt cls package upgrade global_).

(* ================================================================== *)
(** * Reading a run                                                    *)
(* ================================================================== *)

(** The destinations of the files copied in a stretch of the trace, and
    the paths the script generators reported, in order. *)
Fixpoint copy_destinations (evs : list event) : list string :=
  match evs with
  | [] => []
  | CopyFile _ dst :: evs' => dst :: copy_destinations evs'
  | _ :: evs' => copy_destinations evs'
  end.

Fixpoint created_paths (evs : list event) : list string :=
  match evs with
  | [] => []
  | ScriptCreated _ paths :: evs' => paths ++ created_paths evs'
  | _ :: evs' => created_paths evs'
  end.

Definition is_print (e : event) : bool :=
  match e with Print _ => true | _ => false end.

Definition is_registry (e : event) : bool :=
  match e with RegistryFind _ _ | RegistryDownload _ _ => true | _ => false end.

(** A computation that records: when it returns [a], it has extended the
    trace by events whose copy destinations and reported script paths
    satisfy [R]. *)
Definition records {A} (c : M A) (R : A -> list string -> list string -> Prop) : Prop :=
  forall w a w',
    c w = (Ret a, w') ->
    exists d, trace w' = trace w ++ d /\ R a (copy_destinations d) (created_paths d).

(** It copies nothing and generates no script. *)
Definition nothing {A} : A -> list string -> list string -> Prop :=
  fun _ copies scripts => copies = [] /\ scripts = [].

(** It adds to [acc] what it copied, or what its script generators
    reported. *)
Definition appends_copies (acc : list string) : list string -> list string -> list string -> Prop :=
  fun acc' copies scripts => acc' = acc ++ copies /\ scripts = [].

Definition appends_scripts (acc : list string) : list string -> list string -> list string -> Prop :=
  fun acc' copies scripts => acc' = acc ++ scripts /\ copies = [].

(** What the [install] command makes of the outcome of the installation
    it chose (lines 55-58). *)
Definition exit_status (r : Res bool * World) : Res Z * World :=
  match r with
  | (Ret true, w) => (Ret 0%Z, w)
  | (Ret false, w) =>
      (Ret 1%Z, mkWorld (fs w) (trace w ++ [Print "Installation failed"]))
  | (Raise e, w) => (Raise e, w)
  | (OutOfFuel, w) => (OutOfFuel, w)
  end.

(** The registry installs of a queue, as the specification words them:
    each queued entry in turn, with its own selector, stopping at the
    first one that does not succeed. *)
Inductive in_turn (f : string -> Selector -> M bool)
  : list (string * Selector) -> World -> Res bool * World -> Prop :=
| in_turn_done : forall w, in_turn f [] w (Ret true, w)
| in_turn_next : forall n v rest w w' r,
    f n v w = (Ret true, w') ->
    in_turn f rest w' r ->
    in_turn f ((n, v) :: rest) w r
| in_turn_stop : forall n v rest w w' r,
    f n v w = (r, w') ->
    r <> Ret true ->
    in_turn f ((n, v) :: rest) w
      (match r with Ret _ => Ret false | other => other end, w').

(** Every queued install succeeds, one after the other. *)
Inductive all_succeed (f : string -> Selector -> M bool)
  : list (string * Selector) -> World -> World -> Prop :=
| all_succeed_nil : forall w, all_succeed f [] w w
| all_succeed_cons : forall n v rest w w' w'',
    f n v w = (Ret true, w') ->
    all_succeed f rest w' w'' ->
    all_succeed f ((n, v) :: rest) w w''.

(** Whether [find_package] finds the package in the world [w], and the
    entries of a dependency mapping it does not find. *)
Definition found_locally (rt : Runtime) (self : Installer) (w : World) (name : string)
  : bool :=
  match fst (Installer_find_package rt self name w) with
  | Ret _ => true
  | _ => false
  end.

Definition not_found_entries (rt : Runtime) (self : Installer) (w : World)
    (deps : list (string * Selector)) : list (string * Selector) :=
  filter (fun nv => negb (found_locally rt self w (fst nv))) deps.

(** Each lookup of the mapping either finds the package or raises
    [PackageNotFound]. *)
Definition lookups_settle (rt : Runtime) (self : Installer) (w : World)
    (deps : list (string * Selector)) : Prop :=
  forall nv, In nv deps ->
    found_locally rt self w (fst nv) = true
    \/ exists p, fst (Installer_find_package rt self (fst nv) w) = Raise (PackageNotFound p).

(** The world once line 279 has announced the installation. *)
Definition announced (manifest : PackageManifest) (w : World) : World :=
  mkWorld (fs w)
    (trace w ++ [Print ("Installing " +++ dq +++ identifier manifest +++ dq +++ "...")]).

(** The path of the ledger of a target directory (line 318). *)
Definition ledger_path (target_dir : string) : string :=
  path_join target_dir PPYM_INSTALLED_FILES.

(** The way of [install_from_directory] to line 291: the target directory
    is not there, or upgrade mode is on and [uninstall_directory] has
    removed it. *)
Definition target_cleared (rt : Runtime) (cls : Class) (self : Installer)
    (target_dir : string) (w0 wu : World) : Prop :=
  (exists_ (rt_cwd rt) (fs w0) target_dir = false /\ wu = w0)
  \/ (exists_ (rt_cwd rt) (fs w0) target_dir = true
      /\ upgrade self = true
      /\ uninstall_directory cls self target_dir w0 = (Ret true, wu)).

(** A subclass that replaces [install_from_registry]. *)
Definition with_install_from_registry (base : Class)
    (f : Installer -> string -> Selector -> M bool) : Class :=
  mkClass (find_package base) (uninstall base) (uninstall_directory base)
          (install_dependencies_for base) (install_dependencies base)
          (install_python_dependencies base) (install_from_directory base)
          (install_from_archive base) f.


(* ================================================================== *)
(** * A sample runtime and sample worlds                                *)
(* ================================================================== *)

Module Sample.

Definition any_version : Selector := mkSelector "*" (fun _ => true).
Definition exactly (v : Version) : Selector := mkSelector ("=" +++ v) (String.eqb v).

(** The manifests of the sample packages, by the text of their
    manifest file. *)
Definition parse (data directory : string) : Outcome PackageManifest :=
  if String.eqb data "foo-1.0.0" then
    Returns (mkManifest "foo" "1.0.0" [] [] [] [] [] None directory)
  else if String.eqb data "txt" then
    Returns (mkManifest "demo" "0.1.0" [] [] [("include_files", ["*.txt"])] [] [] None
               directory)
  else if String.eqb data "hooked" then
    Returns (mkManifest "hooked" "0.2.0" [] [] []
               [("hello", "echo hello")] [("hooked", "main.py")] (Some "setup.py")
               directory)
  else if String.eqb data "plain" then
    Returns (mkManifest "plain" "0.3.0" [] [] [] [] [] None directory)
  else Raises (InvalidPackageManifest ("invalid manifest: " +++ data)).

Definition cwd : string := "/work".

Definition registry : RegistryClient :=
  mkRegistry
    (fun n sel => if String.eqb n "bar" then Returns (mkInfo "bar" "1.2.0")
                  else Raises (OtherError "RegistryError" n))
    (fun n v => Returns ("archive of " +++ n)).

(** A generator that writes one file [<bin>/<name>]. *)
Definition write_script (bin script_name : string) : Ext (list string) :=
  fun cur =>
    let path := path_join bin script_name in
    match mkdirs_node (components cwd bin) cur with
    | Some made =>
        match put_node (components cwd path) (File script_name) made with
        | Some new => (Returns [path], new)
        | None => (Raises (FileNotFoundError path), cur)
        end
    | None => (Raises (NotADirectoryError bin), cur)
    end.

Definition rt : Runtime :=
  mkRuntime cwd "https://registry.example" "/usr/local"
    (fun _ => registry)
    (fun cur package =>
       let d := path_join "ppy_modules" package in
       if isdir cwd cur d then Returns (abspath cwd d) else Raises (ResolveError package))
    (fun cur filename =>
       match stat cwd cur filename with
       | Some (File data) => parse data (dirname filename)
       | _ => Raises (FileNotFoundError filename)
       end)
    (fun script_name bin argv => write_script bin script_name)
    (fun script_name bin filename reference_dir => write_script bin script_name)
    (fun command => Returns (split " "%char command))
    (fun cmd cur => (Returns 0%Z, cur))
    (fun filename cur => (Returns tt, cur))
    (fun archive directory cur =>
       match stat cwd cur archive with
       | Some (File data) =>
           match put_node (components cwd (path_join directory "package.json"))
                   (File data) cur with
           | Some new => (Returns tt, new)
           | None => (Raises (FileNotFoundError directory), cur)
           end
       | _ => (Raises (OtherError "ReadError" archive), cur)
       end)
    (fun suffix cur =>
       let d := "/tmp/tmp" +++ suffix in
       match mkdirs_node (components cwd d) cur with
       | Some new => (Returns d, new)
       | None => (Raises (FileExistsError d), cur)
       end)
    (fun suffix cur =>
       let f := "/tmp/tmp" +++ suffix in
       match put_node (components cwd f) (File EmptyString) cur with
       | Some new => (Returns f, new)
       | None => (Raises (FileNotFoundError f), cur)
       end)
    (fun response => Returns "package.tar.gz")
    (fun response tmp cur => (Returns tt, cur))
    (fun text =>
       match split "@"%char text with
       | [n] => Returns (n, None)
       | [n; v] => Returns (n, Some (exactly v))
       | _ => Raises (OtherError "InvalidFormat" text)
       end)
    (fun text => Returns (mkSelector text (fun _ => true))).

(** The directory of the file-selection example: [package.json],
    [a.txt], [b.py] and [.git/config]. *)
Definition txt_tree : FS :=
  Dir [("work",
        Dir [("pkg",
              Dir [("package.json", File "txt"); ("a.txt", File "A");
                   ("b.py", File "B");
                   (".git", Dir [("config", File "C")])])])].

Definition txt_manifest : PackageManifest :=
  mkManifest "demo" "0.1.0" [] [] [("include_files", ["*.txt"])] [] [] None "/work/pkg".

(** A project with [foo] installed, a broken installed package, three
    package directories to install from and an archive (which the
    sample [extractall] unpacks to a lone manifest). *)
Definition project : FS :=
  Dir [("work",
        Dir [("ppy_modules",
              Dir [("foo",
                    Dir [("package.json", File "foo-1.0.0");
                         ("lib.py", File "x = 1")]);
                   ("bad", Dir [("package.json", File "broken")])]);
             ("foo", Dir [("package.json", File "foo-1.0.0");
                          ("lib.py", File "x = 2")]);
             ("hooked",
              Dir [("package.json", File "hooked"); ("main.py", File "print(1)");
                   ("setup.py", File "print(2)")]);
             ("plain",
              Dir [("package.json", File "plain");
                   (".ppym-installed-files", File "stale")]);
             ("bundle.tar.gz", File "plain")]);
       ("tmp", Dir [])].

Definition start : World := mkWorld project [].

Definition local_installer : Installer := Installer_init rt None false false false.

Definition Installer_cls : Class := Installer_class rt 6.

(** A dependency mapping: [foo] is installed (at a version the selector
    rejects), the other three are not. *)
Definition four_deps : list (string * Selector) :=
  [("foo", exactly "2.0.0"); ("bar", any_version); ("baz", any_version);
   ("qux", any_version)].

Definition hooked_manifest : PackageManifest :=
  mkManifest "hooked" "0.2.0" [] [] []
    [("hello", "echo hello")] [("hooked", "main.py")] (Some "setup.py") "hooked".

Definition plain_manifest : PackageManifest :=
  mkManifest "plain" "0.3.0" [] [] [] [] [] None "plain".

(** Installing the directories [hooked] and [plain] into the project. *)
Definition hooked_run : Res bool * World :=
  Installer_install_from_directory rt 3 Installer_cls local_installer "hooked" None start.

Definition plain_run : Res bool * World :=
  Installer_install_from_directory rt 3 Installer_cls local_installer "plain" None start.

(** A stand-in for [install_from_registry] that succeeds for every
    package but [baz], leaving a note in the trace. *)
Definition stub_install (self : Installer) (n : string) (v : Selector) : M bool :=
  emit (External "install_from_registry" [n; sel_text v]) ;;
  ret (negb (String.eqb n "baz")).

Definition stubbed_cls : Class :=
  with_install_from_registry (Installer_class rt 1) stub_install.


End Sample.

(* ================================================================== *)
(** * Further readings of a run                                        *)
(* ================================================================== *)

(** What [walk_package_files] may yield: the manifest file, or a file the
    filter accepts; the relative path is the one of the absolute path. *)
Definition selected (cwd : string) (manifest : PackageManifest)
    (pair : string * string) : Prop :=
  (snd pair = "package.json"
   \/ _check_include_file (snd pair) (inpat manifest) (expat manifest) = true)
  /\ snd pair = relpath cwd (fst pair) (m_directory manifest).
(** A subclass that replaces [install_dependencies], one that replaces
    [install_dependencies_for], one that replaces [install_from_directory]. *)
Definition with_install_dependencies (base : Class)
    (f : Installer -> list (string * Selector) -> M bool) : Class :=
  mkClass (find_package base) (uninstall base) (uninstall_directory base)
          (install_dependencies_for base) f
          (install_python_dependencies base) (install_from_directory base)
          (install_from_archive base) (install_from_registry base).

Definition with_install_dependencies_for (base : Class)
    (f : Installer -> PackageManifest -> M bool) : Class :=
  mkClass (find_package base) (uninstall base) (uninstall_directory base)
          f (install_dependencies base)
          (install_python_dependencies base) (install_from_directory base)
          (install_from_archive base) (install_from_registry base).

Definition with_install_from_directory (base : Class)
    (f : Installer -> string -> option (string * Version) -> M bool) : Class :=
  mkClass (find_package base) (uninstall base) (uninstall_directory base)
          (install_dependencies_for base) (install_dependencies base)
          (install_python_dependencies base) f
          (install_from_archive base) (install_from_registry base).

(* ================================================================== *)
(** * More sample worlds                                               *)
(* ================================================================== *)

Module More.

(** An application with one package dependency, which the stand-in of
    [Sample] fails to install, and one Python dependency. *)
Definition app_manifest : PackageManifest :=
  mkManifest "app" "1.0.0" [("baz", Sample.any_version)] [("requests", ">=2.0")]
    [] [] [] None "app".

(** A class whose [install_dependencies] installs through the stand-in. *)
Definition stubbed_deps_cls : Class :=
  with_install_dependencies Sample.Installer_cls
    (Installer_install_dependencies Sample.stubbed_cls).

(** A class whose [install_dependencies_for] reports failure. *)
Definition failing_deps_cls : Class :=
  with_install_dependencies_for Sample.Installer_cls
    (fun self manifest => print "dependencies failed" ;; ret false).

(** A runtime whose pip fails with exit code 2. *)
Definition pip_fails : Runtime :=
  mkRuntime Sample.cwd "https://registry.example" "/usr/local"
    (RegistryClient_new Sample.rt) (session_resolve Sample.rt)
    (session_get_manifest Sample.rt) (make_command_script Sample.rt)
    (make_ppy_runner Sample.rt) (shlex_split Sample.rt)
    (fun cmd cur => (Returns 2%Z, cur))
    (upython_main_run Sample.rt) (tarfile_extractall Sample.rt)
    (tempfile_mkdtemp Sample.rt) (tempfile_NamedTemporaryFile Sample.rt)
    (get_response_filename Sample.rt) (download_to_fileobj Sample.rt)
    (refstring_parse Sample.rt) (semver_Selector Sample.rt).

End More.

(** Lines 343-345: what [install_from_archive] tries, between the making
    of the temporary directory and its removal. *)
Definition unpack_and_install (rt : Runtime) (cls : Class) (self : Installer)
    (archive directory : string) (expect : option (string * Version)) : M bool :=
  call_ext "tarfile.extractall" [archive; directory]
    (tarfile_extractall rt archive directory) ;;
  install_from_directory cls self directory expect.

Module MoreRuns.

(** The sample archive, unpacked in its temporary directory. *)
Definition bundle_tmp : string := "/tmp/tmp_bundle.tar.gz_unpacked".

Definition bundle_unpacking : World :=
  mkWorld (snd (tempfile_mkdtemp Sample.rt "_bundle.tar.gz_unpacked" Sample.project))
    [External "tempfile.mkdtemp" ["_bundle.tar.gz_unpacked"];
     Print ("Unpacking " +++ dq +++ "bundle.tar.gz" +++ dq +++ "...")].

Definition bundle_installed : World :=
  snd (unpack_and_install Sample.rt Sample.Installer_cls Sample.local_installer
         "bundle.tar.gz" bundle_tmp None bundle_unpacking).

End MoreRuns.




(** A destination of the copy loop: the target directory joined with the
    relative path of a file the walk selects. *)
Definition copy_of_selected (cwd : string) (manifest : PackageManifest)
    (target_dir dst : string) : Prop :=
  exists src rel, selected cwd manifest (src, rel) /\ dst = path_join target_dir rel.

(* ================================================================== *)
(** * The other commands of [upython/upm/main.py]                       *)
(* ================================================================== *)

(** What the commands use besides the installer: the manifest parser of
    the core package, the archive naming of the registry module, the
    configuration store, the registry client with credentials, and the
    two prompts. *)
Record Registry : Type := mkRegistryAccount {
  registry_upload : string -> Version -> string -> bool -> Outcome unit;
  registry_register : string -> string -> string -> Outcome string
}.

Record CliRuntime : Type := mkCliRuntime {
  PackageManifest_parse : FS -> string -> Outcome PackageManifest;
  make_package_archive_name : string -> Version -> string;
  config_upm_registry : string;
  config_get : string -> option string;
  Registry_new : string -> option string -> option string -> Registry;
  input : string -> Outcome string;
  getpass_getpass : Outcome string
}.

(** [exit(code)]: the [SystemExit] that ends the process with [code]. *)
Definition SystemExit (code : string) : exn := OtherError "SystemExit" code.

(** [not value] for an option value or a configuration entry that may be
    absent. *)
Definition missing (value : option string) : bool :=
  match value with
  | Some text => negb (truthy text)
  | None => true
  end.

Definition text_of (value : option string) : string :=
  match value with
  | Some text => text
  | None => "None"
  end.

(** [os.mkdir(path)]: the parent has to be there, the path must not. *)
Definition os_mkdir (cwd path : string) : M unit :=
  cur <- get_fs ;;
  if negb (truthy path) then raise (FileNotFoundError path)
  else if exists_ cwd cur path then raise (FileExistsError path)
  else match put_node (components cwd path) (Dir []) cur with
       | Some new => put_fs new ;; emit (Makedirs path)
       | None => raise (FileNotFoundError path)
       end.

(** [tarfile.open(filename, 'w:gz')]: the archive file is created, or
    emptied.  What the archive holds is kept as the sequence of the
    [archive.add] events, not as bytes. *)
Definition tarfile_open_w (cwd filename : string) : M unit :=
  cur <- get_fs ;;
  if negb (truthy filename) then raise (FileNotFoundError filename)
  else if isdir cwd cur filename then raise (IsADirectoryError filename)
  else match put_node (components cwd filename) (File EmptyString) cur with
       | Some new => put_fs new ;; emit (External "tarfile.open" [filename; "w:gz"])
       | None => raise (FileNotFoundError filename)
       end.

(** [archive.add(filename, rel)]. *)
Definition archive_add (cwd filename rel : string) : M unit :=
  cur <- get_fs ;;
  match stat cwd cur filename with
  | Some _ => emit (External "archive.add" [filename; rel])
  | None => raise (FileNotFoundError filename)
  end.

(** The members added to an archive in a stretch of the trace. *)
Fixpoint archive_members (evs : list event) : list (string * string) :=
  match evs with
  | [] => []
  | External what args :: evs' =>
      if String.eqb what "archive.add" then
        match args with
        | [filename; rel] => (filename, rel) :: archive_members evs'
        | _ => archive_members evs'
        end
      else archive_members evs'
  | _ :: evs' => archive_members evs'
  end.

Definition ask (what prompt : string) (answer : Outcome string) : M string :=
  emit (External what [prompt]) ;; lift_out answer.

Module Main.

(** Lines 61-72. *)
Definition uninstall (rt : Runtime) (cls : Class) (package : string) (global_ : bool)
  : M unit :=
  let installer := Installer_init rt None false global_ false in
  uninstall cls installer package ;;
  ret tt.

(** Lines 87-89: the body of the loop of [dist]. *)
Definition add_member (cwd filename rel : string) (_ : unit) : M unit :=
  print ("  Adding " +++ dq +++ rel +++ dq +++ "...") ;;
  archive_add cwd filename rel.

(** Lines 75-90. *)
Definition dist (rt : Runtime) (crt : CliRuntime) (fuel : nat) : M unit :=
  cur <- get_fs ;;
  manifest <- lift_out (PackageManifest_parse crt cur ".") ;;
  let filename :=
    path_join "dist"
      (make_package_archive_name crt (m_name manifest) (m_version manifest)) in
  (if negb (isdir (rt_cwd rt) cur "dist") then os_mkdir (rt_cwd rt) "dist" else ret tt) ;;
  print ("Creating archive " +++ dq +++ filename +++ dq +++ "...") ;;
  tarfile_open_w (rt_cwd rt) filename ;;
  walk_package_files (rt_cwd rt) manifest (add_member (rt_cwd rt)) fuel tt ;;
  print "Done!".

(** Lines 93-125. *)
Definition upload (rt : Runtime) (crt : CliRuntime) (filename : string) (force : bool)
  : M unit :=
  cur <- get_fs ;;
  (if negb (isfile (rt_cwd rt) cur filename) then
     print ("error: " +++ dq +++ filename +++ dq +++ " does not exist") ;;
     raise (SystemExit "1")
   else ret tt) ;;
  cur <- get_fs ;;
  manifest <- lift_out (PackageManifest_parse crt cur ".") ;;
  let url := config_upm_registry crt in
  let username := config_get crt "upm.username" in
  let password := config_get crt "upm.password" in
  (if missing username || missing password then print ("Credentials for " +++ url)
   else ret tt) ;;
  username <- (if missing username then
                 answer <- ask "input" "Username: " (input crt "Username: ") ;;
                 ret (Some answer)
               else ret username) ;;
  password <- (if missing password then
                 answer <- ask "getpass" "Password: " (getpass_getpass crt) ;;
                 ret (Some answer)
               else ret password) ;;
  let registry := Registry_new crt url username password in
  try_except
    (emit (External "registry.upload"
             [url; text_of username; m_name manifest; m_version manifest; filename;
              if force then "True" else "False"]) ;;
     lift_out (registry_upload registry (m_name manifest) (m_version manifest)
                 filename force))
    (fun exc =>
       match exc with
       | OtherError class detail =>
           if String.eqb class "RegistryError" then
             Some (print ("error: registry: " +++ detail) ;; raise (SystemExit "1"))
           else None
       | _ => None
       end) ;;
  print "Done!".

(** Lines 128-145. *)
Definition register (crt : CliRuntime) (username password email : option string)
  : M unit :=
  username <- (if missing username then
                 answer <- ask "input" "Username: " (input crt "Username: ") ;;
                 ret (Some answer)
               else ret username) ;;
  password <- (if missing password then
                 answer <- ask "getpass" "Password: " (getpass_getpass crt) ;;
                 ret (Some answer)
               else ret password) ;;
  email <- (if missing email then
              answer <- ask "input" "E-Mail: " (input crt "E-Mail: ") ;;
              ret (Some answer)
            else ret email) ;;
  let registry := Registry_new crt (config_upm_registry crt) None None in
  emit (External "registry.register" [text_of username; text_of email]) ;;
  answer <- lift_out (registry_register registry (text_of username) (text_of password)
                        (text_of email)) ;;
  print answer.

End Main.

Module MainSample.

(** A registry that knows the user [ann] and refuses everything else. *)
Definition account (url : string) (username password : option string) : Registry :=
  mkRegistryAccount
    (fun name version filename force =>
       match username with
       | Some user =>
           if String.eqb user "ann" then Returns tt
           else Raises (OtherError "RegistryError" "authorization failed")
       | None => Raises (OtherError "RegistryError" "authorization failed")
       end)
    (fun username password email =>
       if String.eqb username "ann" then
         Raises (OtherError "RegistryError" "user exists")
       else Returns ("registered " +++ username)).

Definition parse_here (cur : FS) (path : string) : Outcome PackageManifest :=
  session_get_manifest Sample.rt cur (path_join path "package.json").

(** Credentials saved for [ann]. *)
Definition saved : CliRuntime :=
  mkCliRuntime parse_here (fun name version => name +++ "-" +++ version +++ ".tar.gz")
    "https://registry.example"
    (fun key => if String.eqb key "upm.username" then Some "ann"
                else if String.eqb key "upm.password" then Some "secret"
                else None)
    account (fun prompt => Returns "typed") (Returns "hidden").

(** Nothing saved; the user types [bob] and a password. *)
Definition unsaved : CliRuntime :=
  mkCliRuntime parse_here (fun name version => name +++ "-" +++ version +++ ".tar.gz")
    "https://registry.example" (fun key => None)
    account (fun prompt => Returns "bob") (Returns "hidden").

(** A project directory being packaged: the working directory is the
    package, with an old archive in [dist/]. *)
Definition package_tree : FS :=
  Dir [("work",
        Dir [("package.json", File "plain"); ("lib.py", File "x = 1");
             ("lib.pyc", File "compiled");
             ("dist", Dir [("plain-0.2.0.tar.gz", File "old")])])].

Definition packaging : World := mkWorld package_tree [].

End MainSample.

(** A computation that leaves the filesystem alone and adds to an archive
    only members that [P] allows. *)
Definition adds {A} (c : M A) (P : string * string -> Prop) : Prop :=
  forall w a w',
    c w = (Ret a, w') ->
    fs w' = fs w
    /\ exists d, trace w' = trace w ++ d /\ Forall P (archive_members d).

(** What the user was asked, in a stretch of the trace. *)
Fixpoint prompts (evs : list event) : list string :=
  match evs with
  | [] => []
  | External what args :: evs' =>
      if String.eqb what "input" || String.eqb what "getpass"
      then args ++ prompts evs'
      else prompts evs'
  | _ :: evs' => prompts evs'
  end.

(** The requests sent to the registry in a stretch of the trace. *)
Fixpoint registry_requests (evs : list event) : list string :=
  match evs with
  | [] => []
  | External what args :: evs' =>
      if String.eqb what "registry.upload" || String.eqb what "registry.register"
      then what :: registry_requests evs'
      else registry_requests evs'
  | RegistryFind _ _ :: evs' => "registry.find" :: registry_requests evs'
  | RegistryDownload _ _ :: evs' => "registry.download" :: registry_requests evs'
  | _ :: evs' => registry_requests evs'
  end.

(* ================================================================== *)
(** * Properties                                                       *)
(* ================================================================== *)

Unset Implicit Arguments.

(** ** The monad *)

Lemma bind_Ret_inv : forall A B (c : M A) (k : A -> M B) w b w',
    bind c k w = (Ret b, w') ->
    exists a w1, c w = (Ret a, w1) /\ k a w1 = (Ret b, w').
Proof.
  intros A B c k w b w' H. unfold bind in H.
  destruct (c w) as [[a | e |] w1]; try discriminate.
  exists a, w1. split; [reflexivity | exact H].
Qed.

(** ** [find_package] only looks *)

Ltac find_package_cases :=
  unfold Installer_find_package, get_manifest, bind, try_except,
    get_fs, lift_out, ret, raise; simpl;
  repeat match goal with
    | |- context [if strict ?s then _ else _] => destruct (strict s); simpl
    | |- context [session_resolve ?r ?f ?p] =>
        let e := fresh "e" in
        destruct (session_resolve r f p) as [? | e]; simpl; [| destruct e; simpl]
    | |- context [if ?a && ?b then _ else _] => destruct (a && b); simpl
    | |- context [session_get_manifest ?r ?f ?p] =>
        destruct (session_get_manifest r f p); simpl
    end.

Lemma find_package_pure : forall rt self package w,
    Installer_find_package rt self package w
    = (fst (Installer_find_package rt self package w), w).
Proof. intros rt self package w. find_package_cases; reflexivity. Qed.

Lemma find_package_reads_fs : forall rt self package w w',
    fs w = fs w' ->
    fst (Installer_find_package rt self package w)
    = fst (Installer_find_package rt self package w').
Proof.
  intros rt self package [f t] [f' t'] Hfs. simpl in Hfs. subst f'.
  find_package_cases; reflexivity.
Qed.

Lemma find_package_never_out_of_fuel : forall rt self package w,
    fst (Installer_find_package rt self package w) <> OutOfFuel.
Proof. intros rt self package w. find_package_cases; discriminate. Qed.

(** ** File selection *)

(** C8.  A path that matches an exclude pattern is rejected by
    [_check_include_file] whatever the include patterns are; and with no
    include pattern declared, a path that matches no exclude pattern is
    accepted. *)
Theorem check_include_file_exclusion_wins :
  (forall p include_patterns exclude_patterns,
      _match_any_pattern p exclude_patterns = true ->
      _check_include_file p include_patterns exclude_patterns = false)
  /\ (forall p exclude_patterns,
         _match_any_pattern p exclude_patterns = false ->
         _check_include_file p [] exclude_patterns = true).
Proof.
  split.
  - intros p inc exc H. unfold _check_include_file. rewrite H. reflexivity.
  - intros p exc H. unfold _check_include_file. rewrite H. reflexivity.
Qed.

Lemma check_include_file_exclusion_wins_witness :
  _check_include_file "dist/x.tar.gz" ["dist/*"] ["dist/*"] = false
  /\ _check_include_file "readme.md" [] default_exclude_patterns = true.
Proof.
  split.
  - apply (proj1 check_include_file_exclusion_wins). reflexivity.
  - apply (proj2 check_include_file_exclusion_wins). reflexivity.
Defined.

(** Lines 77-78 read the same manifest field twice: whatever matches a
    declared include pattern matches an exclude pattern, and is rejected. *)
Lemma include_pattern_match_is_excluded : forall manifest rel,
    _match_any_pattern rel (inpat manifest) = true ->
    _check_include_file rel (inpat manifest) (expat manifest) = false.
Proof.
  intros manifest rel H. unfold _check_include_file, expat.
  fold (inpat manifest). unfold _match_any_pattern in *.
  rewrite existsb_app, H. reflexivity.
Qed.

(** C1 (as the code runs).  With [include_files = ["*.txt"]] over a
    directory holding [package.json], [a.txt], [b.py] and [.git/config],
    [walk_package_files] yields the manifest file only: [a.txt] matches
    the include pattern, which line 78 also puts among the exclude
    patterns. *)
Theorem walk_package_files_txt_yields_manifest_only :
  walk_package_files_list Sample.cwd Sample.txt_manifest 4 (mkWorld Sample.txt_tree [])
  = (Ret [("/work/pkg/package.json", "package.json")], mkWorld Sample.txt_tree [])
  /\ _check_include_file "a.txt" (inpat Sample.txt_manifest) (expat Sample.txt_manifest)
     = false
  /\ _match_any_pattern "a.txt" (inpat Sample.txt_manifest) = true.
Proof. repeat split; vm_compute; reflexivity. Qed.

(** ** [uninstall_directory] *)

Lemma uninstall_directory_invalid_manifest : forall rt self directory w reason,
    session_get_manifest rt (fs w) (path_join directory "package.json")
    = Raises (InvalidPackageManifest reason) ->
    Installer_uninstall_directory rt self directory w = (Raise (NameError "ext"), w).
Proof.
  intros rt self directory w reason H.
  unfold Installer_uninstall_directory, get_manifest, bind, try_except, get_fs, lift_out.
  rewrite H. simpl. reflexivity.
Qed.

(** C3 (as the code runs).  On a directory whose [package.json] fails
    validation, [uninstall_directory] prints nothing and returns nothing:
    its handler raises [NameError] for the name [ext] to the caller. *)
Theorem uninstall_directory_invalid_manifest_raises :
  session_get_manifest Sample.rt Sample.project "ppy_modules/bad/package.json"
  = Raises (InvalidPackageManifest "invalid manifest: broken")
  /\ uninstall_directory Sample.Installer_cls Sample.local_installer "ppy_modules/bad"
       Sample.start
     = (Raise (NameError "ext"), Sample.start).
Proof. split; vm_compute; reflexivity. Qed.

(** ** [install_from_registry] *)

Lemma class_install_from_registry : forall rt n,
    install_from_registry (Installer_class rt (S n))
    = Installer_install_from_registry rt (Installer_class rt n).
Proof. reflexivity. Qed.

Lemma class_find_package : forall rt n,
    find_package (Installer_class rt (S n)) = Installer_find_package rt.
Proof. reflexivity. Qed.


(** C4.  When the package is already installed and upgrade mode is off,
    [install_from_registry] returns [True]; the filesystem is as it was,
    the registry is not contacted, and all it does is print: a warning
    first when the installed version does not satisfy the selector, then
    the note that the package is already installed. *)
Theorem install_from_registry_already_installed :
  forall rt n self package_name selector w package,
    fst (Installer_find_package rt self package_name w) = Ret package ->
    upgrade self = false ->
    install_from_registry (Installer_class rt (S (S n))) self package_name selector w
    = (Ret true,
       mkWorld (fs w)
         (trace w
          ++ (if sel_matches selector (m_version package) then []
              else [Print ("  Warning: Dependency " +++ dq +++ package_name +++ "@"
                           +++ sel_text selector +++ dq +++ " unsatisfied, have " +++ dq
                           +++ identifier package +++ dq +++ " installed")])
          ++ [Print ("package " +++ dq +++ m_name package +++ "@" +++ m_version package
                     +++ dq +++ " already installed, specify --upgrade")])).
Proof.
  intros rt n self package_name selector w package Hfound Hup.
  rewrite class_install_from_registry. unfold Installer_install_from_registry.
  rewrite class_find_package.
  unfold bind at 1. unfold try_except. unfold bind at 1.
  rewrite find_package_pure, Hfound.
  unfold ret at 1. cbv iota beta.
  unfold bind at 1. unfold bind at 1.
  rewrite Hup.
  destruct (sel_matches selector (m_version package)); cbn [negb];
    unfold print, emit, ret, bind; cbn [fs trace].
  - reflexivity.
  - rewrite <- app_assoc. reflexivity.
Qed.

Lemma install_from_registry_already_installed_witness :
  fst (Installer_find_package Sample.rt Sample.local_installer "foo" Sample.start)
  = Ret (mkManifest "foo" "1.0.0" [] [] [] [] [] None "/work/ppy_modules/foo")
  /\ sel_matches (Sample.exactly "2.0.0") "1.0.0" = false
  /\ install_from_registry (Installer_class Sample.rt 2) Sample.local_installer "foo"
       (Sample.exactly "2.0.0") Sample.start
     = (Ret true,
        mkWorld Sample.project
          [Print ("  Warning: Dependency " +++ dq +++ "foo@=2.0.0" +++ dq
                  +++ " unsatisfied, have " +++ dq +++ "foo@1.0.0" +++ dq +++ " installed");
           Print ("package " +++ dq +++ "foo@1.0.0" +++ dq
                  +++ " already installed, specify --upgrade")]).
Proof.
  split; [reflexivity |]. split; [reflexivity |].
  exact (install_from_registry_already_installed Sample.rt 0 Sample.local_installer "foo"
           (Sample.exactly "2.0.0") Sample.start _ eq_refl eq_refl).
Defined.



(** ** [install_dependencies] *)

Section Dependencies.

Variable rt : Runtime.
Variable n : nat.
Variable f : Installer -> string -> Selector -> M bool.
Variable self : Installer.

Let cls := with_install_from_registry (Installer_class rt (S n)) f.

Lemma found_locally_reads_fs : forall w w' name,
    fs w = fs w' -> found_locally rt self w name = found_locally rt self w' name.
Proof.
  intros w w' name H. unfold found_locally.
  rewrite (find_package_reads_fs rt self name w w' H). reflexivity.
Qed.

Lemma scan_dependencies_queue : forall deps w0 w acc,
    fs w = fs w0 ->
    lookups_settle rt self w0 deps ->
    exists lines,
      scan_dependencies cls self deps acc w
      = (Ret (acc ++ not_found_entries rt self w0 deps),
         mkWorld (fs w) (trace w ++ map Print lines)).
Proof.
  induction deps as [| [name version] rest IH]; intros w0 w acc Hfs Hsettle.
  - exists []. simpl. rewrite !app_nil_r. destruct w; reflexivity.
  - assert (Hrest : lookups_settle rt self w0 rest).
    { intros nv Hin. apply Hsettle. right. exact Hin. }
    cbn [scan_dependencies]. unfold bind at 1, try_except, bind at 1.
    change (find_package cls) with (Installer_find_package rt).
    rewrite find_package_pure.
    unfold not_found_entries. cbn [filter fst].
    rewrite <- (found_locally_reads_fs w w0 name Hfs).
    destruct (Hsettle (name, version) (or_introl eq_refl)) as [Hfound | [p Hp]];
      cbn [fst] in *.
    + rewrite <- (found_locally_reads_fs w w0 name Hfs) in Hfound.
      rewrite Hfound. cbn [negb].
      unfold found_locally in Hfound.
      destruct (fst (Installer_find_package rt self name w)) as [dep | |];
        try discriminate.
      unfold ret at 1. cbv iota beta. unfold bind at 1.
      destruct (negb (sel_matches version (m_version dep)));
        unfold print at 1, emit at 1;
        match goal with
        | |- context [scan_dependencies cls self rest acc ?w1] =>
            destruct (IH w0 w1 acc Hfs Hrest) as [lines Hl]; rewrite Hl
        end; cbn [fs trace]; rewrite <- app_assoc;
        eexists (_ :: lines); reflexivity.
    + rewrite <- (find_package_reads_fs rt self name w w0 Hfs) in Hp.
      unfold found_locally. rewrite Hp. cbn [negb]. cbv iota beta.
      unfold ret at 1.
      destruct (IH w0 w (acc ++ [(name, version)]) Hfs Hrest) as [lines Hl].
      rewrite Hl. exists lines. rewrite <- app_assoc. reflexivity.
Qed.

Lemma scan_dependencies_unsettled : forall deps w0 w acc,
    fs w = fs w0 ->
    ~ lookups_settle rt self w0 deps ->
    exists e lines,
      scan_dependencies cls self deps acc w
      = (Raise e, mkWorld (fs w) (trace w ++ map Print lines)).
Proof.
  induction deps as [| [name version] rest IH]; intros w0 w acc Hfs Hnot.
  - exfalso. apply Hnot. intros nv [].
  - cbn [scan_dependencies]. unfold bind at 1, try_except, bind at 1.
    change (find_package cls) with (Installer_find_package rt).
    rewrite find_package_pure.
    pose proof (find_package_never_out_of_fuel rt self name w) as Hfuel.
    pose proof (find_package_reads_fs rt self name w w0 Hfs) as Hsame.
    destruct (fst (Installer_find_package rt self name w)) as [dep | e |] eqn:Hf.
    + assert (Hrest : ~ lookups_settle rt self w0 rest).
      { intros Hs. apply Hnot. intros nv [E | Hin]; [| apply Hs; exact Hin].
        subst nv. left. unfold found_locally. cbn [fst]. rewrite <- Hsame. reflexivity. }
      unfold ret at 1. cbv iota beta. unfold bind at 1.
      destruct (negb (sel_matches version (m_version dep)));
        unfold print at 1, emit at 1;
        match goal with
        | |- context [scan_dependencies cls self rest acc ?w1] =>
            destruct (IH w0 w1 acc Hfs Hrest) as [e [lines Hl]]; rewrite Hl
        end; cbn [fs trace]; rewrite <- app_assoc;
        exists e; eexists (_ :: lines); reflexivity.
    + destruct e as [| p | | | | | | | | |];
        try (eexists; exists []; cbn [map]; rewrite app_nil_r; destruct w; reflexivity).
      assert (Hrest : ~ lookups_settle rt self w0 rest).
      { intros Hs. apply Hnot. intros nv [E | Hin]; [| apply Hs; exact Hin].
        subst nv. right. exists p. cbn [fst]. rewrite <- Hsame. reflexivity. }
      cbv iota beta. unfold ret at 1.
      destruct (IH w0 w (acc ++ [(name, version)]) Hfs Hrest) as [e [lines Hl]].
      rewrite Hl. exists e, lines. reflexivity.
    + contradiction Hfuel. reflexivity.
Qed.

Lemma install_queued_in_turn : forall queue w,
    in_turn (f self) queue w (install_queued cls self queue w).
Proof.
  induction queue as [| [name version] rest IH]; intros w.
  - apply in_turn_done.
  - cbn [install_queued]. unfold bind.
    change (install_from_registry cls) with f.
    destruct (f self name version w) as [[[|] | e |] w'] eqn:Hf.
    + cbn [negb]. eapply in_turn_next; [exact Hf | apply IH].
    + cbn [negb]. unfold ret.
      apply (@in_turn_stop (f self) name version rest w w' (Ret false) Hf). discriminate.
    + apply (@in_turn_stop (f self) name version rest w w' (Raise e) Hf). discriminate.
    + apply (@in_turn_stop (f self) name version rest w w' OutOfFuel Hf). discriminate.
Qed.

Lemma install_queued_all_succeed : forall queue w w',
    install_queued cls self queue w = (Ret true, w')
    <-> all_succeed (f self) queue w w'.
Proof.
  induction queue as [| [name version] rest IH]; intros w w'.
  - cbn [install_queued]. unfold ret. split.
    + intros H. inversion H. apply all_succeed_nil.
    + intros H. inversion H. reflexivity.
  - cbn [install_queued]. unfold bind.
    change (install_from_registry cls) with f.
    split.
    + intros H.
      destruct (f self name version w) as [[[|] | e |] w1] eqn:Hf;
        cbn [negb] in H; try discriminate.
      eapply all_succeed_cons; [exact Hf | apply IH; exact H].
    + intros H. inversion H as [| n0 v0 r0 wa wb wc Hf Hrest]; subst.
      rewrite Hf. cbn [negb]. apply IH. exact Hrest.
Qed.

(** C5.  [install_dependencies] queues exactly the entries whose package
    [find_package] does not find, each with its own selector and in the
    order of the mapping; an entry whose package is found is never
    queued, whatever its selector says of the installed version.  The
    scan leaves the filesystem alone.  With an empty queue the method
    returns [True] at once; otherwise [install_from_registry] is called
    for the queued entries in turn, stopping at the first that does not
    succeed, and the method returns [True] exactly when every one of
    them did.  (When a lookup fails in another way than not finding the
    package, the method raises during the scan, before any install.) *)
Theorem install_dependencies_installs_missing_in_turn : forall deps w,
    (lookups_settle rt self w deps ->
     exists w1,
       fs w1 = fs w
       /\ (exists lines, trace w1 = trace w ++ map Print lines)
       /\ (not_found_entries rt self w deps = [] ->
           Installer_install_dependencies cls self deps w = (Ret true, w1))
       /\ in_turn (f self) (not_found_entries rt self w deps) w1
            (Installer_install_dependencies cls self deps w)
       /\ (forall w',
              Installer_install_dependencies cls self deps w = (Ret true, w')
              <-> all_succeed (f self) (not_found_entries rt self w deps) w1 w'))
    /\ (~ lookups_settle rt self w deps ->
        exists e w1,
          Installer_install_dependencies cls self deps w = (Raise e, w1)
          /\ fs w1 = fs w
          /\ exists lines, trace w1 = trace w ++ map Print lines).
Proof.
  intros deps w. split.
  - intros Hsettle.
    destruct (scan_dependencies_queue deps w w [] eq_refl Hsettle) as [lines Hscan].
    cbn [app] in Hscan.
    remember (Installer_install_dependencies cls self deps w) as run eqn:Hrun.
    unfold Installer_install_dependencies in Hrun. unfold bind at 1 in Hrun.
    rewrite Hscan in Hrun.
    destruct (not_found_entries rt self w deps) as [| entry queue] eqn:Hq.
    + unfold ret in Hrun. subst run.
      exists (mkWorld (fs w) (trace w ++ map Print lines)).
      split; [reflexivity |]. split; [exists lines; reflexivity |].
      split; [reflexivity |]. split; [apply in_turn_done |].
      intros w'. split.
      * intros H. inversion H. apply all_succeed_nil.
      * intros H. inversion H. reflexivity.
    + unfold bind at 1, print, emit in Hrun. cbn [fs trace] in Hrun. subst run.
      eexists. split; [| split; [| split; [discriminate | split;
        [apply install_queued_in_turn | intros w'; apply install_queued_all_succeed]]]].
      * reflexivity.
      * eexists (lines ++ [_]). cbn [trace]. rewrite map_app, app_assoc. reflexivity.
  - intros Hnot.
    destruct (scan_dependencies_unsettled deps w w [] eq_refl Hnot) as [e [lines Hscan]].
    unfold Installer_install_dependencies. unfold bind at 1. rewrite Hscan.
    exists e. eexists. split; [reflexivity |]. split; [reflexivity |].
    exists lines. reflexivity.
Qed.

End Dependencies.

Lemma install_dependencies_installs_missing_in_turn_witness :
  (lookups_settle Sample.rt Sample.local_installer Sample.start Sample.four_deps
   /\ not_found_entries Sample.rt Sample.local_installer Sample.start Sample.four_deps
      = [("bar", Sample.any_version); ("baz", Sample.any_version);
         ("qux", Sample.any_version)]
   /\ exists w1,
       fs w1 = fs Sample.start
       /\ (exists lines, trace w1 = trace Sample.start ++ map Print lines)
       /\ (not_found_entries Sample.rt Sample.local_installer Sample.start
             Sample.four_deps = [] ->
           Installer_install_dependencies Sample.stubbed_cls Sample.local_installer
             Sample.four_deps Sample.start
           = (Ret true, w1))
       /\ in_turn (Sample.stub_install Sample.local_installer)
            (not_found_entries Sample.rt Sample.local_installer Sample.start
               Sample.four_deps) w1
            (Installer_install_dependencies Sample.stubbed_cls Sample.local_installer
               Sample.four_deps Sample.start)
       /\ (forall w',
              Installer_install_dependencies Sample.stubbed_cls Sample.local_installer
                Sample.four_deps Sample.start
              = (Ret true, w')
              <-> all_succeed (Sample.stub_install Sample.local_installer)
                    (not_found_entries Sample.rt Sample.local_installer Sample.start
                       Sample.four_deps) w1 w'))
  /\ (~ lookups_settle Sample.rt Sample.local_installer Sample.start
         [("bad", Sample.any_version)]
      /\ exists e w1,
          Installer_install_dependencies Sample.stubbed_cls Sample.local_installer
            [("bad", Sample.any_version)] Sample.start = (Raise e, w1)
          /\ fs w1 = fs Sample.start
          /\ exists lines, trace w1 = trace Sample.start ++ map Print lines).
Proof.
  assert (H : lookups_settle Sample.rt Sample.local_installer Sample.start
                Sample.four_deps).
  { intros nv [E | [E | [E | [E | []]]]]; subst nv.
    - left. reflexivity.
    - right. exists "bar". reflexivity.
    - right. exists "baz". reflexivity.
    - right. exists "qux". reflexivity. }
  assert (N : ~ lookups_settle Sample.rt Sample.local_installer Sample.start
                  [("bad", Sample.any_version)]).
  { intros Hs. destruct (Hs ("bad", Sample.any_version) (or_introl eq_refl))
      as [Hf | [p Hp]]; vm_compute in *; discriminate. }
  split.
  - split; [exact H |]. split; [reflexivity |].
    exact (proj1 (install_dependencies_installs_missing_in_turn Sample.rt 0
                    Sample.stub_install Sample.local_installer _ Sample.start) H).
  - split; [exact N |].
    exact (proj2 (install_dependencies_installs_missing_in_turn Sample.rt 0
                    Sample.stub_install Sample.local_installer _ Sample.start) N).
Defined.

(** ** The [install] command *)

Lemma exit_status_bind : forall (c : M bool) w,
    bind c (fun success =>
              if negb success then bind (print "Installation failed") (fun _ => ret 1%Z)
              else ret 0%Z) w
    = exit_status (c w).
Proof.
  intros c w. unfold bind at 1, exit_status.
  destruct (c w) as [[[|] | e |] w']; reflexivity.
Qed.

(** The callback of the [install] command builds an installer with the
    given upgrade and global flags (no registry given, not strict) and
    chooses by the package argument: an existing directory is installed
    from directory, otherwise an existing file is installed from archive,
    otherwise the argument is parsed as a reference string and installed
    from the registry, with the selector [*] when the reference has none.
    When the chosen installation returns [False] the callback prints
    "Installation failed" and returns 1; when it returns [True] the
    callback returns 0. *)
Lemma install_command_dispatch : forall rt cls package upgrade_flag global_flag w,
    let installer := Installer_init rt None upgrade_flag global_flag false in
    upgrade installer = upgrade_flag
    /\ global_ installer = global_flag
    /\ (isdir (rt_cwd rt) (fs w) package = true ->
        install rt cls package upgrade_flag global_flag w
        = exit_status (install_from_directory cls installer package None w))
    /\ (isdir (rt_cwd rt) (fs w) package = false ->
        isfile (rt_cwd rt) (fs w) package = true ->
        install rt cls package upgrade_flag global_flag w
        = exit_status (install_from_archive cls installer package None w))
    /\ (isdir (rt_cwd rt) (fs w) package = false ->
        isfile (rt_cwd rt) (fs w) package = false ->
        forall name,
          (forall selector,
              refstring_parse rt package = Returns (name, Some selector) ->
              install rt cls package upgrade_flag global_flag w
              = exit_status (install_from_registry cls installer name selector w))
          /\ (forall any,
                 refstring_parse rt package = Returns (name, None) ->
                 semver_Selector rt "*" = Returns any ->
                 install rt cls package upgrade_flag global_flag w
                 = exit_status (install_from_registry cls installer name any w)))
    /\ (forall w', exit_status (Ret false, w')
                   = (Ret 1%Z, mkWorld (fs w') (trace w' ++ [Print "Installation failed"])))
    /\ (forall w', exit_status (Ret true, w') = (Ret 0%Z, w')).
Proof.
  intros rt cls package upgrade_flag global_flag w installer.
  split; [reflexivity |]. split; [reflexivity |].
  split; [| split; [| split; [| split; reflexivity]]].
  - intros Hdir. unfold install. unfold bind at 1, get_fs. rewrite Hdir.
    apply exit_status_bind.
  - intros Hdir Hfile. unfold install. unfold bind at 1, get_fs. rewrite Hdir, Hfile.
    apply exit_status_bind.
  - intros Hdir Hfile name. split.
    + intros selector Hparse. unfold install. unfold bind at 1, get_fs.
      rewrite Hdir, Hfile. rewrite exit_status_bind.
      unfold bind at 1, lift_out at 1. rewrite Hparse. cbn [res_of snd fst].
      unfold bind at 1, ret at 1. reflexivity.
    + intros any Hparse Hany. unfold install. unfold bind at 1, get_fs.
      rewrite Hdir, Hfile. rewrite exit_status_bind.
      unfold bind at 1, lift_out at 1. rewrite Hparse. cbn [res_of snd fst].
      unfold bind at 1, lift_out at 1. rewrite Hany. reflexivity.
Qed.

Lemma install_command_dispatch_sample :
  (isdir Sample.cwd Sample.project "ppy_modules/bad" = true
   /\ install Sample.rt Sample.Installer_cls "ppy_modules/bad" false false Sample.start
      = (Ret 1%Z,
         mkWorld Sample.project
           [Print ("Error: directory " +++ dq +++ "ppy_modules/bad" +++ dq
                   +++ ": invalid manifest: broken");
            Print "Installation failed"]))
  /\ (isdir Sample.cwd Sample.project "bundle.tar.gz" = false
      /\ isfile Sample.cwd Sample.project "bundle.tar.gz" = true
      /\ fst (install Sample.rt Sample.Installer_cls "bundle.tar.gz" false false Sample.start)
         = Ret 0%Z)
  /\ (isdir Sample.cwd Sample.project "foo@2.0.0" = false
      /\ isfile Sample.cwd Sample.project "foo@2.0.0" = false
      /\ fst (install Sample.rt Sample.Installer_cls "foo@2.0.0" false false Sample.start)
         = Ret 0%Z)
  /\ (refstring_parse Sample.rt "bar" = Returns ("bar", None)
      /\ fst (install Sample.rt Sample.Installer_cls "bar" true false Sample.start)
         = Raise (NameError "download")).
Proof.
  pose proof (install_command_dispatch Sample.rt Sample.Installer_cls) as H.
  split; [| split; [| split]].
  - split; [reflexivity |].
    destruct (H "ppy_modules/bad" false false Sample.start) as [_ [_ [Hd _]]].
    rewrite (Hd eq_refl). reflexivity.
  - split; [reflexivity |]. split; [reflexivity |].
    destruct (H "bundle.tar.gz" false false Sample.start) as [_ [_ [_ [Ha _]]]].
    rewrite (Ha eq_refl eq_refl). reflexivity.
  - split; [reflexivity |]. split; [reflexivity |].
    destruct (H "foo@2.0.0" false false Sample.start) as [_ [_ [_ [_ [Hr _]]]]].
    rewrite (proj1 (Hr eq_refl eq_refl "foo") (Sample.exactly "2.0.0") eq_refl).
    reflexivity.
  - split; [reflexivity |].
    destruct (H "bar" true false Sample.start) as [_ [_ [_ [_ [Hr _]]]]].
    rewrite (proj2 (Hr eq_refl eq_refl "bar") (mkSelector "*" (fun _ => true))
               eq_refl eq_refl).
    reflexivity.
Defined.

(** C6 (as the code runs).  [upm install ppy_modules/bad], on a directory
    whose manifest is invalid: the installation from directory fails, the
    callback prints "Installation failed" and returns 1, and the process
    exits with status 0, the returned value being dropped by the runner. *)
Theorem install_command_failure_exits_zero :
  isdir Sample.cwd Sample.project "ppy_modules/bad" = true
  /\ install_from_directory Sample.Installer_cls
       (Installer_init Sample.rt None false false false) "ppy_modules/bad" None Sample.start
     = (Ret false,
        mkWorld Sample.project
          [Print ("Error: directory " +++ dq +++ "ppy_modules/bad" +++ dq
                  +++ ": invalid manifest: broken")])
  /\ install Sample.rt Sample.Installer_cls "ppy_modules/bad" false false Sample.start
     = (Ret 1%Z,
        mkWorld Sample.project
          [Print ("Error: directory " +++ dq +++ "ppy_modules/bad" +++ dq
                  +++ ": invalid manifest: broken");
           Print "Installation failed"])
  /\ upm_install Sample.rt Sample.Installer_cls "ppy_modules/bad" false false Sample.start
     = (Ret 0%Z,
        mkWorld Sample.project
          [Print ("Error: directory " +++ dq +++ "ppy_modules/bad" +++ dq
                  +++ ": invalid manifest: broken");
           Print "Installation failed"]).
Proof. repeat split; vm_compute; reflexivity. Qed.

(** ** [install_from_directory] on an existing target *)



(** ** What a run records *)

Lemma copy_destinations_app : forall d1 d2,
    copy_destinations (d1 ++ d2) = copy_destinations d1 ++ copy_destinations d2.
Proof.
  induction d1 as [| e d1 IH]; intros d2; [reflexivity |].
  destruct e; simpl; rewrite IH; reflexivity.
Qed.

Lemma created_paths_app : forall d1 d2,
    created_paths (d1 ++ d2) = created_paths d1 ++ created_paths d2.
Proof.
  induction d1 as [| e d1 IH]; intros d2; [reflexivity |].
  destruct e; simpl; rewrite IH; try reflexivity.
  rewrite app_assoc. reflexivity.
Qed.

Lemma records_weaken : forall A (c : M A) (R R' : A -> list string -> list string -> Prop),
    records c R -> (forall a cs ps, R a cs ps -> R' a cs ps) -> records c R'.
Proof.
  intros A c R R' Hc Himp w a w' Hrun.
  destruct (Hc w a w' Hrun) as [d [Ht HR]]. exists d. split; [exact Ht | auto].
Qed.

Lemma records_bind : forall A B (c : M A) (k : A -> M B) R1 R2,
    records c R1 ->
    (forall a, records (k a) (R2 a)) ->
    records (bind c k)
      (fun b cs ps => exists a cs1 ps1 cs2 ps2,
           R1 a cs1 ps1 /\ R2 a b cs2 ps2 /\ cs = cs1 ++ cs2 /\ ps = ps1 ++ ps2).
Proof.
  intros A B c k R1 R2 Hc Hk w b w' Hrun.
  apply bind_Ret_inv in Hrun. destruct Hrun as [a [w1 [Hc1 Hk1]]].
  destruct (Hc w a w1 Hc1) as [d1 [Ht1 H1]].
  destruct (Hk a w1 b w' Hk1) as [d2 [Ht2 H2]].
  exists (d1 ++ d2). split.
  - rewrite Ht2, Ht1, app_assoc. reflexivity.
  - rewrite copy_destinations_app, created_paths_app.
    exists a, (copy_destinations d1), (created_paths d1),
      (copy_destinations d2), (created_paths d2). auto.
Qed.

(** The usual case: a quiet step, then the rest. *)
Lemma records_then : forall A B (c : M A) (k : A -> M B) R,
    records c nothing -> (forall a, records (k a) R) -> records (bind c k) R.
Proof.
  intros A B c k R Hc Hk.
  eapply records_weaken; [apply (records_bind A B c k _ (fun _ => R) Hc Hk) |].
  intros b cs ps [a [cs1 [ps1 [cs2 [ps2 [[E1 E2] [HR [Ec Ep]]]]]]]]. subst. exact HR.
Qed.

Lemma records_ret : forall A (a : A), records (ret a) (fun a' cs ps => a' = a /\ cs = [] /\ ps = []).
Proof.
  intros A a w a' w' H. inversion H; subst. exists []. rewrite app_nil_r. auto.
Qed.

Lemma records_print : forall line, records (print line) nothing.
Proof.
  intros line w a w' H. inversion H; subst. exists [Print line]. split; [reflexivity |].
  split; reflexivity.
Qed.

Lemma records_lift_out : forall A (o : Outcome A), records (lift_out o) nothing.
Proof.
  intros A o w a w' H. unfold lift_out in H. inversion H; subst. exists [].
  rewrite app_nil_r. split; [reflexivity |]. split; reflexivity.
Qed.

Lemma records_makedirs : forall cwd path, records (_makedirs cwd path) nothing.
Proof.
  intros cwd path w a w' H. unfold _makedirs, os_makedirs, bind, get_fs in H.
  destruct (negb (isdir cwd (fs w) path)).
  - destruct (negb (truthy path)); [discriminate |].
    destruct (exists_ cwd (fs w) path); [discriminate |].
    destruct (mkdirs_node (components cwd path) (fs w)); [| discriminate].
    inversion H; subst. exists [Makedirs path]. split; [reflexivity |]. split; reflexivity.
  - inversion H; subst. exists []. rewrite app_nil_r. split; [reflexivity |].
    split; reflexivity.
Qed.

Lemma records_copyfile : forall cwd src dst,
    records (shutil_copyfile cwd src dst) (fun _ cs ps => cs = [dst] /\ ps = []).
Proof.
  intros cwd src dst w a w' H. unfold shutil_copyfile, bind, get_fs in H.
  destruct (truthy src && truthy dst && _ && _); [discriminate |].
  destruct (stat cwd (fs w) src) as [[data | es] |]; try discriminate.
  destruct (negb (truthy dst)); [discriminate |].
  destruct (isdir cwd (fs w) dst); [discriminate |].
  destruct (put_node (components cwd dst) (File data) (fs w)); [| discriminate].
  inversion H; subst. exists [CopyFile src dst]. split; [reflexivity |]. split; reflexivity.
Qed.

Lemma records_make_script : forall script_name generator,
    records (make_script script_name generator) (fun paths cs ps => cs = [] /\ ps = paths).
Proof.
  intros script_name generator w a w' H. unfold make_script in H.
  destruct (generator (fs w)) as [[paths | e] fs']; [| discriminate].
  inversion H; subst. exists [ScriptCreated script_name a]. split; [reflexivity |].
  split; [reflexivity |]. simpl. apply app_nil_r.
Qed.

(** ** The filesystem after a write *)

Lemma entry_set_entry : forall name new es, entry name (set_entry name new es) = Some new.
Proof.
  intros name new es. induction es as [| [k n] es IH]; simpl.
  - rewrite String.eqb_refl. reflexivity.
  - destruct (String.eqb k name) eqn:E; simpl; rewrite E; [reflexivity | exact IH].
Qed.

Lemma lookup_put_node : forall p new n n',
    put_node p new n = Some n' -> lookup_node p n' = Some new.
Proof.
  induction p as [| c p IH]; intros new n n' H.
  - simpl in H. inversion H; subst. reflexivity.
  - simpl in H. destruct n as [data | es]; [discriminate |].
    destruct p as [| c' p'].
    + inversion H; subst. simpl. rewrite entry_set_entry. reflexivity.
    + destruct (entry c es) as [n0 |]; [| discriminate].
      destruct (put_node (c' :: p') new n0) as [n1 |] eqn:Hput; [| discriminate].
      inversion H; subst.
      change (lookup_node (c :: c' :: p') (Dir (set_entry c n1 es)))
        with (match entry c (set_entry c n1 es) with
              | Some n2 => lookup_node (c' :: p') n2
              | None => None
              end).
      rewrite entry_set_entry. apply (IH new n0 n1 Hput).
Qed.

Lemma write_file_written : forall cwd path data w w',
    write_file cwd path data w = (Ret tt, w') ->
    trace w' = trace w ++ [WriteFile path data]
    /\ stat cwd (fs w') path = Some (File data).
Proof.
  intros cwd path data w w' H. unfold write_file, bind, get_fs in H.
  destruct (truthy path) eqn:Ht; cbn [negb] in H; [| discriminate].
  destruct (isdir cwd (fs w) path); [discriminate |].
  destruct (put_node (components cwd path) (File data) (fs w)) as [new |] eqn:Hput;
    [| discriminate].
  inversion H; subst. cbn [fs trace]. split; [reflexivity |].
  unfold stat. rewrite Ht. apply (lookup_put_node _ _ _ _ Hput).
Qed.

(** ** The copy loop and the script loops *)

Lemma records_copy_one : forall rt target_dir src rel acc,
    records (copy_one rt target_dir src rel acc) (appends_copies acc).
Proof.
  intros rt target_dir src rel acc. unfold copy_one.
  apply records_then; [apply records_makedirs | intros _].
  apply records_then; [apply records_print | intros _].
  eapply records_weaken.
  - apply records_bind; [apply records_copyfile | intros u; apply records_ret].
  - intros acc' cs ps [u [cs1 [ps1 [cs2 [ps2 [[E1 E2] [[E3 [E4 E5]] [Ec Ep]]]]]]]].
    subst. unfold appends_copies. rewrite app_nil_r. split; reflexivity.
Qed.

Section WalkRecords.

Variable cwd : string.
Variable manifest : PackageManifest.
Variable body : string -> string -> list string -> M (list string).
Hypothesis body_appends : forall src rel acc, records (body src rel acc) (appends_copies acc).

Lemma records_walk_files : forall root files acc,
    records (walk_files cwd manifest body root files acc) (appends_copies acc).
Proof.
  intros root files. induction files as [| filename files IH]; intros acc.
  - cbn [walk_files]. eapply records_weaken; [apply records_ret |].
    intros a cs ps [E1 [E2 E3]]. subst. unfold appends_copies, appends_scripts.
    rewrite app_nil_r. split; reflexivity.
  - cbn [walk_files]. eapply records_weaken.
    + apply records_bind with (R1 := appends_copies acc)
                              (R2 := fun acc1 => appends_copies acc1).
      * destruct (_ || _); [apply body_appends |].
        eapply records_weaken; [apply records_ret |].
        intros a cs ps [E1 [E2 E3]]. subst. unfold appends_copies, appends_scripts.
    rewrite app_nil_r. split; reflexivity.
      * intros acc1. apply IH.
    + intros acc' cs ps [acc1 [cs1 [ps1 [cs2 [ps2 [[E1 E2] [[E3 E4] [Ec Ep]]]]]]]].
      unfold appends_copies in *. subst. rewrite app_assoc. split; reflexivity.
Qed.

Lemma records_walk_dirs : forall fuel pending acc,
    records (walk_dirs cwd manifest body fuel pending acc) (appends_copies acc).
Proof.
  induction fuel as [| fuel IH]; intros pending acc.
  - intros w a w' H. discriminate.
  - cbn [walk_dirs]. intros w a w' H.
    unfold bind at 1, get_fs at 1 in H.
    destruct (os_walk_next cwd (fs w) pending) as [[[[root subdirs] files] pending'] |].
    + revert w a w' H.
      change (records (bind (walk_files cwd manifest body root files acc)
                         (fun acc' => walk_dirs cwd manifest body fuel pending' acc'))
                (appends_copies acc)).
      eapply records_weaken.
      * apply records_bind with (R1 := appends_copies acc)
                                (R2 := fun acc1 => appends_copies acc1).
        -- apply records_walk_files.
        -- intros acc1. apply IH.
      * intros acc' cs ps [acc1 [cs1 [ps1 [cs2 [ps2 [[E1 E2] [[E3 E4] [Ec Ep]]]]]]]].
        unfold appends_copies in *. subst. rewrite app_assoc. split; reflexivity.
    + inversion H; subst. exists []. split; [rewrite app_nil_r; reflexivity |].
      split; [simpl; rewrite app_nil_r; reflexivity | reflexivity].
Qed.

End WalkRecords.

Lemma records_copy_package_files : forall rt fuel manifest target_dir,
    records (copy_package_files rt fuel manifest target_dir) (appends_copies []).
Proof.
  intros rt fuel manifest target_dir. unfold copy_package_files.
  apply records_then; [apply records_print | intros _].
  apply records_then; [apply records_makedirs | intros _].
  unfold walk_package_files. apply records_walk_dirs.
  intros src rel acc. apply records_copy_one.
Qed.

Lemma records_install_command_scripts : forall rt self scripts acc,
    records (install_command_scripts rt self scripts acc) (appends_scripts acc).
Proof.
  intros rt self scripts. induction scripts as [| [script_name command] rest IH]; intros acc.
  - cbn [install_command_scripts]. eapply records_weaken; [apply records_ret |].
    intros a cs ps [E1 [E2 E3]]. subst. unfold appends_copies, appends_scripts.
      rewrite app_nil_r. split; reflexivity.
  - cbn [install_command_scripts].
    apply records_then; [apply records_print | intros _].
    apply records_then; [apply records_lift_out | intros argv].
    eapply records_weaken.
    + apply records_bind with (R2 := fun created => appends_scripts (acc ++ created)).
      * apply records_make_script.
      * intros created. apply IH.
    + intros acc' cs ps [created [cs1 [ps1 [cs2 [ps2 [[E1 E2] [[E3 E4] [Ec Ep]]]]]]]].
      unfold appends_scripts in *. subst. rewrite <- app_assoc. split; reflexivity.
Qed.

Lemma records_install_bin_scripts : forall rt self target_dir bins acc,
    records (install_bin_scripts rt self target_dir bins acc) (appends_scripts acc).
Proof.
  intros rt self target_dir bins. induction bins as [| [script_name filename] rest IH];
    intros acc.
  - cbn [install_bin_scripts]. eapply records_weaken; [apply records_ret |].
    intros a cs ps [E1 [E2 E3]]. subst. unfold appends_copies, appends_scripts.
      rewrite app_nil_r. split; reflexivity.
  - cbn [install_bin_scripts].
    apply records_then; [apply records_print | intros _].
    eapply records_weaken.
    + apply records_bind with (R2 := fun created => appends_scripts (acc ++ created)).
      * apply records_make_script.
      * intros created. apply IH.
    + intros acc' cs ps [created [cs1 [ps1 [cs2 [ps2 [[E1 E2] [[E3 E4] [Ec Ep]]]]]]]].
      unfold appends_scripts in *. subst. rewrite <- app_assoc. split; reflexivity.
Qed.

(** ** The postinstall step *)

Lemma run_postinstall_returns : forall rt manifest target_dir w r w',
    run_postinstall rt manifest target_dir w = (r, w') ->
    (r = Ret true /\ w' = w)
    \/ (exists postinstall,
           m_postinstall manifest = Some postinstall
           /\ truthy postinstall = true
           /\ r = Ret false
           /\ w' = mkWorld (fs w)
                     (trace w
                      ++ [Print ("  Running postinstall script " +++ dq +++ postinstall
                                 +++ dq +++ "...");
                          Print ("  Error in postinstall script " +++ dq
                                 +++ path_join target_dir postinstall +++ dq);
                          Traceback (NameError "upython")])).
Proof.
  intros rt manifest target_dir w r w' H. unfold run_postinstall in H.
  destruct (m_postinstall manifest) as [postinstall |] eqn:Hp.
  - destruct (truthy postinstall) eqn:Ht; cbn [negb] in H.
    + right. exists postinstall. split; [reflexivity |]. split; [exact Ht |].
      unfold bind at 1, print at 1, emit at 1, try_except in H.
      unfold bind at 1 in H.
      change (load_global "upython") with (@raise string (NameError "upython")) in H.
      unfold raise at 1 in H.
      unfold bind, print, emit, ret in H. cbn [fs trace] in H.
      inversion H; subst. split; [reflexivity |].
      rewrite <- !app_assoc. reflexivity.
    + left. inversion H; subst. split; reflexivity.
  - left. inversion H; subst. split; reflexivity.
Qed.

(** ** From the copy to the ledger *)

Lemma place_package_returns : forall rt fuel self manifest target_dir w b w',
    place_package rt fuel self manifest target_dir w = (Ret b, w') ->
    exists copies scripts w3 w4,
      trace w3 = trace w ++ copies ++ scripts
      /\ created_paths copies = []
      /\ copy_destinations scripts = []
      /\ write_installed_files rt target_dir
           (copy_destinations copies ++ created_paths scripts) w3 = (Ret tt, w4)
      /\ run_postinstall rt manifest target_dir w4 = (Ret b, w').
Proof.
  intros rt fuel self manifest target_dir w b w' H. unfold place_package in H.
  apply bind_Ret_inv in H. destruct H as [copied [w1 [Hcopy H]]].
  apply bind_Ret_inv in H. destruct H as [with_scripts [w2 [Hscripts H]]].
  apply bind_Ret_inv in H. destruct H as [installed [w3 [Hbins H]]].
  apply bind_Ret_inv in H. destruct H as [u [w4 [Hwrite Hpost]]].
  destruct (records_copy_package_files _ _ _ _ _ _ _ Hcopy) as [d1 [Ht1 [Ec1 Ep1]]].
  destruct (records_install_command_scripts _ _ _ _ _ _ _ Hscripts) as [d2 [Ht2 [Es2 Ec2]]].
  destruct (records_install_bin_scripts _ _ _ _ _ _ _ _ Hbins) as [d3 [Ht3 [Es3 Ec3]]].
  exists d1, (d2 ++ d3), w3, w4.
  split; [rewrite Ht3, Ht2, Ht1, <- !app_assoc; reflexivity |].
  split; [exact Ep1 |].
  split; [rewrite copy_destinations_app, Ec2, Ec3; reflexivity |].
  split; [| exact Hpost].
  destruct u. rewrite created_paths_app.
  cbn [app] in Ec1. rewrite <- Ec1. rewrite app_assoc. rewrite <- Es2. rewrite <- Es3.
  exact Hwrite.
Qed.

Lemma install_from_directory_places :
  forall rt fuel cls self directory expect w manifest wu wd,
    session_get_manifest rt (fs w) (path_join directory "package.json") = Returns manifest ->
    expect_mismatch manifest expect = false ->
    target_cleared rt cls self (path_join (d_packages (dirs self)) (m_name manifest))
      (announced manifest w) wu ->
    install_dependencies_for cls self manifest wu = (Ret true, wd) ->
    Installer_install_from_directory rt fuel cls self directory expect w
    = place_package rt fuel self manifest
        (path_join (d_packages (dirs self)) (m_name manifest)) wd.
Proof.
  intros rt fuel cls self directory expect w manifest wu wd Hparse Hexpect Hclear Hdeps.
  unfold Installer_install_from_directory.
  unfold bind at 1, try_except, bind at 1, get_manifest, bind at 1, get_fs at 1,
    lift_out at 1.
  rewrite Hparse. cbn [res_of]. unfold ret at 1. cbv iota beta.
  rewrite Hexpect.
  unfold bind at 1, print at 1, emit at 1.
  unfold bind at 1, get_fs at 1. cbn [fs trace].
  unfold announced in Hclear.
  destruct Hclear as [[Hno Hwu] | [Hyes [Hup Hun]]].
  - cbn [fs] in Hno. rewrite Hno. subst wu.
    unfold bind at 1, ret at 1. cbv iota beta.
    unfold bind at 1. rewrite Hdeps. reflexivity.
  - cbn [fs] in Hyes. rewrite Hyes, Hup. cbn [negb].
    unfold bind at 1. unfold bind at 1. rewrite Hun. cbn [negb]. unfold ret at 1.
    cbv iota beta. unfold bind at 1. rewrite Hdeps. reflexivity.
Qed.

(** ** The ledger *)

(** C10 (amended).  When [install_from_directory] gets as far as placing
    the package and returns, the trace from there on is: the copies, then
    the script generators, then the write of the ledger; the ledger file
    then holds, one per line and in this order, the destination of every
    file copied followed by every path the script generators reported.
    The ledger's own path is among these lines exactly when it is such a
    destination or such a reported path. *)
Theorem ledger_lists_copies_then_scripts :
  forall rt fuel cls self directory expect w manifest wu wd b w',
    session_get_manifest rt (fs w) (path_join directory "package.json") = Returns manifest ->
    expect_mismatch manifest expect = false ->
    target_cleared rt cls self (path_join (d_packages (dirs self)) (m_name manifest))
      (announced manifest w) wu ->
    install_dependencies_for cls self manifest wu = (Ret true, wd) ->
    Installer_install_from_directory rt fuel cls self directory expect w = (Ret b, w') ->
    exists copies scripts rest,
      trace w'
      = trace wd ++ copies ++ scripts
        ++ WriteFile (ledger_path (path_join (d_packages (dirs self)) (m_name manifest)))
             (ledger_text (copy_destinations copies ++ created_paths scripts))
           :: rest
      /\ created_paths copies = []
      /\ copy_destinations scripts = []
      /\ stat (rt_cwd rt) (fs w')
           (ledger_path (path_join (d_packages (dirs self)) (m_name manifest)))
         = Some (File (ledger_text (copy_destinations copies ++ created_paths scripts)))
      /\ (In (ledger_path (path_join (d_packages (dirs self)) (m_name manifest)))
            (copy_destinations copies ++ created_paths scripts)
          <-> In (ledger_path (path_join (d_packages (dirs self)) (m_name manifest)))
                (copy_destinations copies)
              \/ In (ledger_path (path_join (d_packages (dirs self)) (m_name manifest)))
                   (created_paths scripts)).
Proof.
  intros rt fuel cls self directory expect w manifest wu wd b w'
    Hparse Hexpect Hclear Hdeps Hrun.
  rewrite (install_from_directory_places rt fuel cls self directory expect w manifest wu wd
             Hparse Hexpect Hclear Hdeps) in Hrun.
  apply place_package_returns in Hrun.
  destruct Hrun as [copies [scripts [w3 [w4 [Ht3 [Hc [Hs [Hwrite Hpost]]]]]]]].
  apply write_file_written in Hwrite. destruct Hwrite as [Ht4 Hstat].
  apply run_postinstall_returns in Hpost.
  destruct Hpost as [[_ Hw'] | [postinstall [_ [_ [_ Hw']]]]]; subst w'.
  - exists copies, scripts, []. split.
    { rewrite Ht4, Ht3, <- !app_assoc. reflexivity. }
    split; [exact Hc |]. split; [exact Hs |]. split; [exact Hstat |]. apply in_app_iff.
  - eexists copies, scripts, _. cbn [fs trace]. split.
    { rewrite Ht4, Ht3, <- !app_assoc. reflexivity. }
    split; [exact Hc |]. split; [exact Hs |]. split; [exact Hstat |]. apply in_app_iff.
Qed.

Lemma ledger_lists_copies_then_scripts_witness :
  session_get_manifest Sample.rt Sample.project (path_join "hooked" "package.json")
  = Returns Sample.hooked_manifest
  /\ Sample.hooked_run = (Ret false, snd Sample.hooked_run)
  /\ exists copies scripts rest,
      trace (snd Sample.hooked_run)
      = trace (announced Sample.hooked_manifest Sample.start) ++ copies ++ scripts
        ++ WriteFile (ledger_path "ppy_modules/hooked")
             (ledger_text (copy_destinations copies ++ created_paths scripts))
           :: rest
      /\ created_paths copies = []
      /\ copy_destinations scripts = []
      /\ stat Sample.cwd (fs (snd Sample.hooked_run)) (ledger_path "ppy_modules/hooked")
         = Some (File (ledger_text (copy_destinations copies ++ created_paths scripts)))
      /\ (In (ledger_path "ppy_modules/hooked")
            (copy_destinations copies ++ created_paths scripts)
          <-> In (ledger_path "ppy_modules/hooked") (copy_destinations copies)
              \/ In (ledger_path "ppy_modules/hooked") (created_paths scripts)).
Proof.
  split; [reflexivity |]. split; [reflexivity |].
  exact (ledger_lists_copies_then_scripts Sample.rt 3 Sample.Installer_cls
           Sample.local_installer "hooked" None Sample.start Sample.hooked_manifest
           (announced Sample.hooked_manifest Sample.start)
           (announced Sample.hooked_manifest Sample.start)
           false (snd Sample.hooked_run)
           eq_refl eq_refl (or_introl (conj eq_refl eq_refl)) eq_refl eq_refl).
Defined.

(** C10 (as stated) fails: a package directory that itself holds a file
    [.ppym-installed-files] has that file copied like any other, and the
    ledger then lists its own path. *)
Lemma ledger_lists_itself :
  fst Sample.plain_run = Ret true
  /\ stat Sample.cwd (fs (snd Sample.plain_run)) (ledger_path "ppy_modules/plain")
     = Some (File (ledger_text ["ppy_modules/plain/package.json";
                                "ppy_modules/plain/.ppym-installed-files"]))
  /\ In (ledger_path "ppy_modules/plain")
       (file_lines (ledger_text ["ppy_modules/plain/package.json";
                                 "ppy_modules/plain/.ppym-installed-files"]))
  /\ In (CopyFile "plain/.ppym-installed-files" (ledger_path "ppy_modules/plain"))
       (trace (snd Sample.plain_run)).
Proof.
  split; [vm_compute; reflexivity |]. split; [vm_compute; reflexivity |].
  split; vm_compute; tauto.
Qed.

(** ** A failing postinstall *)

(** C9.  When [install_from_directory] gets as far as placing the package
    and returns [False], it is the postinstall step that failed: the
    ledger, listing every copied file and every generated script, was
    written before the step began, and after the step the filesystem is
    exactly as that write left it; what follows the write in the trace is
    the two postinstall lines and the traceback. *)
Theorem postinstall_failure_keeps_installed_files :
  forall rt fuel cls self directory expect w manifest wu wd w',
    session_get_manifest rt (fs w) (path_join directory "package.json") = Returns manifest ->
    expect_mismatch manifest expect = false ->
    target_cleared rt cls self (path_join (d_packages (dirs self)) (m_name manifest))
      (announced manifest w) wu ->
    install_dependencies_for cls self manifest wu = (Ret true, wd) ->
    Installer_install_from_directory rt fuel cls self directory expect w = (Ret false, w') ->
    exists copies scripts w3 w4 postinstall,
      m_postinstall manifest = Some postinstall
      /\ trace w3 = trace wd ++ copies ++ scripts
      /\ write_installed_files rt (path_join (d_packages (dirs self)) (m_name manifest))
           (copy_destinations copies ++ created_paths scripts) w3 = (Ret tt, w4)
      /\ fs w' = fs w4
      /\ trace w'
         = trace w4
           ++ [Print ("  Running postinstall script " +++ dq +++ postinstall +++ dq +++ "...");
               Print ("  Error in postinstall script " +++ dq
                      +++ path_join (path_join (d_packages (dirs self)) (m_name manifest))
                            postinstall +++ dq);
               Traceback (NameError "upython")]
      /\ stat (rt_cwd rt) (fs w')
           (ledger_path (path_join (d_packages (dirs self)) (m_name manifest)))
         = Some (File (ledger_text (copy_destinations copies ++ created_paths scripts))).
Proof.
  intros rt fuel cls self directory expect w manifest wu wd w'
    Hparse Hexpect Hclear Hdeps Hrun.
  rewrite (install_from_directory_places rt fuel cls self directory expect w manifest wu wd
             Hparse Hexpect Hclear Hdeps) in Hrun.
  apply place_package_returns in Hrun.
  destruct Hrun as [copies [scripts [w3 [w4 [Ht3 [Hc [Hs [Hwrite Hpost]]]]]]]].
  apply run_postinstall_returns in Hpost.
  destruct Hpost as [[Hr _] | [postinstall [Hp [_ [_ Hw']]]]]; [discriminate |].
  subst w'. exists copies, scripts, w3, w4, postinstall.
  split; [exact Hp |]. split; [exact Ht3 |]. split; [exact Hwrite |].
  split; [reflexivity |]. split; [reflexivity |].
  apply write_file_written in Hwrite. exact (proj2 Hwrite).
Qed.

Lemma postinstall_failure_keeps_installed_files_witness :
  session_get_manifest Sample.rt Sample.project (path_join "hooked" "package.json")
  = Returns Sample.hooked_manifest
  /\ Sample.hooked_run = (Ret false, snd Sample.hooked_run)
  /\ exists copies scripts w3 w4 postinstall,
      m_postinstall Sample.hooked_manifest = Some postinstall
      /\ trace w3 = trace (announced Sample.hooked_manifest Sample.start) ++ copies ++ scripts
      /\ write_installed_files Sample.rt "ppy_modules/hooked"
           (copy_destinations copies ++ created_paths scripts) w3 = (Ret tt, w4)
      /\ fs (snd Sample.hooked_run) = fs w4
      /\ trace (snd Sample.hooked_run)
         = trace w4
           ++ [Print ("  Running postinstall script " +++ dq +++ postinstall +++ dq +++ "...");
               Print ("  Error in postinstall script " +++ dq
                      +++ path_join "ppy_modules/hooked" postinstall +++ dq);
               Traceback (NameError "upython")]
      /\ stat Sample.cwd (fs (snd Sample.hooked_run)) (ledger_path "ppy_modules/hooked")
         = Some (File (ledger_text (copy_destinations copies ++ created_paths scripts))).
Proof.
  split; [reflexivity |]. split; [reflexivity |].
  exact (postinstall_failure_keeps_installed_files Sample.rt 3 Sample.Installer_cls
           Sample.local_installer "hooked" None Sample.start Sample.hooked_manifest
           (announced Sample.hooked_manifest Sample.start)
           (announced Sample.hooked_manifest Sample.start)
           (snd Sample.hooked_run)
           eq_refl eq_refl (or_introl (conj eq_refl eq_refl)) eq_refl eq_refl).
Defined.

(** ** More on file selection *)

Section WalkSelection.

Variable cwd : string.
Variable manifest : PackageManifest.

Let collect : string -> string -> list (string * string) -> M (list (string * string)) :=
  fun filename rel acc => ret (acc ++ [(filename, rel)]).

Lemma walk_files_collects : forall root files acc w acc' w',
    walk_files cwd manifest collect root files acc w = (Ret acc', w') ->
    w' = w /\ exists new, acc' = acc ++ new /\ Forall (selected cwd manifest) new.
Proof.
  intros root files. induction files as [| filename files IH]; intros acc w acc' w' H.
  - cbn [walk_files] in H. inversion H; subst. split; [reflexivity |].
    exists []. rewrite app_nil_r. split; [reflexivity | constructor].
  - cbn [walk_files] in H. unfold bind at 1 in H.
    destruct (String.eqb (relpath cwd (path_join root filename) (m_directory manifest))
                "package.json"
              || _check_include_file
                   (relpath cwd (path_join root filename) (m_directory manifest))
                   (inpat manifest) (expat manifest)) eqn:Hsel.
    + unfold collect at 1, ret at 1 in H.
      destruct (IH _ _ _ _ H) as [Hw [new [Hacc Hnew]]].
      split; [exact Hw |].
      exists ((path_join root filename,
               relpath cwd (path_join root filename) (m_directory manifest)) :: new).
      split; [rewrite Hacc, <- app_assoc; reflexivity |].
      constructor; [| exact Hnew].
      split; [| reflexivity]. cbn [snd].
      apply orb_true_iff in Hsel. destruct Hsel as [He | Hc].
      * left. apply String.eqb_eq. exact He.
      * right. exact Hc.
    + unfold ret at 1 in H. apply (IH _ _ _ _ H).
Qed.

Lemma walk_dirs_collects : forall fuel pending acc w acc' w',
    walk_dirs cwd manifest collect fuel pending acc w = (Ret acc', w') ->
    w' = w /\ exists new, acc' = acc ++ new /\ Forall (selected cwd manifest) new.
Proof.
  induction fuel as [| fuel IH]; intros pending acc w acc' w' H.
  - discriminate.
  - cbn [walk_dirs] in H. unfold bind at 1, get_fs at 1 in H.
    destruct (os_walk_next cwd (fs w) pending) as [[[[root subdirs] files] pending'] |].
    + apply bind_Ret_inv in H. destruct H as [acc1 [w1 [Hfiles Hrest]]].
      destruct (walk_files_collects _ _ _ _ _ _ Hfiles) as [Hw1 [new1 [Ha1 Hn1]]].
      destruct (IH _ _ _ _ _ Hrest) as [Hw' [new2 [Ha2 Hn2]]].
      subst. split; [reflexivity |]. exists (new1 ++ new2).
      split; [rewrite app_assoc; reflexivity |]. apply Forall_app. split; assumption.
    + inversion H; subst. split; [reflexivity |]. exists []. rewrite app_nil_r.
      split; [reflexivity | constructor].
Qed.

(** X1.  Listing the package files changes nothing, and every pair listed
    is the manifest file or a file the filter accepts, its relative path
    taken from the package directory. *)
Theorem walk_package_files_yields_selected : forall fuel w pairs w',
    walk_package_files_list cwd manifest fuel w = (Ret pairs, w') ->
    w' = w /\ Forall (selected cwd manifest) pairs.
Proof.
  intros fuel w pairs w' H. unfold walk_package_files_list, walk_package_files in H.
  destruct (walk_dirs_collects _ _ _ _ _ _ H) as [Hw [new [Ha Hn]]].
  split; [exact Hw |]. cbn [app] in Ha. subst pairs. exact Hn.
Qed.

(** X2.  Once the manifest declares an include pattern, the manifest file
    is all that is listed: what matches an include pattern is excluded by
    the same pattern, and what matches none is not included. *)
Theorem walk_package_files_with_includes_yields_manifest_only :
  forall fuel w pairs w',
    inpat manifest <> [] ->
    walk_package_files_list cwd manifest fuel w = (Ret pairs, w') ->
    forall filename rel, In (filename, rel) pairs -> rel = "package.json".
Proof.
  intros fuel w pairs w' Hinc H filename rel Hin.
  destruct (walk_dirs_collects _ _ _ _ _ _ H) as [_ [new [Ha Hn]]].
  cbn [app] in Ha. subst pairs.
  rewrite Forall_forall in Hn. destruct (Hn _ Hin) as [[He | Hc] _]; [exact He |].
  cbn [snd] in Hc. exfalso.
  assert (Hm : _match_any_pattern rel (inpat manifest) = true).
  { unfold _check_include_file in Hc.
    destruct (_match_any_pattern rel (expat manifest)); [discriminate |].
    destruct (inpat manifest); [contradiction Hinc; reflexivity | exact Hc]. }
  rewrite (include_pattern_match_is_excluded manifest rel Hm) in Hc. discriminate.
Qed.

End WalkSelection.

Lemma walk_package_files_yields_selected_witness :
  walk_package_files_list Sample.cwd Sample.plain_manifest 3 Sample.start
  = (Ret [("plain/package.json", "package.json");
          ("plain/.ppym-installed-files", ".ppym-installed-files")], Sample.start)
  /\ Forall (selected Sample.cwd Sample.plain_manifest)
       [("plain/package.json", "package.json");
        ("plain/.ppym-installed-files", ".ppym-installed-files")].
Proof.
  split; [reflexivity |].
  exact (proj2 (walk_package_files_yields_selected Sample.cwd Sample.plain_manifest 3
                  Sample.start _ Sample.start eq_refl)).
Defined.

Lemma walk_package_files_with_includes_yields_manifest_only_witness :
  inpat Sample.txt_manifest <> []
  /\ In ("/work/pkg/package.json", "package.json")
       [("/work/pkg/package.json", "package.json")]
  /\ "package.json" = "package.json".
Proof.
  assert (Hinc : inpat Sample.txt_manifest <> []) by (vm_compute; discriminate).
  split; [exact Hinc |]. split; [left; reflexivity |].
  exact (walk_package_files_with_includes_yields_manifest_only Sample.cwd
           Sample.txt_manifest 4 (mkWorld Sample.txt_tree []) _ _ Hinc eq_refl
           "/work/pkg/package.json" "package.json" (or_introl eq_refl)).
Defined.


(** ** The default exclude patterns *)

Lemma chars_append : forall a b, chars (a +++ b) = chars a ++ chars b.
Proof.
  induction a as [| c a IH]; intros b; [reflexivity |].
  unfold chars in *. simpl. rewrite IH. reflexivity.
Qed.

Lemma glob_match_star_end : forall s, glob_match [GStar] s = true.
Proof.
  induction s as [| a s IH]; [reflexivity |].
  cbn [glob_match] in *. cbn [orb]. exact IH.
Qed.

Lemma glob_match_literal_prefix : forall pre g s,
    glob_match (map GLit pre ++ g) (pre ++ s) = glob_match g s.
Proof.
  induction pre as [| c pre IH]; intros g s; [reflexivity |].
  cbn [map app glob_match]. rewrite Ascii.eqb_refl. cbn [andb]. apply IH.
Qed.

Lemma glob_match_star_suffix : forall g s t,
    glob_match g t = true -> glob_match (GStar :: g) (s ++ t) = true.
Proof.
  intros g s t H. induction s as [| a s IH].
  - cbn [app glob_match]. destruct t; rewrite H; reflexivity.
  - cbn [app glob_match] in *. rewrite IH. apply orb_true_r.
Qed.

Lemma glob_match_literal : forall l, glob_match (map GLit l) l = true.
Proof.
  intros l. rewrite <- (app_nil_r (map GLit l)). rewrite <- (app_nil_r l) at 2.
  rewrite glob_match_literal_prefix. reflexivity.
Qed.

Lemma fnmatch_under : forall (dir rest : string) pre,
    translate (dir +++ "*") = map GLit pre ++ [GStar] ->
    chars dir = pre ->
    fnmatch (dir +++ rest) (dir +++ "*") = true.
Proof.
  intros dir rest pre Ht Hd. unfold fnmatch. rewrite Ht, chars_append, Hd.
  rewrite glob_match_literal_prefix. apply glob_match_star_end.
Qed.

Lemma fnmatch_ending : forall (stem suffix : string) suf,
    translate ("*" +++ suffix) = GStar :: map GLit suf ->
    chars suffix = suf ->
    fnmatch (stem +++ suffix) ("*" +++ suffix) = true.
Proof.
  intros stem suffix suf Ht Hs. unfold fnmatch. rewrite Ht, chars_append, Hs.
  apply glob_match_star_suffix. apply glob_match_literal.
Qed.

Lemma excluded_by_default : forall manifest rel,
    _match_any_pattern rel default_exclude_patterns = true ->
    _check_include_file rel (inpat manifest) (expat manifest) = false.
Proof.
  intros manifest rel H. unfold _check_include_file, expat, _match_any_pattern in *.
  rewrite existsb_app, H, orb_true_r. reflexivity.
Qed.

(** X3.  Whatever a manifest declares, the file filter of the package walk
    rejects every path under [.git/], [.svn/], [ppy_modules/] and [dist/],
    and every path that ends in [.pyc] or [.pyo], at any depth. *)
Theorem default_excludes_reject : forall manifest rest,
    _check_include_file (".git/" +++ rest) (inpat manifest) (expat manifest) = false
    /\ _check_include_file (".svn/" +++ rest) (inpat manifest) (expat manifest) = false
    /\ _check_include_file ("ppy_modules/" +++ rest) (inpat manifest) (expat manifest) = false
    /\ _check_include_file ("dist/" +++ rest) (inpat manifest) (expat manifest) = false
    /\ _check_include_file (rest +++ ".pyc") (inpat manifest) (expat manifest) = false
    /\ _check_include_file (rest +++ ".pyo") (inpat manifest) (expat manifest) = false.
Proof.
  intros manifest rest.
  assert (Hgit : fnmatch (".git/" +++ rest) ".git/*" = true)
    by (apply (fnmatch_under ".git/" rest (chars ".git/")); reflexivity).
  assert (Hsvn : fnmatch (".svn/" +++ rest) ".svn/*" = true)
    by (apply (fnmatch_under ".svn/" rest (chars ".svn/")); reflexivity).
  assert (Hppy : fnmatch ("ppy_modules/" +++ rest) "ppy_modules/*" = true)
    by (apply (fnmatch_under "ppy_modules/" rest (chars "ppy_modules/")); reflexivity).
  assert (Hdist : fnmatch ("dist/" +++ rest) "dist/*" = true)
    by (apply (fnmatch_under "dist/" rest (chars "dist/")); reflexivity).
  assert (Hpyc : fnmatch (rest +++ ".pyc") "*.pyc" = true)
    by (apply (fnmatch_ending rest ".pyc" (chars ".pyc")); reflexivity).
  assert (Hpyo : fnmatch (rest +++ ".pyo") "*.pyo" = true)
    by (apply (fnmatch_ending rest ".pyo" (chars ".pyo")); reflexivity).
  repeat split; apply excluded_by_default;
    unfold _match_any_pattern, default_exclude_patterns; cbn [existsb];
    rewrite ?Hgit, ?Hsvn, ?Hppy, ?Hdist, ?Hpyc, ?Hpyo, ?orb_true_r; reflexivity.
Qed.

(** X4.  More exclude patterns never let more through, and with include
    patterns declared, one more include pattern never lets less through. *)
Theorem check_include_file_monotone :
  (forall p include_patterns exclude_patterns more,
      _check_include_file p include_patterns (exclude_patterns ++ more) = true ->
      _check_include_file p include_patterns exclude_patterns = true)
  /\ (forall p include_patterns exclude_patterns more,
         include_patterns <> [] ->
         _check_include_file p include_patterns exclude_patterns = true ->
         _check_include_file p (include_patterns ++ more) exclude_patterns = true).
Proof.
  split.
  - intros p inc exc more H. unfold _check_include_file, _match_any_pattern in *.
    rewrite existsb_app in H.
    destruct (existsb (fun x => fnmatch p x) exc); [discriminate |].
    cbn [orb] in H. destruct (existsb (fun x => fnmatch p x) more); [discriminate | exact H].
  - intros p inc exc more Hne H. unfold _check_include_file, _match_any_pattern in *.
    destruct (existsb (fun x => fnmatch p x) exc); [discriminate |].
    destruct inc as [| i inc]; [contradiction Hne; reflexivity |].
    cbn [app]. change (i :: inc ++ more) with ((i :: inc) ++ more).
    rewrite existsb_app, H. reflexivity.
Qed.

Lemma check_include_file_monotone_witness :
  (_check_include_file "src/a.py" ["src/*"] ([".git/*"] ++ ["dist/*"]) = true
   /\ _check_include_file "src/a.py" ["src/*"] [".git/*"] = true)
  /\ (["docs/*"] <> []
      /\ _check_include_file "docs/x.md" ["docs/*"] [] = true
      /\ _check_include_file "docs/x.md" (["docs/*"] ++ ["src/*"]) [] = true).
Proof.
  split.
  - split; [reflexivity |].
    apply (proj1 check_include_file_monotone "src/a.py" ["src/*"] [".git/*"] ["dist/*"]).
    reflexivity.
  - split; [discriminate |]. split; [reflexivity |].
    apply (proj2 check_include_file_monotone "docs/x.md" ["docs/*"] [] ["src/*"]).
    + discriminate.
    + reflexivity.
Defined.


(** ** Looking a package up *)



Lemma truthy_append_r : forall a b, truthy b = true -> truthy (a +++ b) = true.
Proof. intros [| c a] b H; [exact H | reflexivity]. Qed.

Lemma truthy_join_manifest : forall d, truthy (path_join d "package.json") = true.
Proof.
  intros d. unfold path_join.
  change (startswith "package.json" "/") with false. cbv iota.
  destruct (negb (truthy d) || endswith d "/").
  - apply truthy_append_r. reflexivity.
  - apply truthy_append_r. reflexivity.
Qed.

(** X6.  A strict installer looks at [<packages>/<name>/package.json] and
    nowhere else: the module resolution of the runtime plays no part in
    what it finds. *)
Theorem find_package_strict_ignores_resolution : forall rt rt' self package w,
    strict self = true ->
    rt_cwd rt = rt_cwd rt' ->
    session_get_manifest rt = session_get_manifest rt' ->
    Installer_find_package rt self package w = Installer_find_package rt' self package w
    /\ (isfile (rt_cwd rt) (fs w)
          (path_join3 (d_packages (dirs self)) package "package.json") = false ->
        Installer_find_package rt self package w = (Raise (PackageNotFound package), w)).
Proof.
  intros rt rt' self package w Hs Hcwd Hget.
  unfold Installer_find_package, get_manifest. rewrite Hs.
  unfold bind, ret, get_fs, lift_out, raise. rewrite Hcwd, Hget.
  split; [reflexivity |].
  intros Hno. rewrite Hno, andb_false_r. reflexivity.
Qed.

Lemma find_package_strict_ignores_resolution_witness :
  strict (Installer_init Sample.rt None false false true) = true
  /\ isfile Sample.cwd Sample.project (path_join3 "ppy_modules" "bar" "package.json") = false
  /\ Installer_find_package Sample.rt (Installer_init Sample.rt None false false true)
       "bar" Sample.start
     = (Raise (PackageNotFound "bar"), Sample.start).
Proof.
  split; [reflexivity |]. split; [reflexivity |].
  exact (proj2 (find_package_strict_ignores_resolution Sample.rt Sample.rt
                  (Installer_init Sample.rt None false false true) "bar" Sample.start
                  eq_refl eq_refl eq_refl) eq_refl).
Defined.

(** X7.  Without strictness, a package the module resolution cannot
    resolve, and a package resolved to a directory that holds no manifest
    file, are both reported as [PackageNotFound] for the name asked. *)
Theorem find_package_not_found : forall rt self package w,
    strict self = false ->
    (forall request,
        session_resolve rt (fs w) package = Raises (ResolveError request) ->
        Installer_find_package rt self package w = (Raise (PackageNotFound package), w))
    /\ (forall module_directory,
           session_resolve rt (fs w) package = Returns module_directory ->
           isfile (rt_cwd rt) (fs w) (path_join module_directory "package.json") = false ->
           Installer_find_package rt self package w = (Raise (PackageNotFound package), w))
    /\ (forall module_directory,
           session_resolve rt (fs w) package = Returns module_directory ->
           isfile (rt_cwd rt) (fs w) (path_join module_directory "package.json") = true ->
           Installer_find_package rt self package w
           = (res_of (session_get_manifest rt (fs w)
                        (path_join module_directory "package.json")), w)).
Proof.
  intros rt self package w Hs.
  unfold Installer_find_package, get_manifest. rewrite Hs.
  unfold bind, try_except, ret, get_fs, lift_out, raise.
  split; [| split].
  - intros request Hr. rewrite Hr. reflexivity.
  - intros d Hr Hno. rewrite Hr. cbn [res_of]. rewrite Hno, andb_false_r. reflexivity.
  - intros d Hr Hyes. rewrite Hr. cbn [res_of]. rewrite Hyes, truthy_join_manifest.
    cbn [andb]. destruct (session_get_manifest rt (fs w) (path_join d "package.json"));
      reflexivity.
Qed.

Lemma find_package_not_found_witness :
  strict Sample.local_installer = false
  /\ session_resolve Sample.rt Sample.project "bar" = Raises (ResolveError "bar")
  /\ Installer_find_package Sample.rt Sample.local_installer "bar" Sample.start
     = (Raise (PackageNotFound "bar"), Sample.start)
  /\ session_resolve Sample.rt Sample.project "foo" = Returns "/work/ppy_modules/foo"
  /\ isfile Sample.cwd Sample.project (path_join "/work/ppy_modules/foo" "package.json") = true
  /\ Installer_find_package Sample.rt Sample.local_installer "foo" Sample.start
     = (res_of (session_get_manifest Sample.rt Sample.project
                  (path_join "/work/ppy_modules/foo" "package.json")), Sample.start).
Proof.
  pose proof (find_package_not_found Sample.rt Sample.local_installer) as H.
  split; [reflexivity |]. split; [reflexivity |].
  split; [exact (proj1 (H "bar" Sample.start eq_refl) "bar" eq_refl) |].
  split; [reflexivity |]. split; [reflexivity |].
  exact (proj2 (proj2 (H "foo" Sample.start eq_refl)) "/work/ppy_modules/foo"
           eq_refl eq_refl).
Defined.

(** ** Uninstalling *)

(** X8.  [uninstall] of a package that is not installed prints one line
    and returns [False], touching nothing; for a package that is found it
    is [uninstall_directory] on the directory of its manifest. *)
Theorem uninstall_by_name : forall rt n self package_name w,
    (forall p,
        fst (Installer_find_package rt self package_name w) = Raise (PackageNotFound p) ->
        uninstall (Installer_class rt (S (S n))) self package_name w
        = (Ret false,
           mkWorld (fs w)
             (trace w ++ [Print ("Package " +++ dq +++ package_name +++ dq
                                 +++ " not installed")])))
    /\ (forall manifest,
           fst (Installer_find_package rt self package_name w) = Ret manifest ->
           uninstall (Installer_class rt (S (S n))) self package_name w
           = Installer_uninstall_directory rt self (m_directory manifest) w).
Proof.
  intros rt n self package_name w.
  change (uninstall (Installer_class rt (S (S n))))
    with (Installer_uninstall (Installer_class rt (S n))).
  unfold Installer_uninstall.
  change (find_package (Installer_class rt (S n))) with (Installer_find_package rt).
  change (uninstall_directory (Installer_class rt (S n)))
    with (Installer_uninstall_directory rt).
  split.
  - intros p Hp. unfold bind at 1, try_except, bind at 1.
    rewrite find_package_pure, Hp. reflexivity.
  - intros manifest Hm. unfold bind at 1, try_except, bind at 1.
    rewrite find_package_pure, Hm. reflexivity.
Qed.

Lemma uninstall_by_name_witness :
  fst (Installer_find_package Sample.rt Sample.local_installer "bar" Sample.start)
  = Raise (PackageNotFound "bar")
  /\ uninstall (Installer_class Sample.rt 2) Sample.local_installer "bar" Sample.start
     = (Ret false,
        mkWorld Sample.project
          [Print ("Package " +++ dq +++ "bar" +++ dq +++ " not installed")]).
Proof.
  split; [reflexivity |].
  exact (proj1 (uninstall_by_name Sample.rt 0 Sample.local_installer "bar" Sample.start)
           "bar" eq_refl).
Defined.




(** ** Dependencies of a manifest *)

(** X10.  [install_dependencies_for] does nothing for a manifest without
    dependencies of either kind; and when the package dependencies are
    there and their installation returns [False], it returns [False]
    there and then: the Python dependencies are not attempted. *)
Theorem install_dependencies_for_stops_at_failure : forall cls self manifest w,
    (m_dependencies manifest = [] ->
     m_python_dependencies manifest = [] ->
     Installer_install_dependencies_for cls self manifest w = (Ret true, w))
    /\ (m_dependencies manifest <> [] ->
        forall w',
          install_dependencies cls self (m_dependencies manifest)
            (mkWorld (fs w)
               (trace w ++ [Print ("Installing dependencies for " +++ dq
                                   +++ identifier manifest +++ dq +++ "...")]))
          = (Ret false, w') ->
          Installer_install_dependencies_for cls self manifest w = (Ret false, w')).
Proof.
  intros cls self manifest w. unfold Installer_install_dependencies_for. split.
  - intros Hd Hp. rewrite Hd, Hp. reflexivity.
  - intros Hd w' Hrun. destruct (m_dependencies manifest) as [| d ds] eqn:E;
      [contradiction Hd; reflexivity |].
    unfold bind at 1. unfold bind at 1, print at 1, emit at 1. rewrite Hrun. reflexivity.
Qed.

Lemma install_dependencies_for_stops_at_failure_witness :
  m_dependencies More.app_manifest <> []
  /\ Installer_install_dependencies_for More.stubbed_deps_cls Sample.local_installer
       More.app_manifest Sample.start
     = (Ret false,
        mkWorld Sample.project
          [Print ("Installing dependencies for " +++ dq +++ "app@1.0.0" +++ dq +++ "...");
           Print "  Installing dependencies: baz@*";
           External "install_from_registry" ["baz"; "*"]]).
Proof.
  assert (H : m_dependencies More.app_manifest <> []) by discriminate.
  split; [exact H |].
  exact (proj2 (install_dependencies_for_stops_at_failure More.stubbed_deps_cls
                  Sample.local_installer More.app_manifest Sample.start) H _ eq_refl).
Defined.

(** X11.  [install_python_dependencies] does nothing for an empty mapping.
    Otherwise it calls pip once, with [--target], the Python modules
    directory of the layout and one specifier per entry, the name directly
    followed by the version specifier; it returns [True] on exit code 0
    and prints the code and returns [False] on any other. *)
Theorem install_python_dependencies_one_pip_call : forall rt self deps w,
    (deps = [] -> Installer_install_python_dependencies rt self deps w = (Ret true, w))
    /\ (deps <> [] ->
        forall code fs',
          pip_install rt
            ("--target" :: d_python_modules (dirs self)
             :: map (fun nv => fst nv +++ snd nv) deps) (fs w)
          = (Returns code, fs') ->
          Installer_install_python_dependencies rt self deps w
          = (Ret (Z.eqb code 0),
             mkWorld fs'
               (trace w
                ++ [Print ("  Installing Python dependencies via Pip: "
                           +++ join_with " " (map (fun nv => fst nv +++ snd nv) deps));
                    External "pip install"
                      ("--target" :: d_python_modules (dirs self)
                       :: map (fun nv => fst nv +++ snd nv) deps)]
                ++ (if Z.eqb code 0 then []
                    else [Print ("Error: `pip install` failed with exit-code "
                                 +++ Z_str code)])))).
Proof.
  intros rt self deps w. unfold Installer_install_python_dependencies. split.
  - intros E. subst deps. reflexivity.
  - intros Hne code fs' Hpip. destruct deps as [| d ds]; [contradiction Hne; reflexivity |].
    cbn [map]. cbn [map] in Hpip.
    unfold bind at 1, print at 1, emit at 1.
    unfold bind at 1, call_ext. cbn [fs trace app]. cbn [app] in Hpip. rewrite Hpip.
    cbn [res_of]. destruct (Z.eqb code 0); cbn [negb].
    + unfold ret. cbn [app]. rewrite <- ?app_assoc. reflexivity.
    + unfold bind, print, emit, ret. cbn [fs trace app]. rewrite <- ?app_assoc. reflexivity.
Qed.

Lemma install_python_dependencies_one_pip_call_witness :
  [("requests", ">=2.0"); ("six", "==1.0")] <> []
  /\ Installer_install_python_dependencies More.pip_fails Sample.local_installer
       [("requests", ">=2.0"); ("six", "==1.0")] Sample.start
     = (Ret false,
        mkWorld Sample.project
          [Print "  Installing Python dependencies via Pip: requests>=2.0 six==1.0";
           External "pip install"
             ["--target"; "ppy_modules/.pymodules"; "requests>=2.0"; "six==1.0"];
           Print "Error: `pip install` failed with exit-code 2"]).
Proof.
  assert (H : [("requests", ">=2.0"); ("six", "==1.0")] <> []) by discriminate.
  split; [exact H |].
  exact (proj2 (install_python_dependencies_one_pip_call More.pip_fails
                  Sample.local_installer [("requests", ">=2.0"); ("six", "==1.0")]
                  Sample.start) H 2%Z Sample.project eq_refl).
Defined.

(** ** Installing from an archive *)

Lemma shutil_rmtree_outcome : forall cwd path w,
    (exists w', shutil_rmtree cwd path w = (Ret tt, w')
                /\ trace w' = trace w ++ [Rmtree path])
    \/ (exists e, shutil_rmtree cwd path w = (Raise e, w)).
Proof.
  intros cwd path w. unfold shutil_rmtree, bind, get_fs, put_fs, emit, raise.
  destruct (stat cwd (fs w) path) as [[data | es] |].
  - right. eexists. reflexivity.
  - destruct (del_node (components cwd path) (fs w)) as [new |].
    + left. eexists. split; reflexivity.
    + right. eexists. reflexivity.
  - right. eexists. reflexivity.
Qed.

(** X12.  [install_from_archive] always tries to remove the temporary
    directory it made, whatever unpacking and installing came to: when the
    removal succeeds it is the last thing done and the outcome of the
    installation (a result or an exception) is passed on; when the removal
    raises, its exception is the outcome.  An archive that cannot be
    unpacked is not installed from. *)
Theorem install_from_archive_cleans_up :
  forall rt cls self archive expect w directory fs1,
    tempfile_mkdtemp rt ("_" +++ basename archive +++ "_unpacked") (fs w)
    = (Returns directory, fs1) ->
    forall r w2,
      unpack_and_install rt cls self archive directory expect
        (mkWorld fs1
           (trace w
            ++ [External "tempfile.mkdtemp" ["_" +++ basename archive +++ "_unpacked"];
                Print ("Unpacking " +++ dq +++ archive +++ dq +++ "...")]))
      = (r, w2) ->
      r <> OutOfFuel ->
      ((exists w3,
           shutil_rmtree (rt_cwd rt) directory w2 = (Ret tt, w3)
           /\ trace w3 = trace w2 ++ [Rmtree directory]
           /\ Installer_install_from_archive rt cls self archive expect w = (r, w3))
       \/ (exists e,
              shutil_rmtree (rt_cwd rt) directory w2 = (Raise e, w2)
              /\ Installer_install_from_archive rt cls self archive expect w
                 = (Raise e, w2)))
      /\ (forall e fs2,
             tarfile_extractall rt archive directory fs1 = (Raises e, fs2) ->
             r = Raise e
             /\ trace w2
                = trace w
                  ++ [External "tempfile.mkdtemp" ["_" +++ basename archive +++ "_unpacked"];
                      Print ("Unpacking " +++ dq +++ archive +++ dq +++ "...");
                      External "tarfile.extractall" [archive; directory]]).
Proof.
  intros rt cls self archive expect w directory fs1 Htmp r w2 Hbody Hr.
  split.
  - assert (Hrun : Installer_install_from_archive rt cls self archive expect w
                   = try_finally (fun _ => (r, w2))
                       (shutil_rmtree (rt_cwd rt) directory) w).
    { unfold Installer_install_from_archive.
      unfold bind at 1, call_ext at 1. rewrite Htmp. cbn [res_of].
      unfold bind at 1, print at 1, emit at 1. cbn [fs trace].
      unfold try_finally.
      change (bind (call_ext "tarfile.extractall" [archive; directory]
                      (tarfile_extractall rt archive directory))
                (fun _ => install_from_directory cls self directory expect))
        with (unpack_and_install rt cls self archive directory expect).
      rewrite <- app_assoc. cbn [app]. rewrite Hbody. reflexivity. }
    rewrite Hrun. unfold try_finally.
    destruct (shutil_rmtree_outcome (rt_cwd rt) directory w2)
      as [[w3 [Hrm Ht]] | [e Hrm]].
    + left. exists w3. split; [exact Hrm |]. split; [exact Ht |]. rewrite Hrm.
      destruct r; [reflexivity | reflexivity | contradiction Hr; reflexivity].
    + right. exists e. split; [exact Hrm |]. rewrite Hrm.
      destruct r; [reflexivity | reflexivity | contradiction Hr; reflexivity].
  - intros e fs2 Htar. unfold unpack_and_install in Hbody.
    unfold bind at 1, call_ext at 1 in Hbody. cbn [fs trace] in Hbody.
    rewrite Htar in Hbody. cbn [res_of] in Hbody. inversion Hbody; subst.
    split; [reflexivity |]. cbn [trace]. rewrite <- app_assoc. reflexivity.
Qed.

Lemma install_from_archive_cleans_up_witness :
  tempfile_mkdtemp Sample.rt ("_" +++ basename "bundle.tar.gz" +++ "_unpacked") Sample.project
  = (Returns MoreRuns.bundle_tmp, fs MoreRuns.bundle_unpacking)
  /\ unpack_and_install Sample.rt Sample.Installer_cls Sample.local_installer
       "bundle.tar.gz" MoreRuns.bundle_tmp None MoreRuns.bundle_unpacking
     = (Ret true, MoreRuns.bundle_installed)
  /\ exists w3,
      shutil_rmtree Sample.cwd MoreRuns.bundle_tmp MoreRuns.bundle_installed = (Ret tt, w3)
      /\ trace w3 = trace MoreRuns.bundle_installed ++ [Rmtree MoreRuns.bundle_tmp]
      /\ Installer_install_from_archive Sample.rt Sample.Installer_cls
           Sample.local_installer "bundle.tar.gz" None Sample.start = (Ret true, w3).
Proof.
  assert (Htmp : tempfile_mkdtemp Sample.rt
                   ("_" +++ basename "bundle.tar.gz" +++ "_unpacked") Sample.project
                 = (Returns MoreRuns.bundle_tmp, fs MoreRuns.bundle_unpacking))
    by (vm_compute; reflexivity).
  assert (Hbody : unpack_and_install Sample.rt Sample.Installer_cls Sample.local_installer
                    "bundle.tar.gz" MoreRuns.bundle_tmp None MoreRuns.bundle_unpacking
                  = (Ret true, MoreRuns.bundle_installed))
    by (vm_compute; reflexivity).
  split; [exact Htmp |]. split; [exact Hbody |].
  destruct (proj1 (install_from_archive_cleans_up Sample.rt Sample.Installer_cls
                     Sample.local_installer "bundle.tar.gz" None Sample.start
                     MoreRuns.bundle_tmp (fs MoreRuns.bundle_unpacking) Htmp
                     (Ret true) MoreRuns.bundle_installed Hbody ltac:(discriminate)))
    as [[w3 H] | [e [Hrm _]]].
  - exists w3. exact H.
  - vm_compute in Hrm. discriminate.
Defined.

(** ** Installing from a directory: the ways out before any file is placed *)

(** X13.  [install_from_directory] returns [False] after one printed line,
    with the filesystem untouched and no other method called, when the
    directory has no manifest, when its manifest is invalid, and when the
    manifest is not the package and version expected. *)
Theorem install_from_directory_rejects : forall rt fuel cls self directory expect w,
    (forall path,
        session_get_manifest rt (fs w) (path_join directory "package.json")
        = Raises (FileNotFoundError path) ->
        Installer_install_from_directory rt fuel cls self directory expect w
        = (Ret false,
           mkWorld (fs w)
             (trace w ++ [Print ("Error: directory " +++ dq +++ directory +++ dq
                                 +++ " contains no package manifest")])))
    /\ (forall reason,
           session_get_manifest rt (fs w) (path_join directory "package.json")
           = Raises (InvalidPackageManifest reason) ->
           Installer_install_from_directory rt fuel cls self directory expect w
           = (Ret false,
              mkWorld (fs w)
                (trace w ++ [Print ("Error: directory " +++ dq +++ directory +++ dq
                                    +++ ": " +++ reason)])))
    /\ (forall manifest name version,
           session_get_manifest rt (fs w) (path_join directory "package.json")
           = Returns manifest ->
           expect = Some (name, version) ->
           m_name manifest <> name \/ m_version manifest <> version ->
           Installer_install_from_directory rt fuel cls self directory expect w
           = (Ret false,
              mkWorld (fs w)
                (trace w ++ [Print ("Error: Expected to install " +++ dq
                                    +++ (name +++ "@" +++ version) +++ dq
                                    +++ " but got " +++ dq
                                    +++ identifier manifest +++ dq +++ " in " +++ dq
                                    +++ directory +++ dq)]))).
Proof.
  intros rt fuel cls self directory expect w.
  split; [| split].
  - intros path H. unfold Installer_install_from_directory.
    unfold bind at 1, try_except, bind at 1, get_manifest, bind at 1, get_fs at 1,
      lift_out at 1.
    rewrite H. reflexivity.
  - intros reason H. unfold Installer_install_from_directory.
    unfold bind at 1, try_except, bind at 1, get_manifest, bind at 1, get_fs at 1,
      lift_out at 1.
    rewrite H. reflexivity.
  - intros manifest name version H He Hne. subst expect.
    unfold Installer_install_from_directory.
    unfold bind at 1, try_except, bind at 1, get_manifest, bind at 1, get_fs at 1,
      lift_out at 1.
    rewrite H. cbn [res_of]. unfold ret at 1. cbv iota beta.
    assert (Hm : expect_mismatch manifest (Some (name, version)) = true).
    { unfold expect_mismatch. apply negb_true_iff. apply andb_false_iff.
      destruct Hne as [Hn | Hv]; [left | right]; apply String.eqb_neq; assumption. }
    rewrite Hm. cbv iota.
    unfold bind at 1, print at 1, emit at 1, ret at 1. reflexivity.
Qed.

Lemma install_from_directory_rejects_witness :
  (session_get_manifest Sample.rt Sample.project (path_join "nowhere" "package.json")
   = Raises (FileNotFoundError "nowhere/package.json")
   /\ Installer_install_from_directory Sample.rt 3 Sample.Installer_cls
        Sample.local_installer "nowhere" None Sample.start
      = (Ret false,
         mkWorld Sample.project
           [Print ("Error: directory " +++ dq +++ "nowhere" +++ dq
                   +++ " contains no package manifest")]))
  /\ (session_get_manifest Sample.rt Sample.project (path_join "foo" "package.json")
      = Returns (mkManifest "foo" "1.0.0" [] [] [] [] [] None "foo")
      /\ Installer_install_from_directory Sample.rt 3 Sample.Installer_cls
           Sample.local_installer "foo" (Some ("foo", "2.0.0")) Sample.start
         = (Ret false,
            mkWorld Sample.project
              [Print ("Error: Expected to install " +++ dq +++ "foo@2.0.0" +++ dq
                      +++ " but got " +++ dq +++ "foo@1.0.0" +++ dq +++ " in " +++ dq
                      +++ "foo" +++ dq)])).
Proof.
  split.
  - split; [reflexivity |].
    exact (proj1 (install_from_directory_rejects Sample.rt 3 Sample.Installer_cls
                    Sample.local_installer "nowhere" None Sample.start)
             "nowhere/package.json" eq_refl).
  - split; [reflexivity |].
    assert (Hv : m_version (mkManifest "foo" "1.0.0" [] [] [] [] [] None "foo") <> "2.0.0")
      by discriminate.
    exact (proj2 (proj2 (install_from_directory_rejects Sample.rt 3 Sample.Installer_cls
                           Sample.local_installer "foo" (Some ("foo", "2.0.0"))
                           Sample.start))
             (mkManifest "foo" "1.0.0" [] [] [] [] [] None "foo") "foo" "2.0.0"
             eq_refl eq_refl (or_intror Hv)).
Defined.

(** X14.  When the dependencies of the manifest cannot be installed,
    [install_from_directory] returns [False] with the world as the
    dependency installation left it: the target directory is not made and
    no file is copied. *)
Theorem install_from_directory_needs_dependencies :
  forall rt fuel cls self directory expect w manifest wu wd,
    session_get_manifest rt (fs w) (path_join directory "package.json") = Returns manifest ->
    expect_mismatch manifest expect = false ->
    target_cleared rt cls self (path_join (d_packages (dirs self)) (m_name manifest))
      (announced manifest w) wu ->
    install_dependencies_for cls self manifest wu = (Ret false, wd) ->
    Installer_install_from_directory rt fuel cls self directory expect w = (Ret false, wd).
Proof.
  intros rt fuel cls self directory expect w manifest wu wd Hparse Hexpect Hclear Hdeps.
  unfold Installer_install_from_directory.
  unfold bind at 1, try_except, bind at 1, get_manifest, bind at 1, get_fs at 1,
    lift_out at 1.
  rewrite Hparse. cbn [res_of]. unfold ret at 1. cbv iota beta.
  rewrite Hexpect.
  unfold bind at 1, print at 1, emit at 1.
  unfold bind at 1, get_fs at 1. cbn [fs trace].
  unfold announced in Hclear.
  destruct Hclear as [[Hno Hwu] | [Hyes [Hup Hun]]].
  - cbn [fs] in Hno. rewrite Hno. subst wu.
    unfold bind at 1, ret at 1. cbv iota beta.
    unfold bind at 1. rewrite Hdeps. reflexivity.
  - cbn [fs] in Hyes. rewrite Hyes, Hup. cbn [negb].
    unfold bind at 1. unfold bind at 1. rewrite Hun. cbn [negb]. unfold ret at 1.
    cbv iota beta. unfold bind at 1. rewrite Hdeps. reflexivity.
Qed.

Lemma install_from_directory_needs_dependencies_witness :
  session_get_manifest Sample.rt Sample.project (path_join "plain" "package.json")
  = Returns Sample.plain_manifest
  /\ exists_ Sample.cwd Sample.project "ppy_modules/plain" = false
  /\ Installer_install_from_directory Sample.rt 3 More.failing_deps_cls
       Sample.local_installer "plain" None Sample.start
     = (Ret false,
        mkWorld Sample.project
          [Print ("Installing " +++ dq +++ "plain@0.3.0" +++ dq +++ "...");
           Print "dependencies failed"]).
Proof.
  split; [reflexivity |]. split; [reflexivity |].
  exact (install_from_directory_needs_dependencies Sample.rt 3 More.failing_deps_cls
           Sample.local_installer "plain" None Sample.start Sample.plain_manifest
           (announced Sample.plain_manifest Sample.start) _
           eq_refl eq_refl (or_introl (conj eq_refl eq_refl)) eq_refl).
Defined.

(** ** Installing from the registry: a lookup that fails *)

(** X15.  When the local lookup fails in another way than not finding the
    package (an installed manifest that is invalid, say),
    [install_from_registry] passes the exception on: nothing is printed
    and the registry is not asked. *)
Theorem install_from_registry_passes_lookup_errors :
  forall rt n self package_name selector w e,
    fst (Installer_find_package rt self package_name w) = Raise e ->
    (forall p, e <> PackageNotFound p) ->
    install_from_registry (Installer_class rt (S (S n))) self package_name selector w
    = (Raise e, w).
Proof.
  intros rt n self package_name selector w e Hf Hne.
  rewrite class_install_from_registry. unfold Installer_install_from_registry.
  rewrite class_find_package.
  unfold bind at 1, try_except, bind at 1.
  rewrite find_package_pure, Hf.
  destruct e; try reflexivity.
  contradiction (Hne package). reflexivity.
Qed.

Lemma install_from_registry_passes_lookup_errors_witness :
  fst (Installer_find_package Sample.rt Sample.local_installer "bad" Sample.start)
  = Raise (InvalidPackageManifest "invalid manifest: broken")
  /\ install_from_registry (Installer_class Sample.rt 2) Sample.local_installer "bad"
       Sample.any_version Sample.start
     = (Raise (InvalidPackageManifest "invalid manifest: broken"), Sample.start).
Proof.
  split; [reflexivity |].
  exact (install_from_registry_passes_lookup_errors Sample.rt 0 Sample.local_installer
           "bad" Sample.any_version Sample.start _ eq_refl
           ltac:(intros p; discriminate)).
Defined.


(** ** The ledger, written and read back *)









(** ** [_makedirs] *)

Lemma lookup_mkdirs_node : forall p n n',
    mkdirs_node p n = Some n' -> exists es, lookup_node p n' = Some (Dir es).
Proof.
  induction p as [| c p IH]; intros n n' H.
  - destruct n as [data | es]; [discriminate |]. cbn [mkdirs_node] in H.
    inversion H; subst. exists es. reflexivity.
  - destruct n as [data | es]; [discriminate |]. cbn [mkdirs_node] in H.
    destruct (mkdirs_node p (match entry c es with Some n0 => n0 | None => Dir [] end))
      as [n1 |] eqn:Hm; [| discriminate].
    inversion H; subst. cbn [lookup_node]. rewrite entry_set_entry.
    apply (IH _ _ Hm).
Qed.

(** X17.  When [_makedirs] returns, the path is a directory; and when it
    already was one, nothing has been done. *)
Theorem makedirs_makes_directory : forall cwd path w w',
    _makedirs cwd path w = (Ret tt, w') ->
    isdir cwd (fs w') path = true
    /\ (isdir cwd (fs w) path = true -> w' = w).
Proof.
  intros cwd path w w' H. unfold _makedirs, bind at 1, get_fs at 1 in H.
  destruct (isdir cwd (fs w) path) eqn:Hd; cbn [negb] in H.
  - inversion H; subst. split; [exact Hd | reflexivity].
  - split; [| discriminate].
    unfold os_makedirs, bind, get_fs, put_fs, emit, raise in H.
    destruct (truthy path) eqn:Ht; cbn [negb] in H; [| discriminate].
    destruct (exists_ cwd (fs w) path); [discriminate |].
    destruct (mkdirs_node (components cwd path) (fs w)) as [new |] eqn:Hm; [| discriminate].
    inversion H; subst. cbn [fs].
    destruct (lookup_mkdirs_node _ _ _ Hm) as [es Hl].
    unfold isdir, stat. rewrite Ht, Hl. reflexivity.
Qed.

Lemma makedirs_makes_directory_witness :
  _makedirs Sample.cwd "ppy_modules/new/sub" Sample.start
  = (Ret tt, snd (_makedirs Sample.cwd "ppy_modules/new/sub" Sample.start))
  /\ isdir Sample.cwd (fs (snd (_makedirs Sample.cwd "ppy_modules/new/sub" Sample.start)))
       "ppy_modules/new/sub" = true.
Proof.
  assert (H : _makedirs Sample.cwd "ppy_modules/new/sub" Sample.start
              = (Ret tt, snd (_makedirs Sample.cwd "ppy_modules/new/sub" Sample.start)))
    by (vm_compute; reflexivity).
  split; [exact H |].
  exact (proj1 (makedirs_makes_directory Sample.cwd "ppy_modules/new/sub" Sample.start _ H)).
Defined.

(** ** Uninstalling a directory without a ledger *)








(** ** What the copy loop copies *)

Section CopyLoop.

Variable rt : Runtime.
Variable manifest : PackageManifest.
Variable target_dir : string.

Let copies_selected (acc acc' : list string) : Prop :=
  exists new, acc' = acc ++ new
              /\ Forall (copy_of_selected (rt_cwd rt) manifest target_dir) new.

Lemma copy_one_destination : forall src rel acc w acc' w',
    copy_one rt target_dir src rel acc w = (Ret acc', w') ->
    acc' = acc ++ [path_join target_dir rel].
Proof.
  intros src rel acc w acc' w' H. unfold copy_one in H.
  apply bind_Ret_inv in H. destruct H as [u1 [w1 [_ H]]].
  apply bind_Ret_inv in H. destruct H as [u2 [w2 [_ H]]].
  apply bind_Ret_inv in H. destruct H as [u3 [w3 [_ H]]].
  inversion H. reflexivity.
Qed.

Lemma walk_files_copies_selected : forall root files acc w acc' w',
    walk_files (rt_cwd rt) manifest (copy_one rt target_dir) root files acc w
    = (Ret acc', w') ->
    copies_selected acc acc'.
Proof.
  unfold copies_selected.
  intros root files. induction files as [| filename files IH]; intros acc w acc' w' H.
  - cbn [walk_files] in H. inversion H; subst. exists []. rewrite app_nil_r.
    split; [reflexivity | constructor].
  - cbn [walk_files] in H. apply bind_Ret_inv in H. destruct H as [acc1 [w1 [Hone Hrest]]].
    destruct (IH _ _ _ _ Hrest) as [new [Ha Hn]].
    destruct (String.eqb (relpath (rt_cwd rt) (path_join root filename)
                            (m_directory manifest)) "package.json"
              || _check_include_file
                   (relpath (rt_cwd rt) (path_join root filename) (m_directory manifest))
                   (inpat manifest) (expat manifest)) eqn:Hsel.
    + apply copy_one_destination in Hone. subst acc1.
      eexists (_ :: new). split; [rewrite Ha, <- app_assoc; reflexivity |].
      constructor; [| exact Hn].
      exists (path_join root filename),
        (relpath (rt_cwd rt) (path_join root filename) (m_directory manifest)).
      split; [| reflexivity]. split; [| reflexivity]. cbn [snd].
      apply orb_true_iff in Hsel. destruct Hsel as [He | Hc].
      * left. apply String.eqb_eq. exact He.
      * right. exact Hc.
    + inversion Hone; subst acc1. exists new. split; [exact Ha | exact Hn].
Qed.

Lemma walk_dirs_copies_selected : forall fuel pending acc w acc' w',
    walk_dirs (rt_cwd rt) manifest (copy_one rt target_dir) fuel pending acc w
    = (Ret acc', w') ->
    copies_selected acc acc'.
Proof.
  unfold copies_selected.
  induction fuel as [| fuel IH]; intros pending acc w acc' w' H; [discriminate |].
  cbn [walk_dirs] in H. unfold bind at 1, get_fs at 1 in H.
  destruct (os_walk_next (rt_cwd rt) (fs w) pending)
    as [[[[root subdirs] files] pending'] |].
  - apply bind_Ret_inv in H. destruct H as [acc1 [w1 [Hfiles Hrest]]].
    pose proof (walk_files_copies_selected _ _ _ _ _ _ Hfiles) as Hf.
    unfold copies_selected in Hf. destruct Hf as [new1 [Ha1 Hn1]].
    destruct (IH _ _ _ _ _ Hrest) as [new2 [Ha2 Hn2]].
    exists (new1 ++ new2). split; [rewrite Ha2, Ha1, app_assoc; reflexivity |].
    apply Forall_app. split; assumption.
  - inversion H; subst. exists []. rewrite app_nil_r. split; [reflexivity | constructor].
Qed.

(** X19.  Every path the copy loop records is the target directory joined
    with the relative path of a file that [walk_package_files] selects:
    the manifest file, or a file the filter accepts. *)
Theorem copy_package_files_copies_selected : forall fuel w copied w',
    copy_package_files rt fuel manifest target_dir w = (Ret copied, w') ->
    Forall (copy_of_selected (rt_cwd rt) manifest target_dir) copied.
Proof.
  intros fuel w copied w' H. unfold copy_package_files in H.
  apply bind_Ret_inv in H. destruct H as [u1 [w1 [_ H]]].
  apply bind_Ret_inv in H. destruct H as [u2 [w2 [_ H]]].
  unfold walk_package_files in H.
  pose proof (walk_dirs_copies_selected _ _ _ _ _ _ H) as Hd.
  unfold copies_selected in Hd. destruct Hd as [new [Ha Hn]].
  cbn [app] in Ha. subst copied. exact Hn.
Qed.

End CopyLoop.

Lemma copy_package_files_copies_selected_witness :
  copy_package_files Sample.rt 3 Sample.hooked_manifest "ppy_modules/hooked" Sample.start
  = (Ret ["ppy_modules/hooked/package.json"; "ppy_modules/hooked/main.py";
          "ppy_modules/hooked/setup.py"],
     snd (copy_package_files Sample.rt 3 Sample.hooked_manifest "ppy_modules/hooked"
            Sample.start))
  /\ Forall (copy_of_selected Sample.cwd Sample.hooked_manifest "ppy_modules/hooked")
       ["ppy_modules/hooked/package.json"; "ppy_modules/hooked/main.py";
        "ppy_modules/hooked/setup.py"].
Proof.
  assert (H : copy_package_files Sample.rt 3 Sample.hooked_manifest "ppy_modules/hooked"
                Sample.start
              = (Ret ["ppy_modules/hooked/package.json"; "ppy_modules/hooked/main.py";
                      "ppy_modules/hooked/setup.py"],
                 snd (copy_package_files Sample.rt 3 Sample.hooked_manifest
                        "ppy_modules/hooked" Sample.start)))
    by (vm_compute; reflexivity).
  split; [exact H |].
  exact (copy_package_files_copies_selected Sample.rt Sample.hooked_manifest
           "ppy_modules/hooked" 3 Sample.start _ _ H).
Defined.

(** ** The [uninstall] command *)

(** X20.  The [uninstall] command uninstalls by name with an installer
    that is neither upgrading nor strict, and drops the answer: whether
    the uninstall answered [True] or [False], the command returns nothing
    and the process exits with status 0. *)
Theorem uninstall_command_drops_result : forall rt cls package global_flag w b w',
    uninstall cls (Installer_init rt None false global_flag false) package w = (Ret b, w') ->
    Main.uninstall rt cls package global_flag w = (Ret tt, w')
    /\ click_main (Main.uninstall rt cls package global_flag) w = (Ret 0%Z, w').
Proof.
  intros rt cls package global_flag w b w' H.
  assert (Hrun : Main.uninstall rt cls package global_flag w = (Ret tt, w')).
  { unfold Main.uninstall. unfold bind. rewrite H. reflexivity. }
  split; [exact Hrun |]. unfold click_main. rewrite Hrun. reflexivity.
Qed.

Lemma uninstall_command_drops_result_witness :
  uninstall Sample.Installer_cls (Installer_init Sample.rt None false false false) "bar"
    Sample.start
  = (Ret false,
     mkWorld Sample.project [Print ("Package " +++ dq +++ "bar" +++ dq +++ " not installed")])
  /\ click_main (Main.uninstall Sample.rt Sample.Installer_cls "bar" false) Sample.start
     = (Ret 0%Z,
        mkWorld Sample.project
          [Print ("Package " +++ dq +++ "bar" +++ dq +++ " not installed")]).
Proof.
  assert (H : uninstall Sample.Installer_cls (Installer_init Sample.rt None false false false)
                "bar" Sample.start
              = (Ret false,
                 mkWorld Sample.project
                   [Print ("Package " +++ dq +++ "bar" +++ dq +++ " not installed")]))
    by (vm_compute; reflexivity).
  split; [exact H |].
  exact (proj2 (uninstall_command_drops_result Sample.rt Sample.Installer_cls "bar" false
                  Sample.start false
                  (mkWorld Sample.project
                     [Print ("Package " +++ dq +++ "bar" +++ dq +++ " not installed")]) H)).
Defined.

(** ** The [dist] command *)

Lemma archive_members_app : forall d1 d2,
    archive_members (d1 ++ d2) = archive_members d1 ++ archive_members d2.
Proof.
  induction d1 as [| e d1 IH]; intros d2; [reflexivity |].
  destruct e; cbn [app archive_members]; try apply IH.
  destruct (String.eqb what "archive.add"); [| apply IH].
  destruct args as [| a [| b [| c args]]]; try apply IH.
  cbn [app]. rewrite IH. reflexivity.
Qed.

Lemma adds_ret : forall A (a : A) P, adds (ret a) P.
Proof.
  intros A a P w a' w' H. inversion H; subst. split; [reflexivity |].
  exists []. rewrite app_nil_r. split; [reflexivity | constructor].
Qed.

Lemma adds_bind : forall A B (c : M A) (k : A -> M B) P,
    adds c P -> (forall a, adds (k a) P) -> adds (bind c k) P.
Proof.
  intros A B c k P Hc Hk w b w' H.
  apply bind_Ret_inv in H. destruct H as [a [w1 [H1 H2]]].
  destruct (Hc _ _ _ H1) as [Hf1 [d1 [Ht1 Hp1]]].
  destruct (Hk a _ _ _ H2) as [Hf2 [d2 [Ht2 Hp2]]].
  split; [congruence |]. exists (d1 ++ d2).
  split; [rewrite Ht2, Ht1, app_assoc; reflexivity |].
  rewrite archive_members_app. apply Forall_app. split; assumption.
Qed.

Lemma adds_add_member : forall cwd filename rel u (P : string * string -> Prop),
    P (filename, rel) -> adds (Main.add_member cwd filename rel u) P.
Proof.
  intros cwd filename rel u P HP w a w' H.
  unfold Main.add_member, archive_add, print, bind, emit, get_fs in H. cbn [fs trace] in H.
  destruct (stat cwd (fs w) filename); [| discriminate].
  inversion H; subst. cbn [fs trace]. split; [reflexivity |].
  exists [Print ("  Adding " +++ dq +++ rel +++ dq +++ "...");
          External "archive.add" [filename; rel]].
  split; [rewrite <- app_assoc; reflexivity |].
  cbn. constructor; [exact HP | constructor].
Qed.

Section DistWalk.

Variable cwd : string.
Variable manifest : PackageManifest.

Lemma walk_files_adds : forall root files u,
    adds (walk_files cwd manifest (Main.add_member cwd) root files u)
         (selected cwd manifest).
Proof.
  intros root files. induction files as [| filename files IH]; intros u.
  - cbn [walk_files]. apply adds_ret.
  - cbn [walk_files]. apply adds_bind; [| intros a; apply IH].
    destruct (String.eqb (relpath cwd (path_join root filename) (m_directory manifest))
                "package.json"
              || _check_include_file
                   (relpath cwd (path_join root filename) (m_directory manifest))
                   (inpat manifest) (expat manifest)) eqn:Hsel.
    + apply adds_add_member. split; [| reflexivity]. cbn [snd].
      apply orb_true_iff in Hsel. destruct Hsel as [He | Hc].
      * left. apply String.eqb_eq. exact He.
      * right. exact Hc.
    + apply adds_ret.
Qed.

Lemma walk_dirs_adds : forall fuel pending u,
    adds (walk_dirs cwd manifest (Main.add_member cwd) fuel pending u)
         (selected cwd manifest).
Proof.
  induction fuel as [| fuel IH]; intros pending u.
  - intros w a w' H. discriminate.
  - cbn [walk_dirs]. intros w a w' H. unfold bind at 1, get_fs at 1 in H.
    destruct (os_walk_next cwd (fs w) pending) as [[[[root subdirs] files] pending'] |].
    + revert w a w' H. apply adds_bind; [apply walk_files_adds | intros a; apply IH].
    + revert w a w' H. apply adds_ret.
Qed.

End DistWalk.

Lemma os_mkdir_returns : forall cwd path w u w',
    os_mkdir cwd path w = (Ret u, w') -> trace w' = trace w ++ [Makedirs path].
Proof.
  intros cwd path w u w' H. unfold os_mkdir in H.
  unfold bind at 1, get_fs at 1 in H.
  destruct (negb (truthy path)); [discriminate |].
  destruct (exists_ cwd (fs w) path); [discriminate |].
  destruct (put_node (components cwd path) (Dir []) (fs w)); [| discriminate].
  unfold bind, put_fs, emit in H. inversion H. reflexivity.
Qed.

Lemma tarfile_open_w_returns : forall cwd filename w u w',
    tarfile_open_w cwd filename w = (Ret u, w') ->
    trace w' = trace w ++ [External "tarfile.open" [filename; "w:gz"]]
    /\ isfile cwd (fs w') filename = true.
Proof.
  intros cwd filename w u w' H. unfold tarfile_open_w in H.
  unfold bind at 1, get_fs at 1 in H.
  destruct (truthy filename) eqn:Ht; [| discriminate]. cbn [negb] in H.
  destruct (isdir cwd (fs w) filename); [discriminate |].
  destruct (put_node (components cwd filename) (File EmptyString) (fs w)) as [new |] eqn:Hp;
    [| discriminate].
  unfold bind, put_fs, emit in H. inversion H. cbn [fs trace]. split; [reflexivity |].
  unfold isfile, stat. rewrite Ht, (lookup_put_node _ _ _ _ Hp). reflexivity.
Qed.

(** What a run of [dist] that returns has done. *)
Lemma dist_returns : forall rt crt fuel w w',
    Main.dist rt crt fuel w = (Ret tt, w') ->
    exists manifest before added,
      PackageManifest_parse crt (fs w) "." = Returns manifest
      /\ trace w' = trace w ++ before ++ added ++ [Print "Done!"]
      /\ archive_members before = []
      /\ Forall (selected (rt_cwd rt) manifest) (archive_members added)
      /\ isfile (rt_cwd rt) (fs w')
           (path_join "dist"
              (make_package_archive_name crt (m_name manifest) (m_version manifest)))
         = true.
Proof.
  intros rt crt fuel w w' H. unfold Main.dist in H.
  unfold bind at 1, get_fs at 1 in H.
  apply bind_Ret_inv in H. destruct H as [manifest [w0 [Hparse H]]].
  unfold lift_out in Hparse.
  destruct (PackageManifest_parse crt (fs w) ".") as [m | e] eqn:Hm; [| discriminate].
  cbn [res_of] in Hparse. inversion Hparse; subst m w0. clear Hparse.
  apply bind_Ret_inv in H. destruct H as [u1 [w1 [Hmk H]]].
  apply bind_Ret_inv in H. destruct H as [u2 [w2 [Hpr H]]].
  apply bind_Ret_inv in H. destruct H as [u3 [w3 [Hop H]]].
  apply bind_Ret_inv in H. destruct H as [u4 [w4 [Hwalk Hdone]]].
  assert (Hd1 : exists d1, trace w1 = trace w ++ d1 /\ archive_members d1 = []).
  { destruct (negb (isdir (rt_cwd rt) (fs w) "dist")).
    - exists [Makedirs "dist"]. split; [apply (os_mkdir_returns _ _ _ _ _ Hmk) | reflexivity].
    - inversion Hmk; subst. exists []. rewrite app_nil_r. split; reflexivity. }
  destruct Hd1 as [d1 [Ht1 Hm1]].
  unfold print, emit in Hpr. inversion Hpr; subst w2. clear Hpr. cbn [fs trace] in *.
  destruct (tarfile_open_w_returns _ _ _ _ _ Hop) as [Ht3 Hfile]. cbn [trace] in Ht3.
  unfold walk_package_files in Hwalk.
  destruct (walk_dirs_adds _ _ _ _ _ _ _ _ Hwalk) as [Hf4 [d4 [Ht4 Hp4]]].
  unfold print, emit in Hdone. inversion Hdone; subst w'. cbn [fs trace].
  exists manifest,
    (d1 ++ [Print ("Creating archive " +++ dq
                   +++ path_join "dist"
                         (make_package_archive_name crt (m_name manifest)
                            (m_version manifest))
                   +++ dq +++ "...");
            External "tarfile.open"
              [path_join "dist"
                 (make_package_archive_name crt (m_name manifest) (m_version manifest));
               "w:gz"]]),
    d4.
  split; [reflexivity |]. split.
  - rewrite Ht4, Ht3, Ht1. rewrite <- !app_assoc. reflexivity.
  - split; [rewrite archive_members_app, Hm1; reflexivity |].
    split; [exact Hp4 |]. rewrite Hf4. exact Hfile.
Qed.

(** X21.  When [dist] returns, every member it added to the archive is
    the manifest file or a file the filter of the package walk accepts,
    stored under its path relative to the package directory; the run
    ends with [Done!]. *)
Theorem dist_adds_selected_files : forall rt crt fuel w w',
    Main.dist rt crt fuel w = (Ret tt, w') ->
    exists manifest done,
      PackageManifest_parse crt (fs w) "." = Returns manifest
      /\ trace w' = trace w ++ done ++ [Print "Done!"]
      /\ Forall (selected (rt_cwd rt) manifest) (archive_members done).
Proof.
  intros rt crt fuel w w' H.
  destruct (dist_returns _ _ _ _ _ H) as [manifest [before [added [Hm [Ht [Hb [Ha _]]]]]]].
  exists manifest, (before ++ added). split; [exact Hm |]. split.
  - rewrite Ht, <- app_assoc. reflexivity.
  - rewrite archive_members_app, Hb. exact Ha.
Qed.

Lemma dist_adds_selected_files_witness :
  exists manifest done,
    PackageManifest_parse MainSample.saved (fs MainSample.packaging) "." = Returns manifest
    /\ trace (snd (Main.dist Sample.rt MainSample.saved 5 MainSample.packaging))
       = trace MainSample.packaging ++ done ++ [Print "Done!"]
    /\ Forall (selected (rt_cwd Sample.rt) manifest) (archive_members done).
Proof.
  assert (H : Main.dist Sample.rt MainSample.saved 5 MainSample.packaging
              = (Ret tt, snd (Main.dist Sample.rt MainSample.saved 5 MainSample.packaging)))
    by (vm_compute; reflexivity).
  exact (dist_adds_selected_files Sample.rt MainSample.saved 5 MainSample.packaging
           (snd (Main.dist Sample.rt MainSample.saved 5 MainSample.packaging)) H).
Defined.

(** X22.  No member that [dist] adds matches a default exclude pattern.
    In particular nothing under [dist/] is added, which is where the
    archive itself is written, and nothing under [ppy_modules/]. *)
Theorem dist_leaves_excluded_out : forall rt crt fuel w w' done,
    Main.dist rt crt fuel w = (Ret tt, w') ->
    trace w' = trace w ++ done ->
    forall filename rel,
      In (filename, rel) (archive_members done) ->
      _match_any_pattern rel default_exclude_patterns = false
      /\ (forall rest, rel <> "dist/" +++ rest)
      /\ (forall rest, rel <> "ppy_modules/" +++ rest).
Proof.
  intros rt crt fuel w w' done H Hdone filename rel Hin.
  destruct (dist_returns _ _ _ _ _ H) as [manifest [before [added [_ [Ht [Hb [Ha _]]]]]]].
  rewrite Hdone in Ht. apply app_inv_head in Ht. subst done.
  rewrite !archive_members_app, Hb in Hin. cbn [app archive_members] in Hin.
  rewrite app_nil_r in Hin.
  assert (Hsel : selected (rt_cwd rt) manifest (filename, rel))
    by (exact (proj1 (Forall_forall _ _) Ha _ Hin)).
  assert (Hno : _match_any_pattern rel default_exclude_patterns = false).
  { destruct Hsel as [[Hrel | Hcheck] _]; cbn [snd] in *.
    - rewrite Hrel. vm_compute. reflexivity.
    - destruct (_match_any_pattern rel default_exclude_patterns) eqn:Hmatch;
        [| reflexivity].
      rewrite (excluded_by_default manifest rel Hmatch) in Hcheck. discriminate. }
  split; [exact Hno |]. split; intros rest Hrel; subst rel.
  - assert (Hdist : fnmatch ("dist/" +++ rest) "dist/*" = true)
      by (apply (fnmatch_under "dist/" rest (chars "dist/")); reflexivity).
    unfold _match_any_pattern, default_exclude_patterns in Hno. cbn [existsb] in Hno.
    rewrite Hdist, ?orb_true_r in Hno. discriminate.
  - assert (Hppy : fnmatch ("ppy_modules/" +++ rest) "ppy_modules/*" = true)
      by (apply (fnmatch_under "ppy_modules/" rest (chars "ppy_modules/")); reflexivity).
    unfold _match_any_pattern, default_exclude_patterns in Hno. cbn [existsb] in Hno.
    rewrite Hppy, ?orb_true_r in Hno. discriminate.
Qed.

Lemma dist_leaves_excluded_out_witness :
  _match_any_pattern "lib.py" default_exclude_patterns = false
  /\ (forall rest, "lib.py" <> "dist/" +++ rest)
  /\ (forall rest, "lib.py" <> "ppy_modules/" +++ rest).
Proof.
  assert (H : Main.dist Sample.rt MainSample.saved 5 MainSample.packaging
              = (Ret tt, snd (Main.dist Sample.rt MainSample.saved 5 MainSample.packaging)))
    by (vm_compute; reflexivity).
  assert (Ht : trace (snd (Main.dist Sample.rt MainSample.saved 5 MainSample.packaging))
               = trace MainSample.packaging
                 ++ trace (snd (Main.dist Sample.rt MainSample.saved 5 MainSample.packaging)))
    by (vm_compute; reflexivity).
  assert (Hin : In ("./lib.py", "lib.py")
                  (archive_members
                     (trace (snd (Main.dist Sample.rt MainSample.saved 5
                                    MainSample.packaging)))))
    by (vm_compute; right; left; reflexivity).
  exact (dist_leaves_excluded_out Sample.rt MainSample.saved 5 MainSample.packaging
           (snd (Main.dist Sample.rt MainSample.saved 5 MainSample.packaging))
           (trace (snd (Main.dist Sample.rt MainSample.saved 5 MainSample.packaging)))
           H Ht "./lib.py" "lib.py" Hin).
Defined.

(** X23.  When [dist] returns, the archive file is there, at the name the
    registry module makes from the name and version of the manifest,
    inside [dist]. *)
Theorem dist_creates_archive : forall rt crt fuel w w' manifest,
    Main.dist rt crt fuel w = (Ret tt, w') ->
    PackageManifest_parse crt (fs w) "." = Returns manifest ->
    isfile (rt_cwd rt) (fs w')
      (path_join "dist"
         (make_package_archive_name crt (m_name manifest) (m_version manifest)))
    = true.
Proof.
  intros rt crt fuel w w' manifest H Hm.
  destruct (dist_returns _ _ _ _ _ H) as [manifest' [before [added [Hm' [_ [_ [_ Hf]]]]]]].
  rewrite Hm in Hm'. inversion Hm'; subst manifest'. exact Hf.
Qed.

Lemma dist_creates_archive_witness :
  isfile (rt_cwd Sample.rt)
    (fs (snd (Main.dist Sample.rt MainSample.saved 5 MainSample.packaging)))
    (path_join "dist"
       (make_package_archive_name MainSample.saved
          (m_name (mkManifest "plain" "0.3.0" [] [] [] [] [] None "."))
          (m_version (mkManifest "plain" "0.3.0" [] [] [] [] [] None "."))))
  = true.
Proof.
  assert (H : Main.dist Sample.rt MainSample.saved 5 MainSample.packaging
              = (Ret tt, snd (Main.dist Sample.rt MainSample.saved 5 MainSample.packaging)))
    by (vm_compute; reflexivity).
  assert (Hm : PackageManifest_parse MainSample.saved (fs MainSample.packaging) "."
               = Returns (mkManifest "plain" "0.3.0" [] [] [] [] [] None "."))
    by (vm_compute; reflexivity).
  exact (dist_creates_archive Sample.rt MainSample.saved 5 MainSample.packaging
           (snd (Main.dist Sample.rt MainSample.saved 5 MainSample.packaging))
           (mkManifest "plain" "0.3.0" [] [] [] [] [] None ".") H Hm).
Defined.

(** ** The [upload] command *)

(** X24.  [upload] of a file that is not there prints the error and exits
    with status 1, before the manifest is read, anyone is asked anything
    or the registry is contacted. *)
Theorem upload_missing_file_exits_one : forall rt crt filename force w,
    isfile (rt_cwd rt) (fs w) filename = false ->
    click_main (Main.upload rt crt filename force) w
    = (Raise (SystemExit "1"),
       mkWorld (fs w)
         (trace w ++ [Print ("error: " +++ dq +++ filename +++ dq +++ " does not exist")])).
Proof.
  intros rt crt filename force w H.
  unfold click_main, Main.upload. unfold bind at 1, get_fs at 1.
  rewrite H. cbn [negb]. unfold bind, print, emit, raise. reflexivity.
Qed.

Lemma upload_missing_file_exits_one_witness :
  click_main (Main.upload Sample.rt MainSample.saved "none.tar.gz" false) MainSample.packaging
  = (Raise (SystemExit "1"),
     mkWorld (fs MainSample.packaging)
       (trace MainSample.packaging
        ++ [Print ("error: " +++ dq +++ "none.tar.gz" +++ dq +++ " does not exist")])).
Proof.
  exact (upload_missing_file_exits_one Sample.rt MainSample.saved "none.tar.gz" false
           MainSample.packaging eq_refl).
Defined.

(** X25.  With both credentials saved, [upload] asks nothing and goes
    straight to the registry.  When the registry accepts, [Done!] is
    printed; a [RegistryError] is printed as [error: registry: ...] and
    the process exits with status 1, without [Done!]; any other exception
    of the registry client leaves the command as it is. *)
Theorem upload_with_saved_credentials :
  forall rt crt filename (force : bool) w manifest user secret,
    isfile (rt_cwd rt) (fs w) filename = true ->
    PackageManifest_parse crt (fs w) "." = Returns manifest ->
    config_get crt "upm.username" = Some user -> truthy user = true ->
    config_get crt "upm.password" = Some secret -> truthy secret = true ->
    let request :=
      External "registry.upload"
        [config_upm_registry crt; user; m_name manifest; m_version manifest; filename;
         if force then "True" else "False"] in
    let answer :=
      registry_upload
        (Registry_new crt (config_upm_registry crt) (Some user) (Some secret))
        (m_name manifest) (m_version manifest) filename force in
    (answer = Returns tt ->
     Main.upload rt crt filename force w
     = (Ret tt, mkWorld (fs w) (trace w ++ [request; Print "Done!"])))
    /\ (forall detail,
           answer = Raises (OtherError "RegistryError" detail) ->
           Main.upload rt crt filename force w
           = (Raise (SystemExit "1"),
              mkWorld (fs w) (trace w ++ [request; Print ("error: registry: " +++ detail)])))
    /\ (forall e,
           answer = Raises e ->
           (forall detail, e <> OtherError "RegistryError" detail) ->
           Main.upload rt crt filename force w
           = (Raise e, mkWorld (fs w) (trace w ++ [request]))).
Proof.
  intros rt crt filename force w manifest user secret Hfile Hparse Hu Htu Hp Htp
    request answer.
  assert (Hrun : Main.upload rt crt filename force w
                 = match answer with
                   | Returns _ =>
                       (Ret tt, mkWorld (fs w) (trace w ++ [request; Print "Done!"]))
                   | Raises e =>
                       match e with
                       | OtherError class detail =>
                           if String.eqb class "RegistryError" then
                             (Raise (SystemExit "1"),
                              mkWorld (fs w)
                                (trace w
                                 ++ [request; Print ("error: registry: " +++ detail)]))
                           else (Raise e, mkWorld (fs w) (trace w ++ [request]))
                       | _ => (Raise e, mkWorld (fs w) (trace w ++ [request]))
                       end
                   end).
  { unfold Main.upload. unfold bind at 1, get_fs at 1. rewrite Hfile. cbn [negb].
    unfold bind at 1, ret at 1. unfold bind at 1, get_fs at 1.
    unfold bind at 1, lift_out at 1. rewrite Hparse. cbn [res_of].
    rewrite Hu, Hp. unfold missing. rewrite Htu, Htp. cbn [negb orb].
    unfold bind at 1, ret at 1. unfold bind at 1, ret at 1. unfold bind at 1, ret at 1.
    cbn [text_of]. fold request. fold answer.
    unfold bind at 1, try_except, bind at 1, emit at 1, lift_out. cbn [fs trace].
    destruct answer as [[] | e]; cbn [res_of].
    - unfold print, emit. cbn [fs trace]. rewrite <- app_assoc. reflexivity.
    - destruct e; try reflexivity.
      destruct (String.eqb class "RegistryError"); [| reflexivity].
      unfold bind, print, emit, raise. cbn [fs trace]. rewrite <- app_assoc. reflexivity. }
  split; [| split].
  - intros Ha. rewrite Hrun, Ha. reflexivity.
  - intros detail Ha. rewrite Hrun, Ha. reflexivity.
  - intros e Ha Hne. rewrite Hrun, Ha. destruct e; try reflexivity.
    destruct (String.eqb class "RegistryError") eqn:Hc; [| reflexivity].
    apply String.eqb_eq in Hc. subst class. exfalso. apply (Hne detail). reflexivity.
Qed.

Lemma upload_with_saved_credentials_witness :
  Main.upload Sample.rt MainSample.saved "dist/plain-0.2.0.tar.gz" true MainSample.packaging
  = (Ret tt,
     mkWorld (fs MainSample.packaging)
       (trace MainSample.packaging
        ++ [External "registry.upload"
              ["https://registry.example"; "ann"; "plain"; "0.3.0";
               "dist/plain-0.2.0.tar.gz"; "True"];
            Print "Done!"])).
Proof.
  exact (proj1 (upload_with_saved_credentials Sample.rt MainSample.saved
                  "dist/plain-0.2.0.tar.gz" true MainSample.packaging
                  (mkManifest "plain" "0.3.0" [] [] [] [] [] None ".") "ann" "secret"
                  eq_refl eq_refl eq_refl eq_refl eq_refl eq_refl)
           eq_refl).
Defined.

(** The last stage of [upload]: the request, and what is made of the
    answer. *)
Lemma upload_registry_stage : forall (request : event) (answer : Outcome unit) w,
    exists r rest,
      (try_except
         (emit request ;; lift_out answer)
         (fun exc =>
            match exc with
            | OtherError class detail =>
                if String.eqb class "RegistryError" then
                  Some (print ("error: registry: " +++ detail) ;; raise (SystemExit "1"))
                else None
            | _ => None
            end) ;;
       print "Done!") w
      = (r, mkWorld (fs w) (trace w ++ request :: rest))
      /\ prompts rest = [] /\ registry_requests rest = [].
Proof.
  intros request answer w.
  unfold bind at 1, try_except, bind at 1, emit at 1, lift_out. cbn [fs trace].
  destruct answer as [[] | e]; cbn [res_of].
  - exists (Ret tt), [Print "Done!"]. unfold print, emit. cbn [fs trace].
    rewrite <- app_assoc. repeat split.
  - assert (Hother : exists r rest,
               (@Raise unit e, mkWorld (fs w) (trace w ++ [request]))
               = (r, mkWorld (fs w) (trace w ++ request :: rest))
               /\ prompts rest = [] /\ registry_requests rest = [])
      by (exists (Raise e), []; repeat split).
    destruct e; try exact Hother.
    destruct (String.eqb class "RegistryError"); [| exact Hother].
    exists (Raise (SystemExit "1")), [Print ("error: registry: " +++ detail)].
    unfold bind, print, emit, raise. cbn [fs trace]. rewrite <- app_assoc. repeat split.
Qed.

(** X26.  [upload] asks only for the credentials that are not saved, the
    user name before the password, after one line that names the
    registry; with both saved that line is not printed.  The registry is
    then called once, with what was saved or typed, and nothing is asked
    afterwards. *)
Theorem upload_asks_for_missing_credentials :
  forall rt crt filename (force : bool) w manifest typed hidden,
    isfile (rt_cwd rt) (fs w) filename = true ->
    PackageManifest_parse crt (fs w) "." = Returns manifest ->
    input crt "Username: " = Returns typed ->
    getpass_getpass crt = Returns hidden ->
    let saved_name := config_get crt "upm.username" in
    let saved_secret := config_get crt "upm.password" in
    let username := if missing saved_name then Some typed else saved_name in
    let asked :=
      (if missing saved_name || missing saved_secret
       then [Print ("Credentials for " +++ config_upm_registry crt)] else [])
      ++ (if missing saved_name then [External "input" ["Username: "]] else [])
      ++ (if missing saved_secret then [External "getpass" ["Password: "]] else []) in
    exists r rest,
      Main.upload rt crt filename force w
      = (r, mkWorld (fs w)
              (trace w ++ asked
               ++ External "registry.upload"
                    [config_upm_registry crt; text_of username; m_name manifest;
                     m_version manifest; filename; if force then "True" else "False"]
                  :: rest))
      /\ prompts rest = [] /\ registry_requests rest = [].
Proof.
  intros rt crt filename force w manifest typed hidden Hfile Hparse Hin Hget
    saved_name saved_secret username asked.
  unfold Main.upload. unfold bind at 1, get_fs at 1. rewrite Hfile. cbn [negb].
  unfold bind at 1, ret at 1. unfold bind at 1, get_fs at 1.
  unfold bind at 1, lift_out at 1. rewrite Hparse. cbn [res_of].
  fold saved_name. fold saved_secret. rewrite Hin, Hget.
  subst username asked.
  destruct (missing saved_name); destruct (missing saved_secret); cbn [orb app].
  - unfold bind at 1, print at 1, emit at 1.
    unfold bind at 1, bind at 1, ask at 1, bind at 1, emit at 1, lift_out at 1, ret at 1.
    cbn [res_of fs trace].
    unfold bind at 1, bind at 1, ask at 1, bind at 1, emit at 1, lift_out at 1, ret at 1.
    cbn [res_of fs trace].
    match goal with
    | |- context [bind (try_except (bind (emit ?q) (fun _ => lift_out ?a)) _) _ ?w0] =>
        destruct (upload_registry_stage q a w0) as [r [rest [Hrun [Hp Hr]]]]
    end.
    exists r, rest. cbn [fs trace] in Hrun. rewrite Hrun.
    rewrite <- !app_assoc. cbn [app]. repeat split; assumption.
  - unfold bind at 1, print at 1, emit at 1.
    unfold bind at 1, bind at 1, ask at 1, bind at 1, emit at 1, lift_out at 1, ret at 1.
    cbn [res_of fs trace].
    unfold bind at 1, ret at 1.
    match goal with
    | |- context [bind (try_except (bind (emit ?q) (fun _ => lift_out ?a)) _) _ ?w0] =>
        destruct (upload_registry_stage q a w0) as [r [rest [Hrun [Hp Hr]]]]
    end.
    exists r, rest. cbn [fs trace] in Hrun. rewrite Hrun.
    rewrite <- !app_assoc. cbn [app]. repeat split; assumption.
  - unfold bind at 1, print at 1, emit at 1.
    unfold bind at 1, ret at 1.
    unfold bind at 1, bind at 1, ask at 1, bind at 1, emit at 1, lift_out at 1, ret at 1.
    cbn [res_of fs trace].
    match goal with
    | |- context [bind (try_except (bind (emit ?q) (fun _ => lift_out ?a)) _) _ ?w0] =>
        destruct (upload_registry_stage q a w0) as [r [rest [Hrun [Hp Hr]]]]
    end.
    exists r, rest. cbn [fs trace] in Hrun. rewrite Hrun.
    rewrite <- !app_assoc. cbn [app]. repeat split; assumption.
  - unfold bind at 1, ret at 1. unfold bind at 1, ret at 1. unfold bind at 1, ret at 1.
    match goal with
    | |- context [bind (try_except (bind (emit ?q) (fun _ => lift_out ?a)) _) _ ?w0] =>
        destruct (upload_registry_stage q a w0) as [r [rest [Hrun [Hp Hr]]]]
    end.
    exists r, rest. rewrite Hrun. repeat split; assumption.
Qed.

Lemma upload_asks_for_missing_credentials_witness :
  exists r rest,
    Main.upload Sample.rt MainSample.unsaved "dist/plain-0.2.0.tar.gz" false
      MainSample.packaging
    = (r, mkWorld (fs MainSample.packaging)
            (trace MainSample.packaging
             ++ ([Print ("Credentials for " +++ "https://registry.example")]
                 ++ [External "input" ["Username: "]]
                 ++ [External "getpass" ["Password: "]])
             ++ External "registry.upload"
                  ["https://registry.example"; "bob"; "plain"; "0.3.0";
                   "dist/plain-0.2.0.tar.gz"; "False"]
                :: rest))
    /\ prompts rest = [] /\ registry_requests rest = [].
Proof.
  exact (upload_asks_for_missing_credentials Sample.rt MainSample.unsaved
           "dist/plain-0.2.0.tar.gz" false MainSample.packaging
           (mkManifest "plain" "0.3.0" [] [] [] [] [] None ".") "bob" "hidden"
           eq_refl eq_refl eq_refl eq_refl).
Defined.

(** ** The [register] command *)

(** X27.  [register] asks for what was not given on the command line, in
    the order user name, password, e-mail address, and for nothing else;
    it then sends one request, through a registry client made without
    credentials, and prints the answer.  An exception of the registry
    client is not caught here: it leaves the command as it is. *)
Theorem register_asks_for_what_is_missing :
  forall crt username password email w typed hidden address,
    input crt "Username: " = Returns typed ->
    getpass_getpass crt = Returns hidden ->
    input crt "E-Mail: " = Returns address ->
    let name := if missing username then typed else text_of username in
    let secret := if missing password then hidden else text_of password in
    let mail := if missing email then address else text_of email in
    let asked :=
      (if missing username then [External "input" ["Username: "]] else [])
      ++ (if missing password then [External "getpass" ["Password: "]] else [])
      ++ (if missing email then [External "input" ["E-Mail: "]] else [])
      ++ [External "registry.register" [name; mail]] in
    Main.register crt username password email w
    = match registry_register (Registry_new crt (config_upm_registry crt) None None)
              name secret mail with
      | Returns answer => (Ret tt, mkWorld (fs w) (trace w ++ asked ++ [Print answer]))
      | Raises exc => (Raise exc, mkWorld (fs w) (trace w ++ asked))
      end.
Proof.
  intros crt username password email w typed hidden address Hu Hp He name secret mail asked.
  unfold Main.register. rewrite Hu, Hp, He. subst name secret mail asked.
  destruct (missing username); destruct (missing password); destruct (missing email);
    cbv beta iota delta [bind ask emit lift_out ret print res_of text_of];
    cbn [fs trace app];
    match goal with
    | |- context [registry_register ?reg ?a ?b ?c] =>
        destruct (registry_register reg a b c) as [answer | exc]
    end;
    cbn [res_of fs trace]; rewrite <- ?app_assoc; reflexivity.
Qed.

Lemma register_asks_for_what_is_missing_witness :
  Main.register MainSample.unsaved (Some "carl") None None MainSample.packaging
  = (Ret tt,
     mkWorld (fs MainSample.packaging)
       (trace MainSample.packaging
        ++ ([] ++ [External "getpass" ["Password: "]] ++ [External "input" ["E-Mail: "]]
            ++ [External "registry.register" ["carl"; "bob"]])
        ++ [Print "registered carl"])).
Proof.
  exact (register_asks_for_what_is_missing MainSample.unsaved (Some "carl") None None
           MainSample.packaging "bob" "hidden" "bob" eq_refl eq_refl eq_refl).
Defined.
